(** * Personal expense tracker: a shallow embedding of [main.py]

    The development follows the source top to bottom.  The first part
    embeds the pieces of the Python runtime the tracker relies on
    ([str] methods, [float], [datetime.strptime], the [csv] module, text
    files), following CPython 3.11; the second part embeds the class
    [PersonalExpenseTracker] method by method; the third part gathers
    the notions and the sample data of the statements; the last part
    states and proves the properties of the specification.

    Conventions.
    - Text is [string]: a sequence of characters with code points below
      256.
    - A Python [float] is a primitive binary64 [float]; conversions from
      and to text go through [spec_float].
    - An exception is a value of [exn]; a computation that may raise
      returns a [result].
    - Printed lines are values of [output], carrying the values that the
      source interpolates into the message. *)

From Stdlib Require Import ZArith NArith Bool Ascii String List Lia.
From Stdlib Require Import Floats.
From stdpp Require Import base option list gmap strings.

Local Open Scope Z_scope.

(** ** Exceptions *)

Inductive exn : Type :=
| ValueError
| KeyError
| TypeError
| IndexError
| EOFError
| CsvError.

Inductive result (A : Type) : Type :=
| Ok (a : A)
| Raise (e : exn).
Arguments Ok {A} a.
Arguments Raise {A} e.

Definition rbind {A B : Type} (r : result A) (k : A -> result B) : result B :=
  match r with
  | Ok a => k a
  | Raise e => Raise e
  end.

(** ** Characters and [str] methods *)

Module Str.

Definition code (c : ascii) : N := N_of_ascii c.

Definition is_char (n : N) (c : ascii) : bool := (code c =? n)%N.

Definition LF : ascii := "010"%char.
Definition CR : ascii := "013"%char.
Definition comma : ascii := ","%char.
Definition dquote : ascii := "034"%char.

(** [c.isspace()] for one character. *)
Definition isspace (c : ascii) : bool :=
  let n := code c in
  ((9 <=? n) && (n <=? 13) || (28 <=? n) && (n <=? 32)
   || (n =? 133) || (n =? 160))%N.

(** Characters at which [str.splitlines] ends a line. *)
Definition is_linebreak (c : ascii) : bool :=
  let n := code c in
  ((10 <=? n) && (n <=? 13) || (28 <=? n) && (n <=? 30) || (n =? 133))%N.

Fixpoint lstrip (s : string) : string :=
  match s with
  | EmptyString => EmptyString
  | String c s' => if isspace c then lstrip s' else s
  end.

Fixpoint rstrip (s : string) : string :=
  match s with
  | EmptyString => EmptyString
  | String c s' =>
      match rstrip s' with
      | EmptyString => if isspace c then EmptyString else String c EmptyString
      | r => String c r
      end
  end.

(** [s.strip()] *)
Definition strip (s : string) : string := rstrip (lstrip s).

(** [s.startswith(p)] *)
Fixpoint startswith (p s : string) : bool :=
  match p with
  | EmptyString => true
  | String a p' =>
      match s with
      | EmptyString => false
      | String b s' => Ascii.eqb a b && startswith p' s'
      end
  end.

(** [s.split(sep)] for a one-character separator. *)
Fixpoint split (sep : ascii) (s : string) : list string :=
  match s with
  | EmptyString => [EmptyString]
  | String c s' =>
      if Ascii.eqb c sep then EmptyString :: split sep s'
      else match split sep s' with
           | h :: t => String c h :: t
           | [] => [String c EmptyString]
           end
  end.

(** [''.join(l)] *)
Fixpoint join (l : list string) : string :=
  match l with
  | [] => EmptyString
  | s :: l' => s +:+ join l'
  end.

(** [s.splitlines()]: lines without their terminators; a carriage
    return followed by a line feed ends one line. *)
Fixpoint splitlines (s : string) : list string :=
  match s with
  | EmptyString => []
  | String c s' =>
      if is_linebreak c then
        EmptyString ::
          (if is_char 13 c then
             match s' with
             | String c' s'' => if is_char 10 c' then splitlines s'' else splitlines s'
             | EmptyString => []
             end
           else splitlines s')
      else
        match splitlines s' with
        | l :: ls => String c l :: ls
        | [] => [String c EmptyString]
        end
  end.

End Str.

(** ** [float]: conversion from text *)

Module PyFloat.

Definition digit (c : ascii) : option Z :=
  let n := Str.code c in
  if ((48 <=? n) && (n <=? 57))%N then Some (Z.of_N n - 48) else None.

Definition is_digit (c : ascii) : bool :=
  match digit c with Some _ => true | None => false end.

Definition is_underscore (c : ascii) : bool := Str.is_char 95 c.

(** The characters [float()] drops around a numeral: the C locale's
    white space, and the two non-ASCII spaces below 256, which the
    conversion first turns into blanks. *)
Definition is_space (c : ascii) : bool :=
  let n := Str.code c in
  ((9 <=? n) && (n <=? 13) || (n =? 32) || (n =? 133) || (n =? 160))%N.

(** ASCII lower case, for the case-insensitive [inf] and [nan]. *)
Definition lower (c : ascii) : ascii :=
  let n := Str.code c in
  if ((65 <=? n) && (n <=? 90))%N then ascii_of_N (n + 32) else c.

Fixpoint lower_str (s : string) : string :=
  match s with
  | EmptyString => EmptyString
  | String c s' => String (lower c) (lower_str s')
  end.

(** Underscores are accepted between two digits only and are dropped;
    [prev] is the previous character of the input. *)
Fixpoint drop_underscores (prev : ascii) (s : string) : option string :=
  match s with
  | EmptyString => if is_underscore prev then None else Some EmptyString
  | String c s' =>
      if is_underscore c then
        if is_digit prev then drop_underscores c s' else None
      else if is_underscore prev && negb (is_digit c) then None
      else option_map (String c) (drop_underscores c s')
  end.

Fixpoint lstrip (s : string) : string :=
  match s with
  | EmptyString => EmptyString
  | String c s' => if is_space c then lstrip s' else s
  end.

Fixpoint rstrip (s : string) : string :=
  match s with
  | EmptyString => EmptyString
  | String c s' =>
      match rstrip s' with
      | EmptyString => if is_space c then EmptyString else String c EmptyString
      | r => String c r
      end
  end.

(** Correctly rounded (to nearest, ties to even) binary64 value of
    [m * 10 ^ e10], for a non-negative [m]. *)
Definition round_decimal (neg : bool) (m e10 : Z) : spec_float :=
  match m with
  | Z0 => S754_zero neg
  | Zpos p =>
      if 0 <=? e10 then
        binary_normalize prec emax (if neg then - (m * 10 ^ e10) else m * 10 ^ e10) 0 neg
      else
        let '(q, e', l) := SFdiv_core_binary prec emax m 0 (10 ^ (- e10)) 0 in
        binary_round_aux prec emax neg q e' l
  | Zneg _ => S754_nan
  end.

(** Leading decimal digits of [s]: their value on top of [acc], how
    many there are on top of [n], and the rest of [s]. *)
Fixpoint span_digits (s : string) (acc n : Z) : Z * Z * string :=
  match s with
  | EmptyString => (acc, n, s)
  | String c s' =>
      match digit c with
      | Some d => span_digits s' (10 * acc + d) (n + 1)
      | None => (acc, n, s)
      end
  end.

Definition parse_sign (s : string) : bool * string :=
  match s with
  | String c s' =>
      if Str.is_char 45 c then (true, s')
      else if Str.is_char 43 c then (false, s')
      else (false, s)
  | EmptyString => (false, s)
  end.

(** A decimal numeral: sign, digits with an optional point, optional
    exponent; the whole text must be consumed. *)
Definition parse_decimal (t : string) : option spec_float :=
  let '(neg, s1) := parse_sign t in
  let '(ip, ni, s2) := span_digits s1 0 0 in
  let '(m, nf, s3) :=
    match s2 with
    | String c s2' =>
        if Str.is_char 46 c then span_digits s2' ip 0 else (ip, 0, s2)
    | EmptyString => (ip, 0, s2)
    end in
  if ni + nf =? 0 then None
  else
    match s3 with
    | EmptyString => Some (round_decimal neg m (- nf))
    | String c s4 =>
        if Str.is_char 101 (lower c) then
          let '(eneg, s5) := parse_sign s4 in
          let '(ev, ne, s6) := span_digits s5 0 0 in
          if ne =? 0 then None
          else
            match s6 with
            | EmptyString =>
                Some (round_decimal neg m ((if eneg then - ev else ev) - nf))
            | String _ _ => None
            end
        else None
    end.

(** [inf], [infinity] and [nan], with an optional sign, in any case. *)
Definition parse_inf_nan (t : string) : option spec_float :=
  let '(neg, s) := parse_sign t in
  let l := lower_str s in
  if String.eqb l "inf" || String.eqb l "infinity" then Some (S754_infinity neg)
  else if String.eqb l "nan" then Some S754_nan
  else None.

(** [float(s)] for a [str] argument: [ValueError] unless [s] is a
    numeral. *)
Definition of_str (s : string) : result float :=
  match drop_underscores "000"%char s with
  | None => Raise ValueError
  | Some u =>
      let t := rstrip (lstrip u) in
      match parse_decimal t with
      | Some f => Ok (SF2Prim f)
      | None =>
          match parse_inf_nan t with
          | Some f => Ok (SF2Prim f)
          | None => Raise ValueError
          end
      end
  end.

(** *** Conversion to text: [repr(x)], which [str(x)] and the [csv]
    writer use.  The digits are the shortest decimal numeral that
    converts back to [x], and among those of that length the closest
    to [x]. *)

Definition digit_char (d : Z) : ascii := ascii_of_N (48 + Z.to_N (d mod 10)).

Fixpoint digits_of (fuel : nat) (c : Z) (acc : list Z) : list Z :=
  match fuel with
  | O => acc
  | S fuel' =>
      if c <=? 0 then acc else digits_of fuel' (c / 10) (c mod 10 :: acc)
  end.

Fixpoint text_of_digits (ds : list Z) : string :=
  match ds with
  | [] => EmptyString
  | d :: ds' => String (digit_char d) (text_of_digits ds')
  end.

Fixpoint drop_zeros (ds : list Z) : list Z :=
  match ds with
  | [] => []
  | d :: ds' => if d =? 0 then drop_zeros ds' else ds
  end.

Definition strip_trailing_zeros (ds : list Z) : list Z :=
  rev (drop_zeros (rev ds)).

(** The value [num / den * 10 ^ p] as a fraction. *)
Definition scale10 (num den p : Z) : Z * Z :=
  if 0 <=? p then (num * 10 ^ p, den) else (num, den * 10 ^ (- p)).

(** The least [j >= k] with [a / b < 10 ^ (j - k)], looking at [fuel]
    values at most. *)
Fixpoint find_decpt (fuel : nat) (a b k : Z) : Z :=
  match fuel with
  | O => k
  | S fuel' => if a <? b then k else find_decpt fuel' a (10 * b) (k + 1)
  end.

(** Does the numeral [c * 10 ^ p] convert to the float [m * 2 ^ e]? *)
Definition converts_to (m : positive) (e c p : Z) : bool :=
  SFeqb (round_decimal false c p) (S754_finite false m e).

(** The [n]-digit numerals next to [num / den], which lies between
    [10 ^ (k - 1)] and [10 ^ k]: the one that converts to the float, and
    the closer one (the even one on a tie) when both do. *)
Definition candidate (m : positive) (e num den k : Z) (n : nat) : option Z :=
  let p := k - Z.of_nat n in
  let '(a, b) := scale10 num den (- p) in
  let lo := a / b in
  let r := a mod b in
  let hi := lo + 1 in
  match converts_to m e lo p, converts_to m e hi p with
  | true, true =>
      match 2 * r ?= b with
      | Lt => Some lo
      | Gt => Some hi
      | Eq => Some (if Z.even lo then lo else hi)
      end
  | true, false => Some lo
  | false, true => Some hi
  | false, false => None
  end.

(** Tries the lengths [n], [n + 1], ... ([fuel] of them); falls back on
    the truncated numeral of the last length. *)
Fixpoint shortest (fuel : nat) (m : positive) (e num den k : Z) (n : nat) : Z * Z :=
  match candidate m e num den k n with
  | Some c => (c, k - Z.of_nat n)
  | None =>
      match fuel with
      | O => (let '(a, b) := scale10 num den (Z.of_nat n - k) in a / b, k - Z.of_nat n)
      | S fuel' => shortest fuel' m e num den k (S n)
      end
  end.

(** The digits of the shortest numeral for [m * 2 ^ e], without
    trailing zeros, and the position of the decimal point ([decpt]):
    the value is [0.d1d2... * 10 ^ decpt]. *)
Definition shortest_digits (m : positive) (e : Z) : list Z * Z :=
  let '(num, den) := if 0 <=? e then (Zpos m * 2 ^ e, 1) else (Zpos m, 2 ^ (- e)) in
  let k := find_decpt 640 (num * 10 ^ 324) den (- 324) in
  let '(c, p) := shortest 16 m e num den k 1 in
  let ds := digits_of 18 c [] in
  (strip_trailing_zeros ds, Z.of_nat (length ds) + p).

Definition zeros (n : Z) : string := text_of_digits (repeat 0 (Z.to_nat n)).

(** The exponent as [printf("%+.02d")] writes it. *)
Definition text_of_exponent (x : Z) : string :=
  String (if x <? 0 then "-"%char else "+"%char)
    (let a := Z.abs x in
     if a <? 10 then text_of_digits [0; a] else text_of_digits (digits_of 4 a [])).

(** Layout of [repr]: scientific notation when the decimal point falls
    more than 16 places to the right or more than 3 to the left of the
    first digit, positional notation otherwise. *)
Definition layout (ds : list Z) (decpt : Z) : string :=
  let nd := Z.of_nat (length ds) in
  if (decpt <=? -4) || (16 <? decpt) then
    match ds with
    | [] => EmptyString
    | d :: ds' =>
        String (digit_char d)
          ((match ds' with
            | [] => EmptyString
            | _ :: _ => String "."%char (text_of_digits ds')
            end)
           +:+ String "e"%char (text_of_exponent (decpt - 1)))
    end
  else if decpt <=? 0 then
    "0." +:+ zeros (- decpt) +:+ text_of_digits ds
  else if nd <=? decpt then
    text_of_digits ds +:+ zeros (decpt - nd) +:+ ".0"
  else
    text_of_digits (take (Z.to_nat decpt) ds) +:+ "."
    +:+ text_of_digits (drop (Z.to_nat decpt) ds).

Definition repr (x : float) : string :=
  match Prim2SF x with
  | S754_nan => "nan"
  | S754_infinity s => if s then "-inf" else "inf"
  | S754_zero s => if s then "-0.0" else "0.0"
  | S754_finite s m e =>
      let '(ds, decpt) := shortest_digits m e in
      (if s then "-" else "") +:+ layout ds decpt
  end.

End PyFloat.

(** ** [datetime.strptime(s, "%Y-%m-%d")] *)

Module Datetime.

Definition is_leap (y : Z) : bool :=
  (y mod 4 =? 0) && (negb (y mod 100 =? 0) || (y mod 400 =? 0)).

Definition days_in_month (y m : Z) : Z :=
  if m =? 2 then (if is_leap y then 29 else 28)
  else if (m =? 4) || (m =? 6) || (m =? 9) || (m =? 11) then 30
  else 31.

(** The range checks of the [date(y, m, d)] constructor. *)
Definition valid_date (y m d : Z) : bool :=
  (1 <=? y) && (y <=? 9999) && (1 <=? m) && (m <=? 12)
  && (1 <=? d) && (d <=? days_in_month y m).

Definition digit_in (lo hi : Z) (c : ascii) : option Z :=
  match PyFloat.digit c with
  | Some d => if (lo <=? d) && (d <=? hi) then Some d else None
  | None => None
  end.

(** The format compiles to the regular expression
    [(\d\d\d\d)-(1[0-2]|0[1-9]|[1-9])-(3[0-1]|[1-2]\d|0[1-9]|[1-9]| [1-9])].
    Each group below yields its matches at the head of [s] in the
    order in which the alternatives are tried. *)
Definition match_Y (s : string) : option (Z * string) :=
  match s with
  | String a (String b (String c (String d r))) =>
      match PyFloat.digit a, PyFloat.digit b, PyFloat.digit c, PyFloat.digit d with
      | Some x1, Some x2, Some x3, Some x4 =>
          Some (1000 * x1 + 100 * x2 + 10 * x3 + x4, r)
      | _, _, _, _ => None
      end
  | _ => None
  end.

(** One alternative made of two characters, and one made of a single
    character. *)
Definition two (f g : ascii -> option Z) (s : string) : list (Z * string) :=
  match s with
  | String a (String b r) =>
      match f a, g b with
      | Some x, Some y => [(10 * x + y, r)]
      | _, _ => []
      end
  | _ => []
  end.

Definition one (f : ascii -> option Z) (s : string) : list (Z * string) :=
  match s with
  | String a r => match f a with Some x => [(x, r)] | None => [] end
  | EmptyString => []
  end.

Definition blank (c : ascii) : option Z :=
  if Str.is_char 32 c then Some 0 else None.

Definition match_m (s : string) : list (Z * string) :=
  two (digit_in 1 1) (digit_in 0 2) s
  ++ two (digit_in 0 0) (digit_in 1 9) s
  ++ one (digit_in 1 9) s.

Definition match_d (s : string) : list (Z * string) :=
  two (digit_in 3 3) (digit_in 0 1) s
  ++ two (digit_in 1 2) (digit_in 0 9) s
  ++ two (digit_in 0 0) (digit_in 1 9) s
  ++ one (digit_in 1 9) s
  ++ two blank (digit_in 1 9) s.

Definition hyphen (s : string) : option string :=
  match s with
  | String c r => if Str.is_char 45 c then Some r else None
  | EmptyString => None
  end.

(** The month alternatives are tried in order until the rest of the
    pattern matches. *)
Fixpoint after_month (y : Z) (ms : list (Z * string)) : option (Z * Z * Z * string) :=
  match ms with
  | [] => None
  | (m, r) :: ms' =>
      match hyphen r with
      | Some r' =>
          match match_d r' with
          | (d, rest) :: _ => Some (y, m, d, rest)
          | [] => after_month y ms'
          end
      | None => after_month y ms'
      end
  end.

(** [format_regex.match(data_string)]: the groups and the unmatched
    rest. *)
Definition regex_match (s : string) : option (Z * Z * Z * string) :=
  match match_Y s with
  | Some (y, r) =>
      match hyphen r with
      | Some r' => after_month y (match_m r')
      | None => None
      end
  | None => None
  end.

(** [datetime.strptime(s, "%Y-%m-%d")]: the year, month and day, or
    [ValueError] when the text does not match, when data remains after
    the match, or when the date does not exist. *)
Definition strptime (s : string) : result (Z * Z * Z) :=
  match regex_match s with
  | Some (y, m, d, EmptyString) =>
      if valid_date y m d then Ok (y, m, d) else Raise ValueError
  | _ => Raise ValueError
  end.

End Datetime.

(** ** Text files *)

Module TextFile.

(** Reading in text mode with universal newlines: a carriage return,
    alone or followed by a line feed, is read as a line feed. *)
Fixpoint universal_newlines (s : string) : string :=
  match s with
  | EmptyString => EmptyString
  | String c s' =>
      if Str.is_char 13 c then
        String Str.LF
          match s' with
          | String c' s'' =>
              if Str.is_char 10 c' then universal_newlines s'' else universal_newlines s'
          | EmptyString => EmptyString
          end
      else String c (universal_newlines s')
  end.

(** The lines of a text, each with its closing line feed (the last one
    may lack it). *)
Fixpoint lines (s : string) : list string :=
  match s with
  | EmptyString => []
  | String c s' =>
      if Str.is_char 10 c then String c EmptyString :: lines s'
      else
        match lines s' with
        | l :: ls => String c l :: ls
        | [] => [String c EmptyString]
        end
  end.

(** [file.readlines()] on a file opened with [open(name, 'r')]. *)
Definition readlines (content : string) : list string :=
  lines (universal_newlines content).

End TextFile.

(** ** The [csv] module, with the default ([excel]) dialect *)

Module Csv.

(** [csv.field_size_limit()] *)
Definition field_limit : Z := 131072.

(** *** Writer *)

(** The characters that make the writer quote a field: the delimiter,
    the quote character and those of the line terminator. *)
Definition special (c : ascii) : bool :=
  Str.is_char 44 c || Str.is_char 34 c || Str.is_char 13 c || Str.is_char 10 c.

Fixpoint needs_quotes (s : string) : bool :=
  match s with
  | EmptyString => false
  | String c s' => special c || needs_quotes s'
  end.

Fixpoint double_quotes (s : string) : string :=
  match s with
  | EmptyString => EmptyString
  | String c s' =>
      if Str.is_char 34 c then String c (String c (double_quotes s'))
      else String c (double_quotes s')
  end.

Definition write_field (s : string) : string :=
  if needs_quotes s
  then String Str.dquote (double_quotes s +:+ String Str.dquote EmptyString)
  else s.

Fixpoint join_fields (fs : list string) : string :=
  match fs with
  | [] => EmptyString
  | [f] => write_field f
  | f :: fs' => write_field f +:+ String Str.comma (join_fields fs')
  end.

Definition lineterminator : string := String Str.CR (String Str.LF EmptyString).

(** [writer.writerow(fs)]: the text written.  A row made of one empty
    field is written as a pair of quotes. *)
Definition writerow (fs : list string) : string :=
  match fs with
  | [EmptyString] => String Str.dquote (String Str.dquote lineterminator)
  | _ => join_fields fs +:+ lineterminator
  end.

(** *** Reader *)

Inductive pstate : Type :=
| START_RECORD
| START_FIELD
| IN_FIELD
| IN_QUOTED_FIELD
| QUOTE_IN_QUOTED_FIELD
| EAT_CRNL.

(** The parser: the fields of the record read so far, the characters
    of the field being read, and the state. *)
Record parser : Type := {
  fields : list string;
  field : string;
  state : pstate
}.

Definition parse_reset : parser :=
  {| fields := []; field := EmptyString; state := START_RECORD |}.

Definition set_state (p : parser) (st : pstate) : parser :=
  {| fields := fields p; field := field p; state := st |}.

Definition parse_save_field (p : parser) (st : pstate) : parser :=
  {| fields := fields p ++ [field p]; field := EmptyString; state := st |}.

Definition parse_add_char (p : parser) (c : ascii) (st : pstate) : result parser :=
  if field_limit <=? Z.of_nat (String.length (field p)) then Raise CsvError
  else Ok {| fields := fields p;
             field := field p +:+ String c EmptyString;
             state := st |}.

Definition is_newline (c : ascii) : bool := Str.is_char 10 c || Str.is_char 13 c.

(** One step of the parser; [None] stands for the end of a line of
    input. *)
Definition start_field (p : parser) (c : option ascii) : result parser :=
  match c with
  | None => Ok (parse_save_field p START_RECORD)
  | Some ch =>
      if is_newline ch then Ok (parse_save_field p EAT_CRNL)
      else if Str.is_char 34 ch then Ok (set_state p IN_QUOTED_FIELD)
      else if Str.is_char 44 ch then Ok (parse_save_field p START_FIELD)
      else parse_add_char p ch IN_FIELD
  end.

Definition parse_process_char (p : parser) (c : option ascii) : result parser :=
  match state p with
  | START_RECORD =>
      match c with
      | None => Ok p
      | Some ch =>
          if is_newline ch then Ok (set_state p EAT_CRNL) else start_field p c
      end
  | START_FIELD => start_field p c
  | IN_FIELD =>
      match c with
      | None => Ok (parse_save_field p START_RECORD)
      | Some ch =>
          if is_newline ch then Ok (parse_save_field p EAT_CRNL)
          else if Str.is_char 44 ch then Ok (parse_save_field p START_FIELD)
          else parse_add_char p ch IN_FIELD
      end
  | IN_QUOTED_FIELD =>
      match c with
      | None => Ok p
      | Some ch =>
          if Str.is_char 34 ch then Ok (set_state p QUOTE_IN_QUOTED_FIELD)
          else parse_add_char p ch IN_QUOTED_FIELD
      end
  | QUOTE_IN_QUOTED_FIELD =>
      match c with
      | None => Ok (parse_save_field p START_RECORD)
      | Some ch =>
          if Str.is_char 34 ch then parse_add_char p ch IN_QUOTED_FIELD
          else if Str.is_char 44 ch then Ok (parse_save_field p START_FIELD)
          else if is_newline ch then Ok (parse_save_field p EAT_CRNL)
          else parse_add_char p ch IN_FIELD
      end
  | EAT_CRNL =>
      match c with
      | None => Ok (set_state p START_RECORD)
      | Some ch => if is_newline ch then Ok p else Raise CsvError
      end
  end.

(** The characters of one line, then the end of the line. *)
Fixpoint feed (p : parser) (s : string) : result parser :=
  match s with
  | EmptyString => parse_process_char p None
  | String c s' => rbind (parse_process_char p (Some c)) (fun p' => feed p' s')
  end.

Definition pending (p : parser) : bool :=
  negb (String.eqb (field p) EmptyString)
  || match state p with IN_QUOTED_FIELD => true | _ => false end.

(** Iterating over [csv.reader(lines)]: the records produced, in
    order, and the exception that ended the iteration, if any.  A
    record is complete when the parser is back in [START_RECORD] at the
    end of a line; what is pending when the input ends is a last
    record. *)
Fixpoint records (p : parser) (input : list string) : list (list string) * option exn :=
  match input with
  | [] => (if pending p then [fields (parse_save_field p START_RECORD)] else [], None)
  | l :: input' =>
      match feed p l with
      | Raise e => ([], Some e)
      | Ok p' =>
          match state p' with
          | START_RECORD =>
              let '(rs, e) := records parse_reset input' in (fields p' :: rs, e)
          | _ => records p' input'
          end
      end
  end.

Definition reader (input : list string) : list (list string) * option exn :=
  records parse_reset input.

End Csv.

(** * The tracker *)

(** ** Data *)

(** What a field of an expense holds: text, a [float] (the amount), or
    [None] (what [csv.DictReader] puts in the place of a cell that a
    short row lacks). *)
Inductive value : Type :=
| VStr (s : string)
| VFloat (x : float)
| VNone.

(** An expense is a Python [dict].  Its keys are field names; the row
    of a file that is longer than the header has, in addition, the key
    [None], bound to the list of the surplus cells. *)
Record dict : Type := {
  items : gmap string value;
  surplus : option (list string)
}.

(** A number is the [int] literal [0], with which the budget and the
    totals start, or a [float]. *)
Inductive number : Type :=
| IntZero
| Float (x : float).

Definition to_float (n : number) : float :=
  match n with
  | IntZero => zero
  | Float x => x
  end.

(** [a + b], [a - b], [a > b] and [a == 0] on numbers: an [int]
    operand of a [float] operation is converted to [float]. *)
Definition num_add (a b : number) : number :=
  match a, b with
  | IntZero, IntZero => IntZero
  | _, _ => Float (to_float a + to_float b)
  end.

Definition num_sub (a b : number) : number :=
  match a, b with
  | IntZero, IntZero => IntZero
  | _, _ => Float (to_float a - to_float b)
  end.

Definition num_gt (a b : number) : bool := (to_float b <? to_float a)%float.

Definition num_is_zero (a : number) : bool := (to_float a =? zero)%float.

(** [bool(v)] *)
Definition truthy (v : value) : bool :=
  match v with
  | VStr s => negb (String.eqb s EmptyString)
  | VFloat x => negb (x =? zero)%float
  | VNone => false
  end.

(** The attributes [expenses] and [monthly_budget] of the tracker; the
    attribute [filename] never changes, and the file of that name is
    passed to [load_expenses] and returned by [save_expenses]. *)
Record tracker : Type := {
  expenses : list dict;
  monthly_budget : number
}.

(** ** Console *)

Inductive prompt : Type :=
| AskDate
| AskCategory
| AskCategoryAgain
| AskAmount
| AskDescription
| AskDescriptionAgain
| AskBudget.

(** The lines the program prints, one constructor per [print] of the
    source, and the prompts of [input]. *)
Inductive output : Type :=
| Prompt (p : prompt)
| AddExpenseTitle
| InvalidDateFormat
| AmountNotPositive
| InvalidAmount
| ExpenseAdded (amount : float) (category : string)
| ViewTitle
| NoExpensesRecorded
| TableHeader
| Rule
| ExpenseLine (e : dict)
| IncompleteEntry
| TotalLine (total : number)
| SetBudgetTitle
| BudgetNotPositive
| BudgetSet (budget : float)
| TrackTitle
| NoBudgetSet
| MonthlyBudget (budget : number)
| TotalExpenses (total : number)
| Exceeded (overspend : number)
| Remaining (remaining : number)
| Saved
| ErrorSaving (e : exn)
| StartingFresh
| SkippingInvalid (row : dict)
| Loaded (n : nat)
| LoadedBudget (budget : number)
| ErrorLoading (e : exn).

(** An interactive computation reads lines of the standard input and
    prints: it maps the lines not yet read to its result, the lines
    left and what it printed. *)
Definition io (A : Type) : Type :=
  list string -> result A * list string * list output.

Definition ret {A : Type} (a : A) : io A :=
  fun input => (Ok a, input, []).

Definition raise {A : Type} (e : exn) : io A :=
  fun input => (Raise e, input, []).

Definition bind {A B : Type} (m : io A) (k : A -> io B) : io B :=
  fun input =>
    let '(r, input', out) := m input in
    match r with
    | Ok a => let '(r', input'', out') := k a input' in (r', input'', out ++ out')
    | Raise e => (Raise e, input', out)
    end.

Definition print (o : output) : io unit :=
  fun input => (Ok tt, input, [o]).

(** [input(p)]: prints the prompt and reads a line; [EOFError] at the
    end of the input. *)
Definition input_line (p : prompt) : io string :=
  fun input =>
    match input with
    | [] => (Raise EOFError, [], [Prompt p])
    | line :: input' => (Ok line, input', [Prompt p])
    end.

Notation "x <- m ;; k" := (bind m (fun x => k))
  (at level 100, m at next level, right associativity).
Notation "m ;; k" := (bind m (fun _ => k))
  (at level 100, right associativity).

(** ** [add_expense] *)

(** The date loop: asks until [strptime] accepts the stripped line. *)
Fixpoint ask_date (input : list string) : result string * list string * list output :=
  match input with
  | [] => (Raise EOFError, [], [Prompt AskDate])
  | line :: input' =>
      let date_input := Str.strip line in
      match Datetime.strptime date_input with
      | Ok _ => (Ok date_input, input', [Prompt AskDate])
      | Raise ValueError =>
          let '(r, input'', out) := ask_date input' in
          (r, input'', Prompt AskDate :: InvalidDateFormat :: out)
      | Raise e => (Raise e, input', [Prompt AskDate])
      end
  end.

(** [while not current: current = input(again).strip()] *)
Fixpoint ask_again (again : prompt) (current : string) (input : list string)
  : result string * list string * list output :=
  match current with
  | String _ _ => (Ok current, input, [])
  | EmptyString =>
      match input with
      | [] => (Raise EOFError, [], [Prompt again])
      | line :: input' =>
          let '(r, input'', out) := ask_again again (Str.strip line) input' in
          (r, input'', Prompt again :: out)
      end
  end.

Definition ask_text (first again : prompt) : io string :=
  line <- input_line first ;;
  ask_again again (Str.strip line).

(** The amount loop: asks until the line converts to a [float] that is
    not [<= 0]. *)
Fixpoint ask_amount (input : list string) : result float * list string * list output :=
  match input with
  | [] => (Raise EOFError, [], [Prompt AskAmount])
  | line :: input' =>
      match PyFloat.of_str line with
      | Ok amount =>
          if (amount <=? zero)%float then
            let '(r, input'', out) := ask_amount input' in
            (r, input'', Prompt AskAmount :: AmountNotPositive :: out)
          else (Ok amount, input', [Prompt AskAmount])
      | Raise ValueError =>
          let '(r, input'', out) := ask_amount input' in
          (r, input'', Prompt AskAmount :: InvalidAmount :: out)
      | Raise e => (Raise e, input', [Prompt AskAmount])
      end
  end.

(** The [dict] literal of [add_expense]. *)
Definition new_expense (date category : string) (amount : float) (description : string) : dict :=
  {| items :=
       <["description" := VStr description]>
         (<["amount" := VFloat amount]>
            (<["category" := VStr category]>
               (<["date" := VStr date]> ∅)));
     surplus := None |}.

Definition append (t : tracker) (e : dict) : tracker :=
  {| expenses := expenses t ++ [e]; monthly_budget := monthly_budget t |}.

Definition add_expense (t : tracker) : io tracker :=
  print AddExpenseTitle ;;
  date_input <- ask_date ;;
  category <- ask_text AskCategory AskCategoryAgain ;;
  amount <- ask_amount ;;
  description <- ask_text AskDescription AskDescriptionAgain ;;
  let expense := new_expense date_input category amount description in
  print (ExpenseAdded amount category) ;;
  ret (append t expense).

(** ** [view_expenses] *)

Definition required : list string := ["date"; "category"; "amount"; "description"].

(** [all(key in expense and expense[key] for key in [...])] *)
Definition well_formed (e : dict) : bool :=
  forallb (fun key => match items e !! key with
                      | Some v => truthy v
                      | None => false
                      end) required.

(** The loop over the expenses, from the running [total].  The format
    [.2f] and [+=] need the amount to be a [float]. *)
Fixpoint view_loop (es : list dict) (total : number) : result number * list output :=
  match es with
  | [] => (Ok total, [])
  | e :: es' =>
      if well_formed e then
        match items e !! "amount" with
        | Some (VFloat amount) =>
            let '(r, out) := view_loop es' (num_add total (Float amount)) in
            (r, ExpenseLine e :: out)
        | _ => (Raise ValueError, [])
        end
      else
        let '(r, out) := view_loop es' total in
        (r, IncompleteEntry :: out)
  end.

Definition view_expenses (t : tracker) : result unit * list output :=
  match expenses t with
  | [] => (Ok tt, [ViewTitle; NoExpensesRecorded])
  | _ :: _ =>
      let '(r, out) := view_loop (expenses t) IntZero in
      match r with
      | Ok total =>
          (Ok tt, [ViewTitle; TableHeader; Rule] ++ out ++ [Rule; TotalLine total])
      | Raise e => (Raise e, [ViewTitle; TableHeader; Rule] ++ out)
      end
  end.

(** ** [set_budget] *)

Fixpoint ask_budget (input : list string) : result float * list string * list output :=
  match input with
  | [] => (Raise EOFError, [], [Prompt AskBudget])
  | line :: input' =>
      match PyFloat.of_str line with
      | Ok budget =>
          if (budget <=? zero)%float then
            let '(r, input'', out) := ask_budget input' in
            (r, input'', Prompt AskBudget :: BudgetNotPositive :: out)
          else (Ok budget, input', [Prompt AskBudget; BudgetSet budget])
      | Raise ValueError =>
          let '(r, input'', out) := ask_budget input' in
          (r, input'', Prompt AskBudget :: InvalidAmount :: out)
      | Raise e => (Raise e, input', [Prompt AskBudget])
      end
  end.

Definition set_budget (t : tracker) : io tracker :=
  print SetBudgetTitle ;;
  budget <- ask_budget ;;
  ret {| expenses := expenses t; monthly_budget := Float budget |}.

(** ** [track_budget] *)

(** [sum(expense['amount'] for expense in es if all(...))], from [acc]:
    the items are added from left to right. *)
Fixpoint sum_amounts (es : list dict) (acc : number) : result number :=
  match es with
  | [] => Ok acc
  | e :: es' =>
      if well_formed e then
        match items e !! "amount" with
        | Some (VFloat amount) => sum_amounts es' (num_add acc (Float amount))
        | _ => Raise TypeError
        end
      else sum_amounts es' acc
  end.

Definition track_budget (t : tracker) : io tracker :=
  print TrackTitle ;;
  if num_is_zero (monthly_budget t) then
    print NoBudgetSet ;;
    set_budget t
  else
    match sum_amounts (expenses t) IntZero with
    | Raise e => raise e
    | Ok total_expenses =>
        print (MonthlyBudget (monthly_budget t)) ;;
        print (TotalExpenses total_expenses) ;;
        (if num_gt total_expenses (monthly_budget t) then
           print (Exceeded (num_sub total_expenses (monthly_budget t)))
         else
           print (Remaining (num_sub (monthly_budget t) total_expenses))) ;;
        ret t
    end.

(** ** [save_expenses] *)

Definition fieldnames : list string := ["date"; "category"; "amount"; "description"].

(** The text the [csv] writer puts in a cell: [str(v)], and nothing
    for [None]. *)
Definition text_of_value (v : value) : string :=
  match v with
  | VStr s => s
  | VFloat x => PyFloat.repr x
  | VNone => EmptyString
  end.

(** [str(n)] *)
Definition text_of_number (n : number) : string :=
  match n with
  | IntZero => "0"
  | Float x => PyFloat.repr x
  end.

(** [rowdict.keys() - self.fieldnames] is not empty. *)
Definition wrong_fields (d : dict) : bool :=
  match surplus d with
  | Some _ => true
  | None => negb (forallb (fun kv => bool_decide (kv.1 ∈ fieldnames)) (map_to_list (items d)))
  end.

(** [DictWriter._dict_to_list]: the cells of a row in the order of the
    field names, an absent key giving an empty cell; [ValueError] when
    the [dict] has a key that is not a field name. *)
Definition dict_to_list (d : dict) : result (list string) :=
  if wrong_fields d then Raise ValueError
  else Ok (map (fun key => match items d !! key with
                           | Some v => text_of_value v
                           | None => EmptyString
                           end) fieldnames).

(** [writer.writerows(ds)]: the rows are written one after the other,
    up to the first that raises. *)
Fixpoint writerows (ds : list dict) : string * option exn :=
  match ds with
  | [] => (EmptyString, None)
  | d :: ds' =>
      match dict_to_list d with
      | Raise e => (EmptyString, Some e)
      | Ok cells =>
          let '(text, e) := writerows ds' in
          (Csv.writerow cells +:+ text, e)
      end
  end.

Definition budget_marker : string := "#BUDGET,".

(** The content of the file after [save_expenses], and what it
    prints.  An exception leaves in the file what was written before
    it. *)
Definition save_expenses (t : tracker) : string * list output :=
  let '(table, e) :=
    match expenses t with
    | [] => (EmptyString, None)
    | _ :: _ =>
        let '(rows, e) := writerows (expenses t) in
        (Csv.writerow fieldnames +:+ rows, e)
    end in
  match e with
  | Some e => (table, [ErrorSaving e])
  | None =>
      (table +:+ budget_marker +:+ text_of_number (monthly_budget t)
         +:+ String Str.LF EmptyString,
       [Saved])
  end.

(** ** [load_expenses] *)

(** The loop that sets the budget line apart from the other lines. *)
Fixpoint partition_lines (lines : list string) (budget_line : option string)
    (csv_lines : list string) : option string * list string :=
  match lines with
  | [] => (budget_line, csv_lines)
  | line :: lines' =>
      if Str.startswith budget_marker line
      then partition_lines lines' (Some line) csv_lines
      else partition_lines lines' budget_line (csv_lines ++ [line])
  end.

(** [float(budget_line.split(',')[1].strip())] *)
Definition parse_budget (budget_line : string) : result float :=
  match Str.split Str.comma budget_line !! 1%nat with
  | None => Raise IndexError
  | Some cell => PyFloat.of_str (Str.strip cell)
  end.

(** The budget after the budget line was looked at. *)
Definition load_budget (budget_line : option string) (budget : number) : result number :=
  match budget_line with
  | None => Ok budget
  | Some line =>
      match parse_budget line with
      | Ok x => Ok (Float x)
      | Raise ValueError | Raise IndexError => Ok IntZero
      | Raise e => Raise e
      end
  end.

(** [csv.DictReader]: the [dict] of a row under the field names. *)
Definition make_row (names row : list string) : dict :=
  let d := fold_left (fun m kv => <[kv.1 := VStr kv.2]> m) (zip names row) ∅ in
  if (length names <? length row)%nat then
    {| items := d; surplus := Some (drop (length names) row) |}
  else
    {| items := fold_left (fun m key => <[key := VNone]> m) (drop (length row) names) d;
       surplus := None |}.

Definition is_blank (row : list string) : bool :=
  match row with [] => true | _ :: _ => false end.

(** Iterating over [csv.DictReader(lines)]: the first record gives the
    field names, the empty records are skipped. *)
Definition dict_reader (input : list string) : list dict * option exn :=
  let '(rows, e) := Csv.reader input in
  match rows with
  | [] => ([], e)
  | names :: rows' =>
      (map (make_row names) (List.filter (fun row => negb (is_blank row)) rows'), e)
  end.

(** [float(v)] *)
Definition float_of_value (v : value) : result float :=
  match v with
  | VStr s => PyFloat.of_str s
  | VFloat x => Ok x
  | VNone => Raise TypeError
  end.

(** [row['amount'] = float(row['amount'])] *)
Definition convert_amount (row : dict) : result dict :=
  match items row !! "amount" with
  | None => Raise KeyError
  | Some v =>
      match float_of_value v with
      | Ok x => Ok {| items := <["amount" := VFloat x]> (items row); surplus := surplus row |}
      | Raise e => Raise e
      end
  end.

(** The loop over the rows: the expenses after it, what it printed and
    the exception that left it, if any. *)
Fixpoint load_rows (rows : list dict) (es : list dict) : list dict * list output * option exn :=
  match rows with
  | [] => (es, [], None)
  | row :: rows' =>
      match convert_amount row with
      | Ok row' => load_rows rows' (es ++ [row'])
      | Raise ValueError | Raise KeyError =>
          let '(es', out, e) := load_rows rows' es in
          (es', SkippingInvalid row :: out, e)
      | Raise e => (es, [], Some e)
      end
  end.

(** The [csv] part of the load: the rows are handled as the reader
    yields them, so an exception of the reader comes after the rows read
    before it. *)
Definition load_csv (csv_lines : list string) (es : list dict)
  : list dict * list output * option exn :=
  match csv_lines with
  | [] => (es, [], None)
  | _ :: _ =>
      let csv_content := Str.join csv_lines in
      let '(rows, e) := dict_reader (Str.splitlines csv_content) in
      let '(es', out, e') := load_rows rows es in
      (es', out, match e' with Some _ => e' | None => e end)
  end.

(** [load_expenses]: [file] is the content of the file, or [None] when
    there is no file. *)
Definition load_expenses (file : option string) (t : tracker) : tracker * list output :=
  match file with
  | None => (t, [StartingFresh])
  | Some content =>
      let lines := TextFile.readlines content in
      let '(budget_line, csv_lines) := partition_lines lines None [] in
      match load_budget budget_line (monthly_budget t) with
      | Raise e => (t, [ErrorLoading e])
      | Ok budget =>
          let '(es, out, e) := load_csv csv_lines (expenses t) in
          let t' := {| expenses := es; monthly_budget := budget |} in
          match e with
          | Some e => (t', out ++ [ErrorLoading e])
          | None =>
              (t', out ++ Loaded (length es)
                     :: (if num_gt budget IntZero then [LoadedBudget budget] else []))
          end
      end
  end.

(** [__init__] *)
Definition init (file : option string) : tracker * list output :=
  load_expenses file {| expenses := []; monthly_budget := IntZero |}.

(** ** [display_menu] and [run] *)

(** The lines that [display_menu] and [run] print, and the lines of
    the methods that [run] calls. *)
Inductive screen : Type :=
| Welcome
| MenuTop
| MenuTitle
| MenuRule
| OptionAdd
| OptionView
| OptionTrack
| OptionSave
| OptionExit
| MenuDash
| AskChoice
| SavingAndExiting
| ThankYou
| InvalidOption
| Line (o : output).

(** [display_menu] *)
Definition display_menu : list screen :=
  [MenuTop; MenuTitle; MenuRule; OptionAdd; OptionView; OptionTrack; OptionSave;
   OptionExit; MenuDash].

(** How a turn of the loop of [run] ends: the loop goes on, [break]
    leaves it, or an exception that nothing catches leaves [run]. *)
Inductive flow : Type :=
| Continue
| Break
| Uncaught (e : exn).

(** The tracker, the content of the file, the lines not yet read and
    what was printed. *)
Record session : Type := {
  store : tracker;
  file : option string;
  unread : list string;
  shown : list screen
}.

(** The body of the loop after the choice was read.  A method that
    raises leaves the tracker as it was: [add_expense] and [set_budget]
    change it with their last statements. *)
Definition dispatch (choice : string) (t : tracker) (f : option string)
    (input : list string) : flow * session :=
  if String.eqb choice "1" then
    let '(r, input', out) := add_expense t input in
    match r with
    | Ok t' => (Continue, {| store := t'; file := f; unread := input'; shown := map Line out |})
    | Raise e => (Uncaught e, {| store := t; file := f; unread := input'; shown := map Line out |})
    end
  else if String.eqb choice "2" then
    let '(r, out) := view_expenses t in
    (match r with Ok _ => Continue | Raise e => Uncaught e end,
     {| store := t; file := f; unread := input; shown := map Line out |})
  else if String.eqb choice "3" then
    let '(r, input', out) := track_budget t input in
    match r with
    | Ok t' => (Continue, {| store := t'; file := f; unread := input'; shown := map Line out |})
    | Raise e => (Uncaught e, {| store := t; file := f; unread := input'; shown := map Line out |})
    end
  else if String.eqb choice "4" then
    let '(content, out) := save_expenses t in
    (Continue, {| store := t; file := Some content; unread := input; shown := map Line out |})
  else if String.eqb choice "5" then
    let '(content, out) := save_expenses t in
    (Break, {| store := t; file := Some content; unread := input;
               shown := SavingAndExiting :: map Line out ++ [ThankYou] |})
  else
    (Continue, {| store := t; file := f; unread := input; shown := [InvalidOption] |}).

(** The session with [before] printed before its lines. *)
Definition printed_before (before : list screen) (s : session) : session :=
  {| store := store s; file := file s; unread := unread s; shown := before ++ shown s |}.

(** The loop of [run]: how it ends and the session then.  A turn reads
    one line at least, so the loop makes no more turns than there are
    lines, plus the one that finds the input at its end; [fuel] bounds
    the turns. *)
Fixpoint run_loop (fuel : nat) (t : tracker) (f : option string) (input : list string)
  : option (result unit * session) :=
  match fuel with
  | O => None
  | S fuel' =>
      match input with
      | [] =>
          Some (Raise EOFError,
                {| store := t; file := f; unread := [];
                   shown := display_menu ++ [AskChoice] |})
      | line :: input' =>
          let '(fl, s) := dispatch (Str.strip line) t f input' in
          let s := printed_before (display_menu ++ [AskChoice]) s in
          match fl with
          | Continue =>
              match run_loop fuel' (store s) (file s) (unread s) with
              | Some (r, s') => Some (r, printed_before (shown s) s')
              | None => None
              end
          | Break => Some (Ok tt, s)
          | Uncaught e => Some (Raise e, s)
          end
      end
  end.

(** [run]: the welcome, then the loop.  The fuel is enough (see
    [run_loop_ends]). *)
Definition run (t : tracker) (f : option string) (input : list string)
  : option (result unit * session) :=
  match run_loop (S (length input)) t f input with
  | Some (r, s) => Some (r, printed_before [Welcome] s)
  | None => None
  end.

(** The program: [PersonalExpenseTracker()], then [run()]. *)
Definition main (f : option string) (input : list string) : option (result unit * session) :=
  let '(t, out) := init f in
  match run t f input with
  | Some (r, s) => Some (r, printed_before (map Line out) s)
  | None => None
  end.


(** * Notions of the statements *)

(** ** Totals *)

(** Every expense the program puts in the store has a [float] amount
    (see [add_expense_stored] and [load_expenses_stored]). *)
Definition stored (e : dict) : Prop :=
  exists x, items e !! "amount" = Some (VFloat x).

Definition amount_of (e : dict) : number :=
  match items e !! "amount" with
  | Some (VFloat x) => Float x
  | _ => IntZero
  end.

(** The sum of the amounts of the well-formed expenses, added from
    left to right. *)
Definition total_of (es : list dict) : number :=
  fold_left num_add (map amount_of (List.filter well_formed es)) IntZero.

(** The line [view_expenses] prints for an expense. *)
Definition line_of (e : dict) : output :=
  if well_formed e then ExpenseLine e else IncompleteEntry.

(** ** Dates *)

(** The pattern [YYYY-MM-DD] in the words of the specification: four
    digits, a hyphen, two digits, a hyphen, two digits; the year, the
    month and the day so written. *)
Definition exact_pattern (s : string) : option (Z * Z * Z) :=
  match s with
  | String y1 (String y2 (String y3 (String y4 (String h1
      (String m1 (String m2 (String h2 (String d1 (String d2 EmptyString))))))))) =>
      match PyFloat.digit y1, PyFloat.digit y2, PyFloat.digit y3, PyFloat.digit y4,
            PyFloat.digit m1, PyFloat.digit m2, PyFloat.digit d1, PyFloat.digit d2 with
      | Some a, Some b, Some c, Some d, Some e, Some f, Some g, Some h =>
          if Str.is_char 45 h1 && Str.is_char 45 h2
          then Some (1000 * a + 100 * b + 10 * c + d, 10 * e + f, 10 * g + h)
          else None
      | _, _, _, _, _, _, _, _ => None
      end
  | _ => None
  end.

(** A real calendar date written in the exact pattern. *)
Definition iso_calendar_date (s : string) : bool :=
  match exact_pattern s with
  | Some (y, m, d) => Datetime.valid_date y m d
  | None => false
  end.

(** The ways of writing a date that [strptime] accepts: the year with
    four digits; the month and the day with two digits, or with one
    when they are below ten; the day also with a blank and one digit. *)
Definition year_text (y : Z) : string :=
  PyFloat.text_of_digits [y / 1000; y / 100; y / 10; y].

Definition two_digits (n : Z) : string := PyFloat.text_of_digits [n / 10; n].
Definition one_digit (n : Z) : string := PyFloat.text_of_digits [n].

Definition month_spellings (m : Z) : list string :=
  if m <? 10 then [two_digits m; one_digit m] else [two_digits m].

Definition day_spellings (d : Z) : list string :=
  if d <? 10 then [two_digits d; one_digit d; " " +:+ one_digit d] else [two_digits d].

Definition spellings (y m d : Z) : list string :=
  flat_map (fun ms => map (fun ds => year_text y +:+ "-" +:+ ms +:+ "-" +:+ ds)
                          (day_spellings d))
           (month_spellings m).

(** ** Texts, rows and files *)

Definition is_marker (line : string) : bool := Str.startswith budget_marker line.

Fixpoint all_chars (P : ascii -> bool) (s : string) : bool :=
  match s with
  | EmptyString => true
  | String c s' => P c && all_chars P s'
  end.

Definition no_linebreak (s : string) : bool :=
  all_chars (fun c => negb (Str.is_linebreak c)) s.

Definition fits (s : string) : bool :=
  Z.of_nat (String.length s) <=? Csv.field_limit.

Definition no_comma (s : string) : bool := all_chars (fun c => negb (Str.is_char 44 c)) s.

(** The characters of the text of a float: digits, and the letters
    and signs of [inf], [nan] and of the scientific notation. *)
Definition plain (c : ascii) : bool :=
  PyFloat.is_digit c
  || existsb (Ascii.eqb c) ["."; "e"; "+"; "-"; "i"; "n"; "f"; "a"]%char.

Definition with_lf (l : string) : string := l +:+ String Str.LF EmptyString.
Definition with_crlf (l : string) : string := l +:+ Csv.lineterminator.

(** A row of two cells or more. *)
Definition wide (cells : list string) : bool :=
  match cells with _ :: _ :: _ => true | _ => false end.

(** The parser is at the start of a field. *)
Definition at_start (p : Csv.parser) : Prop :=
  Csv.field p = EmptyString
  /\ (Csv.state p = Csv.START_RECORD \/ Csv.state p = Csv.START_FIELD).

(** The state of the parser after the text of a field. *)
Definition after_field (c : string) (st : Csv.pstate) : Csv.pstate :=
  if Csv.needs_quotes c then Csv.QUOTE_IN_QUOTED_FIELD
  else match c with EmptyString => st | String _ _ => Csv.IN_FIELD end.

Definition nl : string := String Str.LF EmptyString.
Definition crlf : string := Csv.lineterminator.
Definition header : string := "date,category,amount,description".

(** ** Expenses in a file *)

(** An expense with its four fields, as [add_expense] builds it. *)
Record expense : Type := {
  date : string;
  category : string;
  amount : float;
  description : string
}.

Definition to_dict (r : expense) : dict :=
  new_expense (date r) (category r) (amount r) (description r).

(** The cells of the row of an expense in the file. *)
Definition cells (r : expense) : list string :=
  [date r; category r; PyFloat.repr (amount r); description r].

Definition row_line (r : expense) : string := Csv.join_fields (cells r).

(** The content of the file that [save_expenses] writes. *)
Definition file_of (rs : list expense) (b : number) : string :=
  Str.join (map with_crlf (header :: map row_line rs))
  +:+ with_lf (budget_marker +:+ text_of_number b).

(** A text that comes back from the file as it is: it has no
    character at which a line ends, and the reader's limit on the
    length of a field allows it. *)
Definition storable_text (s : string) : bool := no_linebreak s && fits s.

(** An expense that comes back from the file as it is: its texts are
    storable, its date is not the word that marks the budget line, and
    the text of its amount converts to the amount. *)
Definition storable (r : expense) : Prop :=
  storable_text (date r) = true
  /\ storable_text (category r) = true
  /\ storable_text (description r) = true
  /\ date r <> "#BUDGET"
  /\ PyFloat.of_str (PyFloat.repr (amount r)) = Ok (amount r).

Definition storable_budget (b : number) : Prop :=
  PyFloat.of_str (text_of_number b) = Ok (to_float b).

(** ** Sample data *)

Definition lunch : dict := new_expense "2024-03-01" "Food" 12.5 "Lunch".
Definition taxi : dict := new_expense "2024-03-02" "Travel" 30 "Taxi".
Definition cinema : dict := new_expense "2024-03-03" "Entertainment" 40 "Cinema".

(** An expense as a file can bring it in: no category, and an amount
    that is zero. *)
Definition blank_entry : dict := new_expense "2024-03-04" "" 0 "".

Definition sample : tracker :=
  {| expenses := [lunch; blank_entry; taxi]; monthly_budget := Float 100 |}.

(** Scenario C: a budget of 50 and expenses of 30 and 40. *)
Definition over_budget : tracker :=
  {| expenses := [taxi; cinema]; monthly_budget := Float 50 |}.

(** Scenario B: a budget of 100 and one expense of 30. *)
Definition within_budget : tracker :=
  {| expenses := [taxi]; monthly_budget := Float 100 |}.

Definition two_markers : string :=
  "#BUDGET,10" +:+ nl +:+ header +:+ crlf
  +:+ "2024-03-01,Food,12.5,Lunch" +:+ crlf +:+ "#BUDGET,20" +:+ nl.

Definition lunch_row : dict := make_row fieldnames ["2024-03-01"; "Food"; "12.5"; "Lunch"].
Definition taxi_row : dict := make_row fieldnames ["2024-03-02"; "Travel"; "30"; "Taxi"].
Definition abc_row : dict := make_row fieldnames ["2024-03-05"; "Food"; "abc"; "Dinner"].

(** Scenario D: a file with a row whose amount is [abc]. *)
Definition file_with_abc : string :=
  header +:+ crlf +:+ "2024-03-01,Food,12.5,Lunch" +:+ crlf
  +:+ "2024-03-05,Food,abc,Dinner" +:+ crlf
  +:+ "2024-03-02,Travel,30,Taxi" +:+ crlf +:+ "#BUDGET,0" +:+ nl.



(** A file with no description column at all. *)
Definition file_without_column : string :=
  "date,category,amount" +:+ crlf +:+ "2024-03-01,Food,12.5" +:+ crlf
  +:+ "#BUDGET,0" +:+ nl.

(** A row that stops before the amount: [float(None)] raises
    [TypeError], which the loop does not catch; the load ends there and
    the rows after it are not read. *)
Definition file_with_short_row : string :=
  header +:+ crlf +:+ "2024-03-01,Food" +:+ crlf
  +:+ "2024-03-02,Travel,30,Taxi" +:+ crlf +:+ "#BUDGET,0" +:+ nl.



Definition lunch_at_noon : expense :=
  {| date := "2024-03-01"; category := "Food"; amount := 12.5;
     description := "Lunch, at noon" |}.

Definition taxi_ride : expense :=
  {| date := "2024-03-02"; category := "Travel"; amount := 30;
     description := "Taxi" |}.

Definition form_feed : ascii := "012"%char.

(** An expense whose description has a form feed in it. *)
Definition two_pages : expense :=
  {| date := "2024-03-01"; category := "Food"; amount := 12.5;
     description := "a" +:+ String form_feed "b" |}.

(** An expense whose date is the word of the budget line. *)
Definition marked : expense :=
  {| date := "#BUDGET"; category := "Food"; amount := 12.5; description := "Lunch" |}.

(** ** Sessions, and more sample data *)

(** The tracker before anything is loaded or entered. *)
Definition fresh : tracker := {| expenses := []; monthly_budget := IntZero |}.

(** Scenario A: the lines typed for one expense. *)
Definition lunch_typed : list string := ["2024-03-01"; "Food"; "12.50"; "Lunch"].

(** A text that is a real calendar date in one of the spellings that
    [strptime] accepts. *)
Definition calendar_date (s : string) : Prop :=
  exists y m d, Datetime.valid_date y m d = true /\ In s (spellings y m d).

(** A line that is empty once stripped. *)
Definition blank_line (l : string) : Prop := Str.strip l = EmptyString.

(** A line that the amount loop and the budget loop refuse: it is no
    numeral, or its number is [<= 0]. *)
Definition refused_number (l : string) : Prop :=
  match PyFloat.of_str l with
  | Ok x => (x <=? zero)%float = true
  | Raise _ => True
  end.

(** What these loops print for a refused line: the prompt, and the
    message [not_positive] for a numeral. *)
Definition asked_again (p : prompt) (not_positive : output) (l : string) : list output :=
  [Prompt p; match PyFloat.of_str l with Ok _ => not_positive | Raise _ => InvalidAmount end].

(** The lines typed for an expense, with two dates, an amount and a
    description that are refused. *)
Definition lunch_retyped : list string :=
  ["01/03/2024"; "2024-02-30"; " 2024-03-01 "; "Food"; "-12.50"; "12.50"; "   "; "Lunch"].

(** An expense that [DictWriter] can write: its keys are field names. *)
Definition savable (e : dict) : bool := negb (wrong_fields e).

(** A file whose second data row has one cell more than the header. *)
Definition file_with_long_row : string :=
  header +:+ crlf +:+ "2024-03-01,Food,12.5,Lunch" +:+ crlf
  +:+ "2024-03-02,Travel,30,Taxi,to the airport" +:+ crlf
  +:+ "2024-03-03,Entertainment,40,Cinema" +:+ crlf +:+ "#BUDGET,100.0" +:+ nl.

(** The expense of that row: the surplus cell is under the key [None]. *)
Definition long_row : dict :=
  {| items := items taxi; surplus := Some ["to the airport"] |}.

(** A row that stops before the amount. *)
Definition short_row : dict := make_row fieldnames ["2024-03-01"; "Food"].

(** Tabular lines whose header is written with capitals. *)
Definition capital_header : list string :=
  ["Date,Category,Amount,Description" +:+ nl; "2024-03-01,Food,12.5,Lunch" +:+ nl].

(** The names of that header. *)
Definition capital_names : list string := ["Date"; "Category"; "Amount"; "Description"].

(** Every line left by [m] is a line it was given: it reads the lines
    in their order and puts none back. *)
Definition reads_in_order {A : Type} (m : io A) : Prop :=
  forall input r rest out, m input = (r, rest, out) -> rest `suffix_of` input.

(** A line that asks neither for a save nor for the exit. *)
Definition no_save (line : string) : Prop :=
  Str.strip line <> "4" /\ Str.strip line <> "5".

(** An expense as [add_expense] stores it. *)
Definition entered (e : dict) : Prop :=
  exists date category amount description,
    e = new_expense date category amount description
    /\ (exists ymd, Datetime.strptime date = Ok ymd)
    /\ category <> EmptyString
    /\ (amount <=? zero)%float = false
    /\ description <> EmptyString.

(** Scenario E: the session of a run that is left at once. *)
Definition exit_at_once : session :=
  {| store := fresh; file := Some ("#BUDGET,0" +:+ nl); unread := [];
     shown := Welcome :: display_menu
              ++ [AskChoice; SavingAndExiting; Line Saved; ThankYou] |}.

(** A session that enters an expense and sets a budget, and ends
    with the input. *)
Definition unsaved_session : list string :=
  ["1"; "2024-03-01"; "Food"; "12.50"; "Lunch"; "2"; "3"; "100"; "3"].

(** A session that enters two expenses and leaves by the menu. *)
Definition two_entries : list string :=
  ["1"; "2024-03-01"; "Food"; "12.50"; "Lunch";
   "1"; "2024-03-02"; "Travel"; "30"; "Taxi"; "5"].

(** A session with a budget set: it tracks, enters an expense, tracks
    again, types a number where no budget is asked, and leaves. *)
Definition budget_session : list string :=
  ["3"; "1"; "2024-03-03"; "Entertainment"; "40"; "Cinema"; "3"; "250"; "5"].

(** ** Rows of a file and their amounts *)

(** A file with a row whose amount is [abc], then a row that stops
    before the amount, then a valid row. *)
Definition file_with_abc_and_short_row : string :=
  header +:+ crlf +:+ "2024-03-01,Food,12.5,Lunch" +:+ crlf
  +:+ "2024-03-05,Food,abc,Dinner" +:+ crlf
  +:+ "2024-03-01,Food" +:+ crlf
  +:+ "2024-03-02,Travel,30,Taxi" +:+ crlf +:+ "#BUDGET,0" +:+ nl.

(** The amount of the row converts to a number. *)
Definition numeric (row : dict) : bool :=
  match convert_amount row with Ok _ => true | Raise _ => false end.

(** The rows whose amount converts, each with its amount converted, in
    their order. *)
Definition converted (rows : list dict) : list dict :=
  flat_map (fun row => match convert_amount row with
                       | Ok row' => [row']
                       | Raise _ => []
                       end) rows.

(** The budget that [load_expenses] leaves: that of the last budget
    line, if there is one. *)
Definition budget_after (lines : list string) (budget : number) : number :=
  match last (List.filter is_marker lines) with
  | Some line => match parse_budget line with Ok x => Float x | Raise _ => IntZero end
  | None => budget
  end.

(** * Properties *)

(** ** Floats *)

Lemma of_str_raises (s : string) (e : exn) :
  PyFloat.of_str s = Raise e -> e = ValueError.
Proof.
  unfold PyFloat.of_str.
  destruct (PyFloat.drop_underscores _ s); [|congruence].
  destruct (PyFloat.parse_decimal _); [congruence|].
  destruct (PyFloat.parse_inf_nan _); congruence.
Qed.

Lemma positive_not_zero (x : float) :
  (zero <? x)%float = true -> (x =? zero)%float = false.
Proof.
  rewrite FloatAxioms.ltb_spec, FloatAxioms.eqb_spec.
  change (Prim2SF zero) with (S754_zero false).
  destruct (Prim2SF x) as [[]|[]| |[] m e]; cbn; congruence.
Qed.

Lemma not_le_zero (x : float) :
  (x <=? zero)%float = false ->
  (zero <? x)%float = true \/ Prim2SF x = S754_nan.
Proof.
  rewrite FloatAxioms.ltb_spec, FloatAxioms.leb_spec.
  change (Prim2SF zero) with (S754_zero false).
  destruct (Prim2SF x) as [[]|[]| |[] m e]; cbn; intros; (congruence || auto).
Qed.

(** ** The console monad *)

Lemma bind_ok {A B : Type} (m : io A) (k : A -> io B) input b input'' out :
  bind m k input = (Ok b, input'', out) ->
  exists a input' out1 out2,
    m input = (Ok a, input', out1) /\ k a input' = (Ok b, input'', out2)
    /\ out = out1 ++ out2.
Proof.
  unfold bind. destruct (m input) as [[[a|e] input'] out1]; [|congruence].
  destruct (k a input') as [[r' i''] out2] eqn:Hk. intros [= -> -> <-].
  by exists a, input', out1, out2.
Qed.

(** ** Text *)

Lemma append_cons (c : ascii) (s r : string) : String c s +:+ r = String c (s +:+ r).
Proof. reflexivity. Qed.

Lemma append_empty (r : string) : EmptyString +:+ r = r.
Proof. reflexivity. Qed.

Lemma append_nil_r (s : string) : s +:+ EmptyString = s.
Proof. induction s as [|c s IH]; [done|]. by rewrite append_cons, IH. Qed.

Lemma append_assoc (s1 s2 s3 : string) : (s1 +:+ s2) +:+ s3 = s1 +:+ (s2 +:+ s3).
Proof. induction s1 as [|c s1 IH]; [done|]. by rewrite !append_cons, IH. Qed.

Lemma length_append (s1 s2 : string) :
  String.length (s1 +:+ s2) = (String.length s1 + String.length s2)%nat.
Proof. induction s1 as [|c s1 IH]; [done|]. rewrite append_cons. cbn. by rewrite IH. Qed.

Lemma all_chars_append (P : ascii -> bool) (s1 s2 : string) :
  all_chars P (s1 +:+ s2) = all_chars P s1 && all_chars P s2.
Proof.
  induction s1 as [|c s1 IH]; [done|]. rewrite append_cons. cbn.
  by rewrite IH, andb_assoc.
Qed.

Lemma all_chars_impl (P Q : ascii -> bool) (s : string) :
  (forall c, P c = true -> Q c = true) -> all_chars P s = true -> all_chars Q s = true.
Proof.
  intros HPQ. induction s as [|c s IH]; [done|]. cbn.
  intros [Hc Hs]%andb_prop. by rewrite (HPQ _ Hc), IH.
Qed.

Lemma digit_digit_char (d : Z) : PyFloat.digit (PyFloat.digit_char d) = Some (d mod 10).
Proof.
  unfold PyFloat.digit_char. pose proof (Z.mod_pos_bound d 10 eq_refl) as Hd.
  assert (H : d mod 10 = 0 \/ d mod 10 = 1 \/ d mod 10 = 2 \/ d mod 10 = 3
              \/ d mod 10 = 4 \/ d mod 10 = 5 \/ d mod 10 = 6 \/ d mod 10 = 7
              \/ d mod 10 = 8 \/ d mod 10 = 9) by lia.
  repeat (destruct H as [-> | H]; [reflexivity|]). by rewrite H.
Qed.

(** ** Totals: [view_expenses] and [track_budget] *)

Lemma view_loop_spec (es : list dict) (total : number) :
  Forall stored es ->
  view_loop es total =
    (Ok (fold_left num_add (map amount_of (List.filter well_formed es)) total),
     map line_of es).
Proof.
  intros Hes. revert total.
  induction Hes as [|e es [x Hx] _ IH]; intros total; [done|].
  cbn [view_loop List.filter map]. unfold line_of.
  destruct (well_formed e).
  - rewrite Hx, IH. cbn [map fold_left].
    by replace (amount_of e) with (Float x) by (unfold amount_of; by rewrite Hx).
  - by rewrite IH.
Qed.

Lemma sum_amounts_spec (es : list dict) (acc : number) :
  Forall stored es ->
  sum_amounts es acc =
    Ok (fold_left num_add (map amount_of (List.filter well_formed es)) acc).
Proof.
  intros Hes. revert acc.
  induction Hes as [|e es [x Hx] _ IH]; intros acc; [done|].
  cbn [sum_amounts List.filter].
  destruct (well_formed e); [|apply IH].
  rewrite Hx, IH. cbn [map fold_left].
  by replace (amount_of e) with (Float x) by (unfold amount_of; by rewrite Hx).
Qed.

Lemma filter_well_formed_app (es1 es2 : list dict) :
  List.filter well_formed (es1 ++ es2)
  = List.filter well_formed es1 ++ List.filter well_formed es2.
Proof. apply List.filter_app. Qed.

Lemma total_of_ill_formed (before after : list dict) (e : dict) :
  well_formed e = false ->
  total_of (before ++ e :: after) = total_of (before ++ after).
Proof.
  intros He. unfold total_of.
  rewrite !filter_well_formed_app. cbn [List.filter]. by rewrite He.
Qed.

Lemma track_budget_spec (t : tracker) (input : list string) :
  Forall stored (expenses t) ->
  num_is_zero (monthly_budget t) = false ->
  track_budget t input =
    (Ok t, input,
     [TrackTitle; MonthlyBudget (monthly_budget t); TotalExpenses (total_of (expenses t));
      if num_gt (total_of (expenses t)) (monthly_budget t)
      then Exceeded (num_sub (total_of (expenses t)) (monthly_budget t))
      else Remaining (num_sub (monthly_budget t) (total_of (expenses t)))]).
Proof.
  intros Hes Hb. unfold track_budget. rewrite Hb, sum_amounts_spec by done.
  fold (total_of (expenses t)).
  unfold bind, print, ret.
  by destruct (num_gt _ _).
Qed.

(** C4.  For every store, the total that [view_expenses] prints and
    the total that [track_budget] prints are the sum of the amounts of
    the well-formed expenses; an ill-formed expense adds nothing to it,
    [view_expenses] prints one "incomplete entry" line for it, and both
    methods leave the store as it is. *)
Theorem totals_over_well_formed (t : tracker) :
  Forall stored (expenses t) ->
  (expenses t <> [] ->
   view_expenses t =
     (Ok tt, [ViewTitle; TableHeader; Rule] ++ map line_of (expenses t)
               ++ [Rule; TotalLine (total_of (expenses t))]))
  /\ (num_is_zero (monthly_budget t) = false ->
      forall input, exists balance,
        track_budget t input =
          (Ok t, input,
           [TrackTitle; MonthlyBudget (monthly_budget t);
            TotalExpenses (total_of (expenses t)); balance]))
  /\ (forall before e after,
        expenses t = before ++ e :: after -> well_formed e = false ->
        line_of e = IncompleteEntry
        /\ total_of (expenses t) = total_of (before ++ after)).
Proof.
  intros Hes. split; [|split].
  - intros Hne. unfold view_expenses.
    destruct (expenses t) as [|e es] eqn:E; [done|].
    by rewrite view_loop_spec.
  - intros Hb input. eexists. by apply track_budget_spec.
  - intros before e after -> He. split.
    + unfold line_of. by rewrite He.
    + by apply total_of_ill_formed.
Qed.

Lemma sample_stored : Forall stored (expenses sample).
Proof. repeat constructor; eexists; reflexivity. Qed.

Lemma totals_over_well_formed_witness :
  Forall stored (expenses sample)
  /\ view_expenses sample =
       (Ok tt, [ViewTitle; TableHeader; Rule; ExpenseLine lunch; IncompleteEntry;
                ExpenseLine taxi; Rule; TotalLine (Float 42.5)])
  /\ (exists balance,
        track_budget sample [] =
          (Ok sample, [], [TrackTitle; MonthlyBudget (Float 100);
                           TotalExpenses (Float 42.5); balance])).
Proof.
  split; [exact sample_stored|].
  destruct (totals_over_well_formed sample sample_stored) as (Hview & Htrack & _).
  split.
  - rewrite Hview by discriminate. vm_compute. reflexivity.
  - destruct (Htrack eq_refl []) as [balance ->]. exists balance.
    vm_compute. reflexivity.
Defined.

(** C5.  With a strictly positive budget, [track_budget] prints the
    budget, the total of the well-formed expenses and then: the
    overspend, total minus budget, when the total is strictly greater
    than the budget; the remaining balance, budget minus total,
    otherwise. *)
Theorem track_budget_reports_balance (t : tracker) (input : list string) :
  Forall stored (expenses t) ->
  num_gt (monthly_budget t) IntZero = true ->
  track_budget t input =
    (Ok t, input,
     [TrackTitle; MonthlyBudget (monthly_budget t); TotalExpenses (total_of (expenses t));
      if num_gt (total_of (expenses t)) (monthly_budget t)
      then Exceeded (num_sub (total_of (expenses t)) (monthly_budget t))
      else Remaining (num_sub (monthly_budget t) (total_of (expenses t)))]).
Proof.
  intros Hes Hb. apply track_budget_spec; [done|].
  by apply positive_not_zero.
Qed.

Lemma track_budget_reports_balance_witness :
  Forall stored (expenses over_budget)
  /\ num_gt (monthly_budget over_budget) IntZero = true
  /\ track_budget over_budget [] =
       (Ok over_budget, [],
        [TrackTitle; MonthlyBudget (Float 50); TotalExpenses (Float 70);
         Exceeded (Float 20)]).
Proof.
  assert (H : Forall stored (expenses over_budget))
    by (repeat constructor; eexists; reflexivity).
  split; [exact H|]. split; [reflexivity|].
  rewrite (track_budget_reports_balance over_budget [] H eq_refl).
  vm_compute. reflexivity.
Defined.

Example scenario_B :
  track_budget within_budget [] =
    (Ok within_budget, [],
     [TrackTitle; MonthlyBudget (Float 100); TotalExpenses (Float 30);
      Remaining (Float 70)]).
Proof. vm_compute. reflexivity. Qed.

(** ** Loading *)

(** C9.  Without a file, [load_expenses] leaves the tracker as it is
    and prints "starting fresh" and nothing else: at start-up the
    tracker has no expense and the budget [0], and no error is
    reported. *)
Theorem load_without_file :
  (forall t, load_expenses None t = (t, [StartingFresh]))
  /\ init None = ({| expenses := []; monthly_budget := IntZero |}, [StartingFresh]).
Proof. done. Qed.

Lemma partition_lines_spec (lines : list string) (b : option string) (acc : list string) :
  partition_lines lines b acc =
    (match last (List.filter is_marker lines) with Some l => Some l | None => b end,
     acc ++ List.filter (fun l => negb (is_marker l)) lines).
Proof.
  revert b acc. induction lines as [|line lines IH]; intros b acc.
  - cbn. by rewrite app_nil_r.
  - cbn [partition_lines List.filter]. fold (is_marker line).
    destruct (is_marker line); cbn [negb]; rewrite IH.
    + rewrite last_cons. by destruct (last _).
    + by rewrite <- app_assoc.
Qed.

Lemma parse_budget_raises (line : string) (e : exn) :
  parse_budget line = Raise e -> e = ValueError \/ e = IndexError.
Proof.
  unfold parse_budget. destruct (_ !! _); [|intros [= <-]; by right].
  intros H. left. by apply of_str_raises in H.
Qed.

Lemma load_budget_marker (line : string) (b : number) :
  load_budget (Some line) b =
    Ok match parse_budget line with Ok x => Float x | Raise _ => IntZero end.
Proof.
  unfold load_budget. destruct (parse_budget line) as [x|e] eqn:E; [done|].
  by destruct (parse_budget_raises _ _ E) as [-> | ->].
Qed.

(** The tracker after a load, in terms of the marker lines and of the
    other lines of the file. *)
Lemma load_expenses_partition (content : string) (t : tracker) :
  let lines := TextFile.readlines content in
  let others := List.filter (fun l => negb (is_marker l)) lines in
  (load_expenses (Some content) t).1 =
    {| expenses := (load_csv others (expenses t)).1.1;
       monthly_budget :=
         match last (List.filter is_marker lines) with
         | Some line =>
             match parse_budget line with Ok x => Float x | Raise _ => IntZero end
         | None => monthly_budget t
         end |}.
Proof.
  cbn zeta. unfold load_expenses.
  rewrite partition_lines_spec. cbn [app].
  destruct (last _) as [line|].
  - rewrite load_budget_marker.
    destruct (load_csv _ _) as [[es out] [e|]]; done.
  - cbn [load_budget].
    destruct (load_csv _ _) as [[es out] [e|]]; done.
Qed.

(** C8.  When several lines of the file start with [#BUDGET,], the
    budget is read from the last of them, and the lines that do not
    start with it are the tabular content. *)
Theorem last_budget_marker_wins (content : string) (t : tracker) :
  let lines := TextFile.readlines content in
  let markers := List.filter is_marker lines in
  let others := List.filter (fun l => negb (is_marker l)) lines in
  (1 < length markers)%nat ->
  exists line,
    last markers = Some line
    /\ monthly_budget (load_expenses (Some content) t).1
       = match parse_budget line with Ok x => Float x | Raise _ => IntZero end
    /\ expenses (load_expenses (Some content) t).1
       = (load_csv others (expenses t)).1.1.
Proof.
  cbn zeta. intros Hlen. rewrite load_expenses_partition.
  destruct (last _) as [line|] eqn:E.
  - by exists line.
  - apply last_None in E. rewrite E in Hlen. cbn in Hlen. lia.
Qed.

Lemma last_budget_marker_wins_witness :
  (1 < length (List.filter is_marker (TextFile.readlines two_markers)))%nat
  /\ monthly_budget (init (Some two_markers)).1 = Float 20
  /\ expenses (init (Some two_markers)).1 = [lunch].
Proof.
  assert (H : (1 < length (List.filter is_marker (TextFile.readlines two_markers)))%nat)
    by (vm_compute; lia).
  split; [exact H|].
  destruct (last_budget_marker_wins two_markers
              {| expenses := []; monthly_budget := IntZero |} H)
    as (line & Hlast & Hbudget & Hexpenses).
  vm_compute in Hlast. injection Hlast as E. subst line.
  unfold init. rewrite Hbudget, Hexpenses. split; vm_compute; reflexivity.
Defined.

(** *** The loop over the rows *)

Lemma load_rows_app (rows1 rows2 : list dict) (es : list dict) :
  load_rows (rows1 ++ rows2) es =
    let '(es1, out1, e1) := load_rows rows1 es in
    match e1 with
    | Some _ => (es1, out1, e1)
    | None =>
        let '(es2, out2, e2) := load_rows rows2 es1 in
        (es2, out1 ++ out2, e2)
    end.
Proof.
  revert es. induction rows1 as [|row rows1 IH]; intros es.
  - cbn. by destruct (load_rows rows2 es) as [[? ?] ?].
  - cbn [app load_rows].
    destruct (convert_amount row) as [row'|[]]; rewrite ?IH; try done.
    all: destruct (load_rows rows1 es) as [[es1 out1] [e1|]]; try done.
    all: by destruct (load_rows rows2 es1) as [[? ?] ?].
Qed.


Lemma convert_amount_text (row : dict) (s : string) :
  items row !! "amount" = Some (VStr s) ->
  convert_amount row =
    match PyFloat.of_str s with
    | Ok x => Ok {| items := <["amount" := VFloat x]> (items row); surplus := surplus row |}
    | Raise e => Raise e
    end.
Proof. intros H. unfold convert_amount. by rewrite H. Qed.

Example scenario_D :
  init (Some file_with_abc) =
    ({| expenses := [lunch; taxi]; monthly_budget := Float 0 |},
     [SkippingInvalid abc_row; Loaded 2])
  /\ view_expenses (init (Some file_with_abc)).1 =
       (Ok tt, [ViewTitle; TableHeader; Rule; ExpenseLine lunch; ExpenseLine taxi;
                Rule; TotalLine (Float 42.5)]).
Proof. split; vm_compute; reflexivity. Qed.

(** Every expense loaded has a [float] amount. *)
Lemma load_rows_stored (rows es : list dict) :
  Forall stored es -> Forall stored (load_rows rows es).1.1.
Proof.
  revert es. induction rows as [|row rows IH]; intros es Hes; [done|].
  cbn [load_rows]. unfold convert_amount.
  destruct (items row !! "amount") as [v|]; cycle 1.
  { specialize (IH es Hes). by destruct (load_rows rows es) as [[? ?] ?]. }
  destruct (float_of_value v) as [x|e].
  - apply IH. apply Forall_app. split; [done|]. constructor; [|done].
    exists x. cbn. apply lookup_insert_eq.
  - destruct e; try done;
      specialize (IH es Hes); by destruct (load_rows rows es) as [[? ?] ?].
Qed.

Lemma load_expenses_stored (file : option string) (t : tracker) :
  Forall stored (expenses t) -> Forall stored (expenses (load_expenses file t).1).
Proof.
  intros Ht. destruct file as [content|]; [|done]. unfold load_expenses.
  destruct (partition_lines _ _ _) as [budget_line csv_lines].
  destruct (load_budget _ _) as [budget|e]; [|done].
  assert (H : Forall stored (load_csv csv_lines (expenses t)).1.1).
  { unfold load_csv. destruct csv_lines as [|l ls]; [done|].
    destruct (dict_reader _) as [rows e].
    pose proof (load_rows_stored rows (expenses t) Ht) as H.
    by destruct (load_rows rows (expenses t)) as [[? ?] ?]. }
  destruct (load_csv csv_lines (expenses t)) as [[es out] [e|]]; done.
Qed.

(** *** Rows and the header *)

Lemma fold_insert_lookup_None (kvs : list (string * string)) (m : gmap string value)
    (k : string) :
  k ∉ kvs.*1 -> m !! k = None ->
  fold_left (fun m kv => <[kv.1 := VStr kv.2]> m) kvs m !! k = None.
Proof.
  revert m. induction kvs as [|[k' v] kvs IH]; intros m Hk Hm; [done|].
  cbn in *. apply not_elem_of_cons in Hk as [Hne Hk].
  apply IH; [done|]. by rewrite lookup_insert_ne.
Qed.

Lemma fold_none_lookup_None (keys : list string) (m : gmap string value) (k : string) :
  k ∉ keys -> m !! k = None ->
  fold_left (fun m key => <[key := VNone]> m) keys m !! k = None.
Proof.
  revert m. induction keys as [|k' keys IH]; intros m Hk Hm; [done|].
  cbn. apply not_elem_of_cons in Hk as [Hne Hk].
  apply IH; [done|]. by rewrite lookup_insert_ne.
Qed.

Lemma zip_fst_elem_of (names row : list string) (k : string) :
  k ∈ (zip names row).*1 -> k ∈ names.
Proof.
  revert row. induction names as [|n names IH]; intros [|c row]; cbn;
    try by intros ?%elem_of_nil.
  intros [->|H]%elem_of_cons; [left|right; eauto].
Qed.

(** A row has no key that the header lacks. *)
Lemma make_row_lookup_None (names row : list string) (k : string) :
  k ∉ names -> items (make_row names row) !! k = None.
Proof.
  intros Hk. unfold make_row.
  assert (Hzip : fold_left (fun m kv => <[kv.1 := VStr kv.2]> m) (zip names row)
                   (∅ : gmap string value) !! k = None).
  { apply fold_insert_lookup_None; [|done]. intros Hin. by apply zip_fst_elem_of in Hin. }
  destruct (_ <? _)%nat; cbn [items]; [done|].
  apply fold_none_lookup_None; [|done].
  intros Hin. apply Hk. by apply (subseteq_drop (length row)).
Qed.

(** When the header has no [amount] column, no row has the key. *)
Lemma dict_reader_no_amount_column (names : list string) (rows : list (list string)) :
  "amount" ∉ names ->
  Forall (fun row => items row !! "amount" = None) (map (make_row names) rows).
Proof.
  intros Hnames. induction rows as [|cells rows IH]; cbn; constructor; [|done].
  by apply make_row_lookup_None.
Qed.


(** The same when the file has no description column: the key is
    absent from the row, and the row is loaded. *)
Example row_without_key_is_loaded :
  exists row,
    items row !! "description" = None
    /\ init (Some file_without_column)
       = ({| expenses := [row]; monthly_budget := Float 0 |}, [Loaded 1]).
Proof. eexists. split; [|vm_compute; reflexivity]. reflexivity. Qed.

(** A row too short to have an amount ends the load with [TypeError];
    the row after it is not loaded. *)
Example short_row_ends_load :
  init (Some file_with_short_row)
  = ({| expenses := []; monthly_budget := Float 0 |}, [ErrorLoading TypeError]).
Proof. vm_compute. reflexivity. Qed.



(** *** Rows that are loaded and then left out *)







(** ** Entering an expense *)

Lemma ask_date_ok (input : list string) (date : string) input' out :
  ask_date input = (Ok date, input', out) ->
  exists ymd, Datetime.strptime date = Ok ymd.
Proof.
  revert out. induction input as [|line input IH]; intros out; cbn [ask_date]; [done|].
  destruct (Datetime.strptime (Str.strip line)) as [ymd|e] eqn:E.
  - intros [= <- _ _]. by exists ymd.
  - destruct e; try done.
    destruct (ask_date input) as [[r i] o]. intros [= -> -> _]. by eapply IH.
Qed.

Lemma ask_amount_ok (input : list string) (amount : float) input' out :
  ask_amount input = (Ok amount, input', out) ->
  (amount <=? zero)%float = false
  /\ exists line, In line input /\ PyFloat.of_str line = Ok amount.
Proof.
  revert out. induction input as [|line input IH]; intros out; cbn [ask_amount]; [done|].
  destruct (PyFloat.of_str line) as [x|e] eqn:E.
  - destruct (x <=? zero)%float eqn:L.
    + destruct (ask_amount input) as [[r i] o]. intros [= -> -> _].
      destruct (IH _ eq_refl) as (? & l & ? & ?). split; [done|]. exists l. split; [by right|done].
    + intros [= <- _ _]. split; [done|]. exists line. split; [by left|done].
  - destruct e; try done.
    destruct (ask_amount input) as [[r i] o]. intros [= -> -> _].
    destruct (IH _ eq_refl) as (? & l & ? & ?). split; [done|]. exists l. split; [by right|done].
Qed.

Lemma ask_again_ok (again : prompt) (current : string) (input : list string)
    (text : string) input' out :
  ask_again again current input = (Ok text, input', out) -> text <> EmptyString.
Proof.
  revert current out. induction input as [|line input IH]; intros current out.
  - destruct current; cbn; [done|]. by intros [= <- _ _].
  - destruct current; cbn [ask_again]; [|by intros [= <- _ _]].
    destruct (ask_again again (Str.strip line) input) as [[r i] o] eqn:E.
    intros [= -> -> _]. by eapply IH.
Qed.

Lemma ask_text_ok (first again : prompt) (input : list string) (text : string) input' out :
  ask_text first again input = (Ok text, input', out) -> text <> EmptyString.
Proof.
  unfold ask_text. intros (line & i & o1 & o2 & _ & H & _)%bind_ok.
  by eapply ask_again_ok.
Qed.

(** What [add_expense] stores when it returns. *)
Lemma add_expense_ok (t t' : tracker) (input input' : list string) (out : list output) :
  add_expense t input = (Ok t', input', out) ->
  exists date category amount description,
    t' = append t (new_expense date category amount description)
    /\ (exists ymd, Datetime.strptime date = Ok ymd)
    /\ category <> EmptyString
    /\ (amount <=? zero)%float = false
    /\ description <> EmptyString.
Proof.
  unfold add_expense.
  intros (_ & i0 & o0 & o0' & _ & H & _)%bind_ok.
  apply bind_ok in H as (date & i1 & o1 & o1' & Hdate & H & _).
  apply bind_ok in H as (category & i2 & o2 & o2' & Hcategory & H & _).
  apply bind_ok in H as (amount & i3 & o3 & o3' & Hamount & H & _).
  apply bind_ok in H as (description & i4 & o4 & o4' & Hdescription & H & _).
  apply bind_ok in H as (_ & i5 & o5 & o5' & _ & H & _).
  injection H as <- _ _.
  exists date, category, amount, description. split; [done|].
  split; [by eapply ask_date_ok|]. split; [by eapply ask_text_ok|].
  split; [by eapply ask_amount_ok|by eapply ask_text_ok].
Qed.

(** Every expense entered has a [float] amount. *)
Lemma add_expense_stored (t t' : tracker) (input input' : list string) (out : list output) :
  add_expense t input = (Ok t', input', out) ->
  Forall stored (expenses t) -> Forall stored (expenses t').
Proof.
  intros (date & category & amount & description & -> & _)%add_expense_ok Ht.
  cbn. apply Forall_app. split; [done|]. constructor; [|done]. by exists amount.
Qed.

(** An accepted amount is strictly positive, unless it is not a
    number. *)
Lemma accepted_amount (t t' : tracker) (input input' : list string) (out : list output) :
  add_expense t input = (Ok t', input', out) ->
  exists e amount,
    t' = append t e /\ items e !! "amount" = Some (VFloat amount)
    /\ ((zero <? amount)%float = true \/ Prim2SF amount = S754_nan).
Proof.
  intros (date & category & amount & description & -> & _ & _ & Hamount & _)%add_expense_ok.
  eexists _, amount. split; [done|]. split; [done|]. by apply not_le_zero.
Qed.

(** The inputs that the amount loop rejects: zero, a negative number,
    a text that is not a numeral. *)
Example rejected_amounts :
  ask_amount ["0"; "-5"; "abc"; ""; "12.5"]
  = (Ok 12.5%float, [],
     [Prompt AskAmount; AmountNotPositive; Prompt AskAmount; AmountNotPositive;
      Prompt AskAmount; InvalidAmount; Prompt AskAmount; InvalidAmount;
      Prompt AskAmount]).
Proof. vm_compute. reflexivity. Qed.

(** C7, on the input [nan].  [float] accepts the text, the value is
    not [<= 0], and so the loop accepts it: an expense is stored whose
    amount is not greater than zero. *)
Theorem nan_amount_is_stored (t : tracker) :
  add_expense t ["2024-03-01"; "Food"; "nan"; "Lunch"]
  = (Ok (append t (new_expense "2024-03-01" "Food" nan "Lunch")), [],
     [AddExpenseTitle; Prompt AskDate; Prompt AskCategory; Prompt AskAmount;
      Prompt AskDescription; ExpenseAdded nan "Food"])
  /\ (zero <? nan)%float = false.
Proof. split; reflexivity. Qed.

(** ** Dates *)

Section Dates.

Local Ltac Zify.zify_post_hook ::= Z.to_euclidean_division_equations.

Lemma digit_inv (c : ascii) (x : Z) :
  PyFloat.digit c = Some x -> c = PyFloat.digit_char x /\ 0 <= x <= 9.
Proof.
  destruct c as [[|] [|] [|] [|] [|] [|] [|] [|]]; vm_compute;
    try discriminate; intros [= <-]; repeat split; discriminate.
Qed.

Lemma digit_char_mod (d : Z) : PyFloat.digit_char (d mod 10) = PyFloat.digit_char d.
Proof. unfold PyFloat.digit_char. by rewrite Z.mod_mod. Qed.

Lemma digit_char_congr (a b : Z) :
  a mod 10 = b mod 10 -> PyFloat.digit_char a = PyFloat.digit_char b.
Proof. unfold PyFloat.digit_char. by intros ->. Qed.

Lemma digit_in_inv (lo hi : Z) (c : ascii) (x : Z) :
  Datetime.digit_in lo hi c = Some x ->
  c = PyFloat.digit_char x /\ lo <= x <= hi /\ 0 <= x <= 9.
Proof.
  unfold Datetime.digit_in. destruct (PyFloat.digit c) as [d|] eqn:E; [|done].
  destruct (_ && _) eqn:B; [|done]. intros [= <-].
  apply digit_inv in E as [-> ?]. split; [done|]. lia.
Qed.

Lemma two_inv (f g : ascii -> option Z) (s r : string) (v : Z) :
  In (v, r) (Datetime.two f g s) ->
  exists a b x y, s = String a (String b r) /\ f a = Some x /\ g b = Some y
                  /\ v = 10 * x + y.
Proof.
  unfold Datetime.two. destruct s as [|a [|b s]]; try done.
  destruct (f a) as [x|] eqn:F; [|done]. destruct (g b) as [y|] eqn:G; [|done].
  intros [[= <- <-]|[]]. by exists a, b, x, y.
Qed.

Lemma one_inv (f : ascii -> option Z) (s r : string) (v : Z) :
  In (v, r) (Datetime.one f s) -> exists a, s = String a r /\ f a = Some v.
Proof.
  unfold Datetime.one. destruct s as [|a s]; [done|].
  destruct (f a) as [x|] eqn:F; [|done]. intros [[= <- <-]|[]]. by exists a.
Qed.

Lemma blank_inv (c : ascii) (x : Z) :
  Datetime.blank c = Some x -> c = " "%char /\ x = 0.
Proof.
  unfold Datetime.blank.
  destruct c as [[|] [|] [|] [|] [|] [|] [|] [|]]; vm_compute; try discriminate.
  by intros [= <-].
Qed.

Lemma hyphen_inv (s r : string) : Datetime.hyphen s = Some r -> s = String "-" r.
Proof.
  unfold Datetime.hyphen. destruct s as [|c s]; [done|].
  destruct c as [[|] [|] [|] [|] [|] [|] [|] [|]]; vm_compute; try discriminate.
  by intros [= <-].
Qed.

(** Splits on the value of a digit [x]; [H] bounds it. *)
Ltac digit_cases x H :=
  let Hx := fresh "Hx" in
  assert (x = 0 \/ x = 1 \/ x = 2 \/ x = 3 \/ x = 4 \/ x = 5 \/ x = 6
          \/ x = 7 \/ x = 8 \/ x = 9) as Hx by lia;
  repeat (destruct Hx as [-> | Hx]; [try (exfalso; lia)|]);
  [..|subst x; try (exfalso; lia)]; clear H.

(** Closes a goal [lo <= n <= hi /\ exists t, In t l /\ s = t +:+ r]
    for closed [n] and [l]. *)
Ltac spelled :=
  split; [lia|];
  first [ by (eexists; split; [left; reflexivity|reflexivity])
        | by (eexists; split; [right; left; reflexivity|reflexivity])
        | by (eexists; split; [right; right; left; reflexivity|reflexivity]) ].

Lemma match_m_inv (s r : string) (m : Z) :
  In (m, r) (Datetime.match_m s) ->
  1 <= m <= 12 /\ exists ms, In ms (month_spellings m) /\ s = ms +:+ r.
Proof.
  unfold Datetime.match_m. rewrite !in_app_iff.
  intros [H|[H|H]].
  - apply two_inv in H as (a & b & x & y & -> & [-> [Hx _]]%digit_in_inv
                             & [-> [Hy _]]%digit_in_inv & ->).
    digit_cases x Hx; digit_cases y Hy; spelled.
  - apply two_inv in H as (a & b & x & y & -> & [-> [Hx _]]%digit_in_inv
                             & [-> [Hy _]]%digit_in_inv & ->).
    digit_cases x Hx; digit_cases y Hy; spelled.
  - apply one_inv in H as (a & -> & [-> [Hx _]]%digit_in_inv).
    digit_cases m Hx; spelled.
Qed.

Lemma match_d_inv (s r : string) (d : Z) :
  In (d, r) (Datetime.match_d s) ->
  1 <= d <= 39 /\ exists ds, In ds (day_spellings d) /\ s = ds +:+ r.
Proof.
  unfold Datetime.match_d. rewrite !in_app_iff.
  intros [H|[H|[H|[H|H]]]].
  - apply two_inv in H as (a & b & x & y & -> & [-> [Hx _]]%digit_in_inv
                             & [-> [Hy _]]%digit_in_inv & ->).
    digit_cases x Hx; digit_cases y Hy; spelled.
  - apply two_inv in H as (a & b & x & y & -> & [-> [Hx _]]%digit_in_inv
                             & [-> [Hy _]]%digit_in_inv & ->).
    digit_cases x Hx; digit_cases y Hy; spelled.
  - apply two_inv in H as (a & b & x & y & -> & [-> [Hx _]]%digit_in_inv
                             & [-> [Hy _]]%digit_in_inv & ->).
    digit_cases x Hx; digit_cases y Hy; spelled.
  - apply one_inv in H as (a & -> & [-> [Hx _]]%digit_in_inv).
    digit_cases d Hx; spelled.
  - apply two_inv in H as (a & b & x & y & -> & [-> ->]%blank_inv
                             & [-> [Hy _]]%digit_in_inv & ->).
    digit_cases y Hy; spelled.
Qed.

Lemma match_Y_inv (s r : string) (y : Z) :
  Datetime.match_Y s = Some (y, r) -> 0 <= y <= 9999 /\ s = year_text y +:+ r.
Proof.
  unfold Datetime.match_Y.
  destruct s as [|a [|b [|c [|d s]]]]; try done.
  destruct (PyFloat.digit a) as [x1|] eqn:E1; [|done].
  destruct (PyFloat.digit b) as [x2|] eqn:E2; [|done].
  destruct (PyFloat.digit c) as [x3|] eqn:E3; [|done].
  destruct (PyFloat.digit d) as [x4|] eqn:E4; [|done].
  intros [= <- <-].
  apply digit_inv in E1 as [-> H1], E2 as [-> H2], E3 as [-> H3], E4 as [-> H4].
  split; [lia|]. unfold year_text. cbn [PyFloat.text_of_digits].
  rewrite !append_cons, append_empty.
  repeat (apply (f_equal2 String); [apply digit_char_congr; lia|]). done.
Qed.

Lemma after_month_inv (y y' m d : Z) (ms : list (Z * string)) (rest : string) :
  Datetime.after_month y ms = Some (y', m, d, rest) ->
  y' = y /\ exists r, In (m, String "-" r) ms /\ In (d, rest) (Datetime.match_d r).
Proof.
  induction ms as [|[m0 r0] ms IH]; cbn [Datetime.after_month]; [done|].
  destruct (Datetime.hyphen r0) as [r1|] eqn:E.
  - apply hyphen_inv in E as ->.
    destruct (Datetime.match_d r1) as [|[d0 rest0] l] eqn:D.
    + intros [-> (r & ? & ?)]%IH. split; [done|]. exists r. split; [by right|done].
    + intros [= <- <- <- <-]. split; [done|]. exists r1. split; [by left|].
      rewrite D. by left.
  - intros [-> (r & ? & ?)]%IH. split; [done|]. exists r. split; [by right|done].
Qed.

Lemma strptime_inv (s : string) (y m d : Z) :
  Datetime.strptime s = Ok (y, m, d) ->
  Datetime.valid_date y m d = true /\ In s (spellings y m d).
Proof.
  unfold Datetime.strptime, Datetime.regex_match.
  destruct (Datetime.match_Y s) as [[y0 r]|] eqn:EY; [|done].
  destruct (Datetime.hyphen r) as [r'|] eqn:EH; [|done].
  destruct (Datetime.after_month _ _) as [[[[y1 m1] d1] [|]]|] eqn:EM; try done.
  destruct (Datetime.valid_date y1 m1 d1) eqn:V; [|done].
  intros [= -> -> ->]. split; [done|].
  apply match_Y_inv in EY as [_ ->]. apply hyphen_inv in EH as ->.
  apply after_month_inv in EM as [-> (r1 & Hm & Hd)].
  apply match_m_inv in Hm as [_ (ms & Hms & ->)].
  apply match_d_inv in Hd as [_ (ds & Hds & ->)].
  unfold spellings. apply in_flat_map. exists ms. split; [done|].
  apply in_map_iff. exists ds. split; [|done].
  by rewrite append_nil_r.
Qed.

Lemma match_Y_year_text (y : Z) (r : string) :
  0 <= y <= 9999 -> Datetime.match_Y (year_text y +:+ r) = Some (y, r).
Proof.
  intros Hy. unfold year_text. cbn [PyFloat.text_of_digits].
  rewrite !append_cons, append_empty. cbn [Datetime.match_Y].
  rewrite !digit_digit_char. do 2 f_equal. lia.
Qed.

Lemma month_head (m : Z) (ms r : string) :
  1 <= m <= 12 -> In ms (month_spellings m) ->
  exists tl, Datetime.match_m (ms +:+ String "-" r) = (m, String "-" r) :: tl.
Proof.
  intros Hm.
  assert (m = 1 \/ m = 2 \/ m = 3 \/ m = 4 \/ m = 5 \/ m = 6 \/ m = 7 \/ m = 8
          \/ m = 9 \/ m = 10 \/ m = 11 \/ m = 12) as H by lia.
  repeat (destruct H as [-> | H]; [cbn; intros [<-|[<-|[]]] || intros [<-|[]]; eexists; reflexivity|]).
  subst m. intros [<-|[]]. eexists. reflexivity.
Qed.

Lemma day_head (d : Z) (ds : string) :
  1 <= d <= 31 -> In ds (day_spellings d) ->
  exists tl, Datetime.match_d ds = (d, EmptyString) :: tl.
Proof.
  intros Hd.
  assert (d = 1 \/ d = 2 \/ d = 3 \/ d = 4 \/ d = 5 \/ d = 6 \/ d = 7 \/ d = 8
          \/ d = 9 \/ d = 10 \/ d = 11 \/ d = 12 \/ d = 13 \/ d = 14 \/ d = 15
          \/ d = 16 \/ d = 17 \/ d = 18 \/ d = 19 \/ d = 20 \/ d = 21 \/ d = 22
          \/ d = 23 \/ d = 24 \/ d = 25 \/ d = 26 \/ d = 27 \/ d = 28 \/ d = 29
          \/ d = 30 \/ d = 31) as H by lia.
  repeat (destruct H as [-> | H];
          [cbn; intros [<-|[<-|[<-|[]]]] || intros [<-|[]]; eexists; reflexivity|]).
  subst d. intros [<-|[]]. eexists. reflexivity.
Qed.

Lemma valid_date_bounds (y m d : Z) :
  Datetime.valid_date y m d = true ->
  1 <= y <= 9999 /\ 1 <= m <= 12 /\ 1 <= d <= 31.
Proof.
  unfold Datetime.valid_date, Datetime.days_in_month.
  repeat (destruct (_ =? _)); cbn [orb]; try destruct (Datetime.is_leap y); lia.
Qed.

Lemma strptime_spelled (s : string) (y m d : Z) :
  Datetime.valid_date y m d = true -> In s (spellings y m d) ->
  Datetime.strptime s = Ok (y, m, d).
Proof.
  intros V (ms & Hms & (ds & <- & Hds)%in_map_iff)%in_flat_map.
  destruct (valid_date_bounds _ _ _ V) as (Hy & Hm & Hd).
  unfold Datetime.strptime, Datetime.regex_match.
  rewrite match_Y_year_text by lia.
  change ("-" +:+ ms +:+ "-" +:+ ds) with (String "-" (ms +:+ String "-" ds)).
  cbn [Datetime.hyphen]. change (Str.is_char 45 "-") with true. cbn match.
  destruct (month_head m ms ds Hm Hms) as [tl ->].
  destruct (day_head d ds Hd Hds) as [tl' E].
  cbn [Datetime.after_month Datetime.hyphen]. change (Str.is_char 45 "-") with true.
  cbn match. rewrite E. by rewrite V.
Qed.

(** The dates [strptime] accepts are the real calendar dates in one
    of their spellings. *)
Lemma strptime_spellings (s : string) (y m d : Z) :
  Datetime.strptime s = Ok (y, m, d) <->
  Datetime.valid_date y m d = true /\ In s (spellings y m d).
Proof.
  split; [apply strptime_inv|]. intros [V H]. by apply strptime_spelled.
Qed.

(** The claim C6 as stated fails on this input: the date is accepted
    and stored as typed, and it is not in the exact pattern. *)
Lemma unpadded_date_is_accepted :
  add_expense {| expenses := []; monthly_budget := IntZero |}
    ["2024-2-9"; "Food"; "12.5"; "Lunch"]
  = (Ok {| expenses := [new_expense "2024-2-9" "Food" 12.5 "Lunch"];
           monthly_budget := IntZero |}, [],
     [AddExpenseTitle; Prompt AskDate; Prompt AskCategory; Prompt AskAmount;
      Prompt AskDescription; ExpenseAdded 12.5 "Food"])
  /\ iso_calendar_date "2024-2-9" = false.
Proof. split; vm_compute; reflexivity. Qed.

(** Every date in the exact pattern that is a real calendar date is
    accepted. *)
Lemma iso_calendar_date_accepted (s : string) :
  iso_calendar_date s = true -> exists ymd, Datetime.strptime s = Ok ymd.
Proof.
  unfold iso_calendar_date.
  destruct (exact_pattern s) as [[[y m] d]|] eqn:E; [|done].
  intros V. exists (y, m, d). apply strptime_spelled; [done|].
  unfold exact_pattern in E.
  destruct s as [|y1 [|y2 [|y3 [|y4 [|h1 [|m1 [|m2 [|h2 [|d1 [|d2 [|]]]]]]]]]]]; try done.
  destruct (PyFloat.digit y1) as [a|] eqn:E1; [|done].
  destruct (PyFloat.digit y2) as [b|] eqn:E2; [|done].
  destruct (PyFloat.digit y3) as [c|] eqn:E3; [|done].
  destruct (PyFloat.digit y4) as [d0|] eqn:E4; [|done].
  destruct (PyFloat.digit m1) as [e|] eqn:E5; [|done].
  destruct (PyFloat.digit m2) as [f|] eqn:E6; [|done].
  destruct (PyFloat.digit d1) as [g|] eqn:E7; [|done].
  destruct (PyFloat.digit d2) as [h|] eqn:E8; [|done].
  destruct (Str.is_char 45 h1) eqn:H1; [|done].
  destruct (Str.is_char 45 h2) eqn:H2; [|done].
  injection E as <- <- <-.
  apply digit_inv in E1 as [-> ?], E2 as [-> ?], E3 as [-> ?], E4 as [-> ?],
    E5 as [-> ?], E6 as [-> ?], E7 as [-> ?], E8 as [-> ?].
  assert (h1 = "-"%char) as ->.
  { clear -H1. destruct h1 as [[|] [|] [|] [|] [|] [|] [|] [|]]; vm_compute in H1; congruence. }
  assert (h2 = "-"%char) as ->.
  { clear -H2. destruct h2 as [[|] [|] [|] [|] [|] [|] [|] [|]]; vm_compute in H2; congruence. }
  unfold spellings. apply in_flat_map. exists (two_digits (10 * e + f)). split.
  { unfold month_spellings. destruct (_ <? _); by left. }
  apply in_map_iff. exists (two_digits (10 * g + h)). split.
  - unfold year_text, two_digits. cbn [PyFloat.text_of_digits].
    rewrite !append_cons, !append_empty.
    repeat (apply (f_equal2 String); [(apply digit_char_congr; lia) || reflexivity|]). done.
  - unfold day_spellings. destruct (_ <? _); by left.
Qed.

(** C6, amended.  The date of every expense entered is a real calendar
    date (a year from 1 to 9999, a month of that year, a day of that
    month) in one of the spellings that [strptime] reads: the month and
    the day need no leading zero.  [2024-02-30] is refused and asked
    again, [2024-02-29] is accepted. *)
Theorem accepted_date_is_calendar_date (t t' : tracker) (input input' : list string)
    (out : list output) :
  add_expense t input = (Ok t', input', out) ->
  (exists e date y m d,
     t' = append t e /\ items e !! "date" = Some (VStr date)
     /\ Datetime.strptime date = Ok (y, m, d)
     /\ Datetime.valid_date y m d = true
     /\ In date (spellings y m d))
  /\ ask_date ["2024-02-30"; "2024-02-29"]
     = (Ok "2024-02-29", [], [Prompt AskDate; InvalidDateFormat; Prompt AskDate]).
Proof.
  intros (date & category & amount & description & -> & [[[y m] d] Hdate] & _)%add_expense_ok.
  split; [|vm_compute; reflexivity].
  exists (new_expense date category amount description), date, y, m, d.
  split; [done|]. split; [done|]. split; [done|]. by apply strptime_inv.
Qed.

Lemma accepted_date_is_calendar_date_witness :
  exists t',
    add_expense {| expenses := []; monthly_budget := IntZero |}
      ["2024-02-30"; " 2024-2-29 "; "Food"; "12.5"; "Lunch"]
    = (Ok t', [],
       [AddExpenseTitle; Prompt AskDate; InvalidDateFormat; Prompt AskDate;
        Prompt AskCategory; Prompt AskAmount; Prompt AskDescription;
        ExpenseAdded 12.5 "Food"])
    /\ exists e date y m d,
         t' = append {| expenses := []; monthly_budget := IntZero |} e
         /\ items e !! "date" = Some (VStr date)
         /\ Datetime.strptime date = Ok (y, m, d)
         /\ Datetime.valid_date y m d = true
         /\ In date (spellings y m d).
Proof.
  eexists. 
  assert (H : add_expense {| expenses := []; monthly_budget := IntZero |}
      ["2024-02-30"; " 2024-2-29 "; "Food"; "12.5"; "Lunch"]
    = (Ok (append {| expenses := []; monthly_budget := IntZero |}
             (new_expense "2024-2-29" "Food" 12.5 "Lunch")), [],
       [AddExpenseTitle; Prompt AskDate; InvalidDateFormat; Prompt AskDate;
        Prompt AskCategory; Prompt AskAmount; Prompt AskDescription;
        ExpenseAdded 12.5 "Food"])) by (vm_compute; reflexivity).
  split; [exact H|].
  exact (proj1 (accepted_date_is_calendar_date _ _ _ _ _ H)).
Defined.

End Dates.

(** ** Saving and loading *)

(** *** A record of the writer read back by the reader *)

Section Reader.
Import Csv.

Lemma is_char_eq (n : N) (c : ascii) : Str.is_char n c = true -> c = ascii_of_N n.
Proof.
  unfold Str.is_char, Str.code. intros H%N.eqb_eq. by rewrite <- H, ascii_N_embedding.
Qed.

Lemma special_false (c : ascii) :
  special c = false ->
  Str.is_char 44 c = false /\ Str.is_char 34 c = false
  /\ Str.is_char 13 c = false /\ Str.is_char 10 c = false.
Proof.
  unfold special. intros H.
  apply orb_false_elim in H as [H H10]. apply orb_false_elim in H as [H H13].
  by apply orb_false_elim in H as [H44 H34].
Qed.

(** Plain characters accumulate in an unquoted field. *)
Lemma feed_plain (s rest : string) (fs : list string) (f : string) :
  needs_quotes s = false ->
  Z.of_nat (String.length f + String.length s) <= field_limit ->
  feed {| fields := fs; field := f; state := IN_FIELD |} (s +:+ rest)
  = feed {| fields := fs; field := f +:+ s; state := IN_FIELD |} rest.
Proof.
  revert f. induction s as [|c s IH]; intros f Hq Hlen.
  - by rewrite append_empty, append_nil_r.
  - cbn in Hq. apply orb_false_elim in Hq as [Hc Hs].
    apply special_false in Hc as (H44 & H34 & H13 & H10).
    rewrite append_cons. cbn [feed]. unfold parse_process_char. cbn [state].
    unfold is_newline. rewrite H10, H13, H44. cbn [orb].
    unfold parse_add_char. cbn [field fields].
    destruct (field_limit <=? _) eqn:L;
        [apply Z.leb_le in L; cbn [String.length] in Hlen; lia|].
    cbn [rbind]. rewrite IH; [|done|rewrite length_append; cbn [String.length] in *; lia].
    by rewrite append_assoc.
Qed.

(** The characters of a quoted field accumulate, a doubled quote
    giving one quote. *)
Lemma feed_quoted (s rest : string) (fs : list string) (f : string) :
  Z.of_nat (String.length f + String.length s) <= field_limit ->
  feed {| fields := fs; field := f; state := IN_QUOTED_FIELD |} (double_quotes s +:+ rest)
  = feed {| fields := fs; field := f +:+ s; state := IN_QUOTED_FIELD |} rest.
Proof.
  revert f. induction s as [|c s IH]; intros f Hlen.
  - by rewrite append_empty, append_nil_r.
  - cbn [double_quotes]. destruct (Str.is_char 34 c) eqn:Hc.
    + rewrite !append_cons. cbn [feed]. unfold parse_process_char at 1. cbn [state].
      rewrite Hc. cbn [rbind]. unfold parse_process_char at 1. cbn [state set_state].
      rewrite Hc. unfold parse_add_char. cbn [field fields set_state].
      destruct (field_limit <=? _) eqn:L;
        [apply Z.leb_le in L; cbn [String.length] in Hlen; lia|].
      cbn [rbind]. rewrite IH; [|rewrite length_append; cbn [String.length] in *; lia].
      by rewrite append_assoc.
    + rewrite append_cons. cbn [feed]. unfold parse_process_char at 1. cbn [state].
      rewrite Hc. unfold parse_add_char. cbn [field fields].
      destruct (field_limit <=? _) eqn:L;
        [apply Z.leb_le in L; cbn [String.length] in Hlen; lia|].
      cbn [rbind]. rewrite IH; [|rewrite length_append; cbn [String.length] in *; lia].
      by rewrite append_assoc.
Qed.

Lemma feed_write_field (c tail : string) (p : parser) :
  at_start p -> fits c = true ->
  feed p (write_field c +:+ tail)
  = feed {| fields := fields p; field := c; state := after_field c (state p) |} tail.
Proof.
  intros [Hf Hst] Hfits. unfold fits in Hfits. apply Z.leb_le in Hfits.
  destruct p as [fs f st]. cbn in *. subst f.
  unfold write_field, after_field. destruct (needs_quotes c) eqn:Q.
  - rewrite append_cons, append_assoc. cbn [feed].
    assert (parse_process_char {| fields := fs; field := ""; state := st |}
              (Some Str.dquote)
            = Ok {| fields := fs; field := ""; state := IN_QUOTED_FIELD |}) as ->.
    { by destruct Hst as [-> | ->]. }
    cbn [rbind]. rewrite feed_quoted by (cbn; lia).
    rewrite append_cons, append_empty. cbn [feed]. by rewrite append_empty.
  - destruct c as [|ch c]; [done|].
    cbn in Q. apply orb_false_elim in Q as [Hch Q].
    apply special_false in Hch as (H44 & H34 & H13 & H10).
    rewrite append_cons. cbn [feed].
    assert (parse_process_char {| fields := fs; field := ""; state := st |} (Some ch)
            = Ok {| fields := fs; field := String ch ""; state := IN_FIELD |}) as ->.
    { destruct Hst as [-> | ->]; unfold parse_process_char, start_field, is_newline;
        cbn [state]; by rewrite H10, H13, H34, H44. }
    cbn [rbind]. rewrite feed_plain; [done|done|]. cbn in *. lia.
Qed.

Lemma comma_step (fs : list string) (c : string) (st : pstate) :
  parse_process_char {| fields := fs; field := c; state := after_field c st |}
    (Some Str.comma)
  = Ok {| fields := fs ++ [c]; field := EmptyString; state := START_FIELD |}
  \/ (st <> START_RECORD /\ st <> START_FIELD).
Proof.
  unfold after_field. destruct (needs_quotes c); [by left|].
  destruct c; [|by left]. destruct st; (by left) || (right; by split).
Qed.

Lemma eol_step (fs : list string) (c : string) :
  parse_process_char {| fields := fs; field := c; state := after_field c START_FIELD |} None
  = Ok {| fields := fs ++ [c]; field := EmptyString; state := START_RECORD |}.
Proof. unfold after_field. destruct (needs_quotes c); [done|]. by destruct c. Qed.

(** The fields of a record written by the writer, from the second
    on. *)
Lemma feed_fields (cells : list string) (fs : list string) :
  cells <> [] -> forallb fits cells = true ->
  feed {| fields := fs; field := EmptyString; state := START_FIELD |} (join_fields cells)
  = Ok {| fields := fs ++ cells; field := EmptyString; state := START_RECORD |}.
Proof.
  revert fs. induction cells as [|c cells IH]; intros fs Hne Hfit; [done|].
  cbn in Hfit. apply andb_prop in Hfit as [Hc Hcells].
  destruct cells as [|c' cells].
  - cbn [join_fields]. rewrite <- (append_nil_r (write_field c)).
    rewrite feed_write_field; [|by split; [|right]|done].
    cbn [feed fields state]. apply eol_step.
  - cbn [join_fields]. rewrite feed_write_field; [|by split; [|right]|done].
    cbn [feed fields state].
    destruct (comma_step fs c START_FIELD) as [-> | [_ ?]]; [|done].
    cbn [rbind]. rewrite IH; [|done|done]. by rewrite <- app_assoc.
Qed.

(** A record of two fields or more, read from the start of a line. *)
Lemma feed_record (c1 c2 : string) (cells : list string) :
  forallb fits (c1 :: c2 :: cells) = true ->
  feed parse_reset (join_fields (c1 :: c2 :: cells))
  = Ok {| fields := c1 :: c2 :: cells; field := EmptyString; state := START_RECORD |}.
Proof.
  intros Hfit. cbn in Hfit. apply andb_prop in Hfit as [Hc Hcells].
  change (join_fields (c1 :: c2 :: cells))
    with (write_field c1 +:+ String Str.comma (join_fields (c2 :: cells))).
  rewrite feed_write_field; [|by split; [|left]|done].
  cbn [feed fields state parse_reset].
  destruct (comma_step [] c1 START_RECORD) as [-> | [? _]]; [|done].
  cbn [rbind]. by rewrite feed_fields.
Qed.

Lemma reader_rows (rows : list (list string)) :
  forallb wide rows = true ->
  forallb (forallb fits) rows = true ->
  reader (map join_fields rows) = (rows, None).
Proof.
  unfold reader. induction rows as [|cells rows IH]; [done|].
  cbn. intros [Hw Hws]%andb_prop [Hf Hfs]%andb_prop.
  destruct cells as [|c1 [|c2 cells]]; try done.
  rewrite feed_record by done. cbn [state fields]. by rewrite IH.
Qed.

End Reader.

(** *** Lines *)

Lemma linebreak_cr_lf (c : ascii) :
  Str.is_linebreak c = false -> Str.is_char 13 c = false /\ Str.is_char 10 c = false.
Proof.
  unfold Str.is_linebreak, Str.is_char. intros H.
  apply orb_false_elim in H as [H _]. apply orb_false_elim in H as [H _].
  split; apply N.eqb_neq; intros E; rewrite E in H; discriminate.
Qed.

Lemma universal_newlines_line (l rest : string) :
  no_linebreak l = true ->
  TextFile.universal_newlines (l +:+ String Str.CR (String Str.LF rest))
  = l +:+ String Str.LF (TextFile.universal_newlines rest).
Proof.
  induction l as [|c l IH]; [done|]. cbn [no_linebreak all_chars].
  intros [Hc Hl]%andb_prop. apply negb_true_iff, linebreak_cr_lf in Hc as [H13 _].
  rewrite !append_cons. cbn [TextFile.universal_newlines]. rewrite H13.
  by rewrite IH.
Qed.

Lemma universal_newlines_last (l : string) :
  no_linebreak l = true ->
  TextFile.universal_newlines (l +:+ String Str.LF EmptyString)
  = l +:+ String Str.LF EmptyString.
Proof.
  induction l as [|c l IH]; [done|]. cbn [no_linebreak all_chars].
  intros [Hc Hl]%andb_prop. apply negb_true_iff, linebreak_cr_lf in Hc as [H13 _].
  rewrite !append_cons. cbn [TextFile.universal_newlines]. rewrite H13.
  by rewrite IH.
Qed.

Lemma lines_line (l rest : string) :
  no_linebreak l = true ->
  TextFile.lines (l +:+ String Str.LF rest)
  = (l +:+ String Str.LF EmptyString) :: TextFile.lines rest.
Proof.
  induction l as [|c l IH]; [done|]. cbn [no_linebreak all_chars].
  intros [Hc Hl]%andb_prop. apply negb_true_iff, linebreak_cr_lf in Hc as [_ H10].
  rewrite !append_cons. cbn [TextFile.lines]. rewrite H10.
  by rewrite IH.
Qed.

Lemma splitlines_line (l rest : string) :
  no_linebreak l = true ->
  Str.splitlines (l +:+ String Str.LF rest) = l :: Str.splitlines rest.
Proof.
  induction l as [|c l IH]; [done|]. cbn [no_linebreak all_chars].
  intros [Hc Hl]%andb_prop. apply negb_true_iff in Hc.
  rewrite !append_cons. cbn [Str.splitlines]. rewrite Hc.
  by rewrite IH.
Qed.

(** A text made of lines that end with a carriage return and a line
    feed, and of a last line that ends with a line feed, is read as
    these lines. *)
Lemma readlines_table (ls : list string) (l : string) :
  forallb no_linebreak ls = true -> no_linebreak l = true ->
  TextFile.readlines (Str.join (map with_crlf ls) +:+ with_lf l)
  = map with_lf ls ++ [with_lf l].
Proof.
  intros Hls Hl. unfold TextFile.readlines.
  induction ls as [|a ls IH].
  - cbn [map Str.join app]. rewrite append_empty. unfold with_lf.
    rewrite universal_newlines_last by done.
    by rewrite lines_line.
  - cbn in Hls. apply andb_prop in Hls as [Ha Hls].
    cbn [map Str.join]. unfold with_crlf at 1, Csv.lineterminator.
    rewrite !append_assoc, !append_cons, append_empty.
    rewrite universal_newlines_line by done.
    rewrite lines_line by done. by rewrite IH.
Qed.

Lemma splitlines_join (ls : list string) :
  forallb no_linebreak ls = true ->
  Str.splitlines (Str.join (map with_lf ls)) = ls.
Proof.
  induction ls as [|a ls IH]; [done|]. cbn. intros [Ha Hls]%andb_prop.
  unfold with_lf at 1. rewrite append_assoc, append_cons, append_empty.
  rewrite splitlines_line by done. by rewrite IH.
Qed.

(** *** The text of a row *)

Lemma no_linebreak_double_quotes (s : string) :
  no_linebreak s = true -> no_linebreak (Csv.double_quotes s) = true.
Proof.
  induction s as [|c s IH]; [done|]. cbn [no_linebreak all_chars Csv.double_quotes].
  intros [Hc Hs]%andb_prop. destruct (Str.is_char 34 c); cbn [all_chars];
    rewrite ?Hc; by apply IH.
Qed.

Lemma no_linebreak_write_field (s : string) :
  no_linebreak s = true -> no_linebreak (Csv.write_field s) = true.
Proof.
  intros Hs. unfold Csv.write_field. destruct (Csv.needs_quotes s); [|done].
  pose proof (no_linebreak_double_quotes _ Hs) as H.
  unfold no_linebreak in *. cbn [all_chars]. by rewrite all_chars_append, H.
Qed.

Lemma no_linebreak_join_fields (cells : list string) :
  forallb no_linebreak cells = true -> no_linebreak (Csv.join_fields cells) = true.
Proof.
  induction cells as [|c cells IH]; [done|]. cbn [forallb].
  intros [Hc Hcells]%andb_prop. destruct cells as [|c' cells].
  - by apply no_linebreak_write_field.
  - change (Csv.join_fields (c :: c' :: cells))
      with (Csv.write_field c +:+ String Str.comma (Csv.join_fields (c' :: cells))).
    pose proof (no_linebreak_write_field _ Hc) as H. specialize (IH Hcells).
    unfold no_linebreak in *. rewrite all_chars_append. cbn [all_chars].
    by rewrite H, IH.
Qed.

(** *** The budget marker *)

Lemma startswith_sep (p d rest : string) :
  no_comma p = true -> no_comma d = true ->
  Str.startswith (p +:+ String Str.comma EmptyString) (d +:+ String Str.comma rest) = true ->
  d = p.
Proof.
  revert d. induction p as [|a p IH]; intros [|c d]; cbn [no_comma all_chars];
    rewrite ?append_cons, ?append_empty; cbn [Str.startswith].
  - done.
  - intros _ [Hc _]%andb_prop [E _]%andb_prop. apply Ascii.eqb_eq in E as <-. done.
  - intros [Ha _]%andb_prop _ [E _]%andb_prop. apply Ascii.eqb_eq in E as ->. done.
  - intros [_ Hp]%andb_prop [_ Hd]%andb_prop [E H]%andb_prop.
    apply Ascii.eqb_eq in E as ->. f_equal. by apply IH.
Qed.

Lemma needs_quotes_no_comma (s : string) : Csv.needs_quotes s = false -> no_comma s = true.
Proof.
  induction s as [|c s IH]; [done|]. cbn [Csv.needs_quotes].
  intros [Hc Hs]%orb_false_elim. specialize (IH Hs).
  unfold Csv.special in Hc. repeat (apply orb_false_elim in Hc as [Hc _]).
  unfold no_comma in *. cbn [all_chars]. by rewrite Hc, IH.
Qed.

(** The line of a row is not taken for the budget line, unless its
    first field is [#BUDGET]. *)
Lemma row_not_marker (d c : string) (cells : list string) (tail : string) :
  d <> "#BUDGET" ->
  is_marker (Csv.join_fields (d :: c :: cells) +:+ tail) = false.
Proof.
  intros Hd. change (Csv.join_fields (d :: c :: cells))
    with (Csv.write_field d +:+ String Str.comma (Csv.join_fields (c :: cells))).
  unfold Csv.write_field. destruct (Csv.needs_quotes d) eqn:Q; [done|].
  rewrite append_assoc, append_cons.
  destruct (is_marker _) eqn:M; [|done]. exfalso. apply Hd.
  apply (startswith_sep "#BUDGET" d _ eq_refl (needs_quotes_no_comma _ Q) M).
Qed.

(** *** The text of a float *)

Lemma plain_digit_char (d : Z) : plain (PyFloat.digit_char d) = true.
Proof. unfold plain, PyFloat.is_digit. by rewrite digit_digit_char. Qed.

Lemma plain_text_of_digits (ds : list Z) : all_chars plain (PyFloat.text_of_digits ds) = true.
Proof.
  induction ds as [|d ds IH]; [done|]. cbn [PyFloat.text_of_digits all_chars].
  by rewrite plain_digit_char, IH.
Qed.

Lemma length_text_of_digits (ds : list Z) :
  String.length (PyFloat.text_of_digits ds) = length ds.
Proof. induction ds as [|d ds IH]; [done|]. cbn. by rewrite IH. Qed.

Lemma length_digits_of (fuel : nat) (c : Z) (acc : list Z) :
  (length (PyFloat.digits_of fuel c acc) <= fuel + length acc)%nat.
Proof.
  revert c acc. induction fuel as [|fuel IH]; intros c acc; cbn [PyFloat.digits_of]; [lia|].
  destruct (c <=? 0); [lia|]. specialize (IH (c / 10) (c mod 10 :: acc)).
  cbn [length] in IH. lia.
Qed.

Lemma length_drop_zeros (ds : list Z) : (length (PyFloat.drop_zeros ds) <= length ds)%nat.
Proof.
  induction ds as [|d ds IH]; [done|]. cbn. destruct (d =? 0); cbn; lia.
Qed.

Lemma length_shortest_digits (m : positive) (e : Z) :
  (length (PyFloat.shortest_digits m e).1 <= 18)%nat.
Proof.
  unfold PyFloat.shortest_digits.
  destruct (if 0 <=? e then _ else _) as [num den].
  destruct (PyFloat.shortest _ _ _ _ _ _ _) as [c p]. cbn [fst].
  unfold PyFloat.strip_trailing_zeros. rewrite length_rev.
  etransitivity; [apply length_drop_zeros|]. rewrite length_rev.
  etransitivity; [apply length_digits_of|]. cbn. lia.
Qed.

Lemma plain_text_of_exponent (x : Z) : all_chars plain (PyFloat.text_of_exponent x) = true.
Proof.
  unfold PyFloat.text_of_exponent. cbn [all_chars].
  destruct (x <? 0), (Z.abs x <? 10); by rewrite plain_text_of_digits.
Qed.

Lemma length_text_of_exponent (x : Z) :
  (String.length (PyFloat.text_of_exponent x) <= 5)%nat.
Proof.
  unfold PyFloat.text_of_exponent. cbn [String.length].
  destruct (Z.abs x <? 10); rewrite length_text_of_digits; [cbn; lia|].
  pose proof (length_digits_of 4 (Z.abs x) []). cbn in *. lia.
Qed.

Lemma plain_layout (ds : list Z) (decpt : Z) :
  all_chars plain (PyFloat.layout ds decpt) = true.
Proof.
  unfold PyFloat.layout, PyFloat.zeros.
  destruct (_ || _).
  - destruct ds as [|d ds]; [done|]. cbn [all_chars]. rewrite plain_digit_char.
    rewrite all_chars_append. cbn [all_chars andb].
    rewrite plain_text_of_exponent.
    destruct ds; [done|]. cbn [all_chars]. by rewrite plain_text_of_digits.
  - destruct (decpt <=? 0); [|destruct (_ <=? decpt)];
      rewrite ?all_chars_append, ?plain_text_of_digits; done.
Qed.

Lemma length_layout (ds : list Z) (decpt : Z) :
  (length ds <= 18)%nat -> (String.length (PyFloat.layout ds decpt) <= 40)%nat.
Proof.
  intros Hds. unfold PyFloat.layout, PyFloat.zeros.
  destruct (_ || _) eqn:B.
  - destruct ds as [|d ds]; [cbn; lia|]. cbn [String.length].
    rewrite length_append. cbn [String.length].
    pose proof (length_text_of_exponent (decpt - 1)).
    destruct ds; cbn [String.length] in *; rewrite ?length_text_of_digits; cbn in *; lia.
  - apply orb_false_elim in B as [B1 B2].
    apply Z.leb_gt in B1. apply Z.ltb_ge in B2.
    destruct (decpt <=? 0) eqn:D1; [|destruct (_ <=? decpt) eqn:D2].
    + rewrite !length_append, !length_text_of_digits, repeat_length. cbn. lia.
    + apply Z.leb_le in D2.
      rewrite !length_append, !length_text_of_digits, repeat_length. cbn. lia.
    + rewrite !length_append, !length_text_of_digits, length_take, length_drop. cbn. lia.
Qed.

Lemma repr_plain (x : float) : all_chars plain (PyFloat.repr x) = true.
Proof.
  unfold PyFloat.repr. destruct (Prim2SF x) as [[]|[]| |s m e]; try done.
  destruct (PyFloat.shortest_digits m e) as [ds decpt].
  rewrite all_chars_append, plain_layout. by destruct s.
Qed.

Lemma repr_length (x : float) : (String.length (PyFloat.repr x) <= 41)%nat.
Proof.
  unfold PyFloat.repr. destruct (Prim2SF x) as [[]|[]| |s m e]; try (cbn; lia).
  pose proof (length_shortest_digits m e) as H.
  destruct (PyFloat.shortest_digits m e) as [ds decpt]. cbn [fst] in H.
  rewrite length_append. pose proof (length_layout ds decpt H).
  destruct s; cbn; lia.
Qed.

Lemma plain_properties (c : ascii) :
  plain c = true ->
  Str.is_linebreak c = false /\ Str.isspace c = false /\ Csv.special c = false.
Proof.
  destruct c as [[|] [|] [|] [|] [|] [|] [|] [|]]; vm_compute; try discriminate; done.
Qed.

Lemma plain_no_linebreak (s : string) : all_chars plain s = true -> no_linebreak s = true.
Proof.
  apply all_chars_impl. intros c Hc. apply plain_properties in Hc as (-> & _). done.
Qed.

Lemma plain_no_comma (s : string) : all_chars plain s = true -> no_comma s = true.
Proof.
  apply all_chars_impl. intros c Hc. apply plain_properties in Hc as (_ & _ & H).
  unfold Csv.special in H. repeat (apply orb_false_elim in H as [H _]). by rewrite H.
Qed.

Lemma repr_fits (x : float) : fits (PyFloat.repr x) = true.
Proof.
  unfold fits. apply Z.leb_le. pose proof (repr_length x). unfold Csv.field_limit. lia.
Qed.

(** *** The budget line *)

Lemma split_no_comma (s : string) :
  no_comma s = true -> Str.split Str.comma s = [s].
Proof.
  induction s as [|c s IH]; [done|]. cbn [no_comma all_chars].
  intros [Hc Hs]%andb_prop. cbn [Str.split].
  replace (Ascii.eqb c Str.comma) with false.
  - by rewrite (IH Hs).
  - symmetry. apply Ascii.eqb_neq. intros ->. done.
Qed.

Lemma split_sep (a b : string) :
  no_comma a = true ->
  Str.split Str.comma (a +:+ String Str.comma b) = a :: Str.split Str.comma b.
Proof.
  induction a as [|c a IH]; [done|]. cbn [no_comma all_chars].
  intros [Hc Ha]%andb_prop. rewrite append_cons. cbn [Str.split].
  replace (Ascii.eqb c Str.comma) with false.
  - by rewrite (IH Ha).
  - symmetry. apply Ascii.eqb_neq. intros ->. done.
Qed.

Lemma rstrip_lf (s : string) :
  all_chars (fun c => negb (Str.isspace c)) s = true ->
  Str.rstrip (s +:+ String Str.LF EmptyString) = s.
Proof.
  induction s as [|c s IH]; [done|]. cbn [all_chars].
  intros [Hc Hs]%andb_prop. apply negb_true_iff in Hc.
  rewrite append_cons. cbn [Str.rstrip]. rewrite (IH Hs), Hc. by destruct s.
Qed.

Lemma strip_lf (s : string) :
  all_chars (fun c => negb (Str.isspace c)) s = true ->
  Str.strip (s +:+ String Str.LF EmptyString) = s.
Proof.
  intros Hs. unfold Str.strip. destruct s as [|c s]; [done|].
  pose proof Hs as Hs'. cbn [all_chars] in Hs'. apply andb_prop in Hs' as [Hc _].
  apply negb_true_iff in Hc. rewrite append_cons. cbn [Str.lstrip]. rewrite Hc.
  rewrite <- append_cons. by apply rstrip_lf.
Qed.

Lemma parse_budget_marker (text : string) :
  all_chars plain text = true ->
  parse_budget (with_lf (budget_marker +:+ text)) = PyFloat.of_str text.
Proof.
  intros Hplain. unfold parse_budget, with_lf.
  change (budget_marker +:+ text) with ("#BUDGET" +:+ String Str.comma text).
  rewrite append_assoc, (append_cons Str.comma text). rewrite split_sep by done.
  rewrite split_no_comma.
  - cbn [lookup list_lookup]. rewrite strip_lf; [done|].
    revert Hplain. apply all_chars_impl. intros c Hc.
    by apply plain_properties in Hc as (_ & -> & _).
  - unfold no_comma. rewrite all_chars_append. fold (no_comma text).
    by rewrite plain_no_comma.
Qed.

(** *** Saving, then loading *)

Lemma dict_to_list_to_dict (r : expense) : dict_to_list (to_dict r) = Ok (cells r).
Proof. reflexivity. Qed.

Lemma convert_amount_row (r : expense) :
  PyFloat.of_str (PyFloat.repr (amount r)) = Ok (amount r) ->
  convert_amount (make_row fieldnames (cells r)) = Ok (to_dict r).
Proof.
  intros H. unfold convert_amount.
  change (items (make_row fieldnames (cells r)) !! "amount")
    with (Some (VStr (PyFloat.repr (amount r)))).
  cbn [float_of_value]. rewrite H. reflexivity.
Qed.

Lemma writerow_wide (fs : list string) :
  wide fs = true -> Csv.writerow fs = with_crlf (Csv.join_fields fs).
Proof. destruct fs as [|a [|b fs]]; try done. by destruct a. Qed.

Lemma writerows_to_dict (rs : list expense) :
  writerows (map to_dict rs) = (Str.join (map with_crlf (map row_line rs)), None).
Proof.
  induction rs as [|r rs IH]; [done|]. cbn [map writerows].
  rewrite dict_to_list_to_dict, IH. by rewrite writerow_wide.
Qed.

Lemma save_expenses_file (rs : list expense) (b : number) :
  rs <> [] ->
  save_expenses {| expenses := map to_dict rs; monthly_budget := b |}
  = (file_of rs b, [Saved]).
Proof.
  intros Hrs. unfold save_expenses. cbn [expenses monthly_budget].
  destruct rs as [|r rs]; [done|].
  change (map to_dict (r :: rs)) with (to_dict r :: map to_dict rs) at 1.
  cbv iota. rewrite writerows_to_dict. unfold file_of, with_lf.
  cbn [map Str.join]. by rewrite !append_assoc.
Qed.

Lemma storable_cells (r : expense) :
  storable r ->
  forallb no_linebreak (cells r) = true /\ forallb fits (cells r) = true.
Proof.
  intros (Hd & Hc & Hdesc & _ & _). unfold storable_text in *.
  apply andb_prop in Hd as [? ?], Hc as [? ?], Hdesc as [? ?].
  unfold cells. cbn [forallb].
  rewrite (plain_no_linebreak _ (repr_plain (amount r))), repr_fits.
  split; repeat (apply andb_true_intro; split); done.
Qed.

Lemma storable_row_line (r : expense) :
  storable r ->
  no_linebreak (row_line r) = true /\ is_marker (with_lf (row_line r)) = false.
Proof.
  intros Hr. split.
  - apply no_linebreak_join_fields. by apply storable_cells.
  - destruct Hr as (_ & _ & _ & Hd & _). by apply row_not_marker.
Qed.

Lemma storable_lines (rs : list expense) :
  Forall storable rs ->
  forallb no_linebreak (header :: map row_line rs) = true
  /\ List.filter is_marker (map with_lf (header :: map row_line rs)) = []
  /\ List.filter (fun l => negb (is_marker l)) (map with_lf (header :: map row_line rs))
     = map with_lf (header :: map row_line rs).
Proof.
  intros Hrs. cbn [forallb map List.filter].
  change (no_linebreak header) with true. change (is_marker (with_lf header)) with false.
  cbn [andb negb]. induction Hrs as [|r rs Hr _ (IH1 & IH2 & IH3)]; [done|].
  cbn [map forallb List.filter].
  destruct (storable_row_line r Hr) as [-> ->]. cbn [andb negb].
  split; [done|]. split; [done|]. by injection IH3 as ->.
Qed.

(** The lines of the file, as [load_expenses] sorts them. *)
Lemma partition_file (rs : list expense) (b : number) :
  Forall storable rs -> all_chars plain (text_of_number b) = true ->
  partition_lines (TextFile.readlines (file_of rs b)) None []
  = (Some (with_lf (budget_marker +:+ text_of_number b)),
     map with_lf (header :: map row_line rs)).
Proof.
  intros Hrs Hb. destruct (storable_lines rs Hrs) as (H1 & H2 & H3).
  assert (Hmarker : is_marker (with_lf (budget_marker +:+ text_of_number b)) = true).
  { unfold with_lf. by rewrite append_assoc. }
  unfold file_of. rewrite readlines_table; [|done|].
  - rewrite partition_lines_spec, !List.filter_app, H2, H3. cbn [List.filter app].
    rewrite Hmarker. cbn [negb last]. by rewrite app_nil_r.
  - pose proof (plain_no_linebreak _ Hb) as H. unfold no_linebreak in *.
    by rewrite all_chars_append, H.
Qed.

Lemma text_of_number_plain (b : number) : all_chars plain (text_of_number b) = true.
Proof. destruct b; [done|]. apply repr_plain. Qed.

Lemma load_rows_converted (rs : list expense) (es : list dict) :
  Forall storable rs ->
  load_rows (map (make_row fieldnames) (map cells rs)) es
  = (es ++ map to_dict rs, [], None).
Proof.
  intros Hrs. revert es. induction Hrs as [|r rs Hr _ IH]; intros es.
  - cbn. by rewrite app_nil_r.
  - cbn [map load_rows]. destruct Hr as (_ & _ & _ & _ & Hamount).
    rewrite (convert_amount_row _ Hamount), IH. by rewrite <- app_assoc.
Qed.

Lemma filter_cells (rs : list expense) :
  List.filter (fun row => negb (is_blank row)) (map cells rs) = map cells rs.
Proof. induction rs as [|r rs IH]; [done|]. cbn. by rewrite IH. Qed.

Lemma dict_reader_table (rs : list expense) :
  Forall storable rs ->
  dict_reader (header :: map row_line rs)
  = (map (make_row fieldnames) (map cells rs), None).
Proof.
  intros Hrs. unfold dict_reader.
  replace (header :: map row_line rs)
    with (map Csv.join_fields (fieldnames :: map cells rs))
    by (cbn [map]; by rewrite map_map).
  rewrite reader_rows.
  - by rewrite filter_cells.
  - cbn [forallb]. change (wide fieldnames) with true. cbn [andb].
    clear Hrs. by induction rs.
  - cbn [forallb]. change (forallb fits fieldnames) with true. cbn [andb].
    induction Hrs as [|r rs Hr _ IH]; [done|]. cbn [map forallb].
    destruct (storable_cells r Hr) as [_ ->]. done.
Qed.

Lemma load_csv_table (rs : list expense) :
  Forall storable rs ->
  load_csv (map with_lf (header :: map row_line rs)) []
  = (map to_dict rs, [], None).
Proof.
  intros Hrs. unfold load_csv. cbn [map].
  change (with_lf header :: map with_lf (map row_line rs))
    with (map with_lf (header :: map row_line rs)).
  destruct (storable_lines rs Hrs) as (H1 & _ & _).
  rewrite splitlines_join by done. rewrite dict_reader_table by done.
  by rewrite load_rows_converted.
Qed.

(** C1, amended.  Saving a non-empty sequence of storable expenses
    and a budget, then loading the file, gives back the same expenses,
    with the same fields, in the same order, and the same budget (as a
    float: the budget [0] of a tracker that never had one comes back as
    [0.0]). *)
Theorem save_then_load (rs : list expense) (b : number) :
  rs <> [] -> Forall storable rs -> storable_budget b ->
  exists content,
    save_expenses {| expenses := map to_dict rs; monthly_budget := b |}
    = (content, [Saved])
    /\ (init (Some content)).1
       = {| expenses := map to_dict rs; monthly_budget := Float (to_float b) |}.
Proof.
  intros Hne Hrs Hb. exists (file_of rs b). split; [by apply save_expenses_file|].
  unfold init, load_expenses.
  rewrite partition_file; [|done|apply text_of_number_plain].
  rewrite load_budget_marker, parse_budget_marker by apply text_of_number_plain.
  rewrite Hb, load_csv_table by done. done.
Qed.

Lemma save_then_load_witness :
  [lunch_at_noon; taxi_ride] <> []
  /\ Forall storable [lunch_at_noon; taxi_ride]
  /\ storable_budget (Float 100)
  /\ (init (Some (save_expenses
                    {| expenses := map to_dict [lunch_at_noon; taxi_ride];
                       monthly_budget := Float 100 |}).1)).1
     = {| expenses := map to_dict [lunch_at_noon; taxi_ride];
          monthly_budget := Float 100 |}.
Proof.
  assert (H1 : [lunch_at_noon; taxi_ride] <> []) by discriminate.
  assert (H2 : Forall storable [lunch_at_noon; taxi_ride]).
  { repeat constructor; try discriminate; vm_compute; reflexivity. }
  assert (H3 : storable_budget (Float 100)) by (vm_compute; reflexivity).
  do 3 (split; [assumption|]).
  destruct (save_then_load [lunch_at_noon; taxi_ride] (Float 100) H1 H2 H3)
    as (content & Hsave & Hload).
  rewrite Hsave. cbn [fst]. rewrite Hload. reflexivity.
Defined.

(** The claim C1 as stated fails on this expense: the line of its row
    is cut at the form feed, the first half comes back as an expense
    with another description, and the second half ends the load. *)
Lemma form_feed_breaks_round_trip :
  init (Some (save_expenses {| expenses := [to_dict two_pages];
                               monthly_budget := Float 100 |}).1)
  = ({| expenses := [new_expense "2024-03-01" "Food" 12.5 "a"];
        monthly_budget := Float 100 |}, [ErrorLoading TypeError])
  /\ new_expense "2024-03-01" "Food" 12.5 "a" <> to_dict two_pages.
Proof.
  split; [vm_compute; reflexivity|].
  intros H. apply (f_equal (fun d => items d !! "description")) in H.
  vm_compute in H. discriminate.
Qed.

(** The row of this expense starts like the budget line: it is taken
    for one, and the expense does not come back. *)
Example marker_date_breaks_round_trip :
  init (Some (save_expenses {| expenses := [to_dict marked; to_dict taxi_ride];
                               monthly_budget := Float 100 |}).1)
  = ({| expenses := [to_dict taxi_ride]; monthly_budget := Float 100 |},
     [Loaded 1; LoadedBudget (Float 100)]).
Proof. vm_compute. reflexivity. Qed.

(** Round trip on the empty state. *)
Example save_then_load_empty :
  save_expenses {| expenses := []; monthly_budget := IntZero |}
  = ("#BUDGET,0" +:+ nl, [Saved])
  /\ init (Some ("#BUDGET,0" +:+ nl))
     = ({| expenses := []; monthly_budget := Float 0 |}, [Loaded 0]).
Proof. split; vm_compute; reflexivity. Qed.

(** * More properties *)

(** ** Expenses entered *)

Lemma not_le_zero_not_zero (x : float) :
  (x <=? zero)%float = false -> (x =? zero)%float = false.
Proof.
  rewrite FloatAxioms.leb_spec, FloatAxioms.eqb_spec.
  change (Prim2SF zero) with (S754_zero false).
  destruct (Prim2SF x) as [[]|[]| |[] m e]; cbn; congruence.
Qed.

Lemma strptime_not_empty (date : string) ymd :
  Datetime.strptime date = Ok ymd -> date <> EmptyString.
Proof. intros H ->. vm_compute in H. discriminate. Qed.

Lemma eqb_empty_false (s : string) : s <> EmptyString -> String.eqb s EmptyString = false.
Proof. by destruct s. Qed.

Lemma new_expense_well_formed (date category : string) (amount : float) (description : string) :
  date <> EmptyString -> category <> EmptyString -> (amount <=? zero)%float = false ->
  description <> EmptyString ->
  well_formed (new_expense date category amount description) = true.
Proof.
  intros Hd Hc Ha Hs. unfold well_formed, required. cbn [forallb].
  change (items (new_expense date category amount description) !! "date")
    with (Some (VStr date)).
  change (items (new_expense date category amount description) !! "category")
    with (Some (VStr category)).
  change (items (new_expense date category amount description) !! "amount")
    with (Some (VFloat amount)).
  change (items (new_expense date category amount description) !! "description")
    with (Some (VStr description)).
  cbn [truthy].
  by rewrite !eqb_empty_false, not_le_zero_not_zero.
Qed.

Lemma new_expense_fields (date category : string) (amount : float) (description : string) :
  wrong_fields (new_expense date category amount description) = false.
Proof. reflexivity. Qed.

Lemma total_of_snoc (es : list dict) (e : dict) :
  well_formed e = true ->
  total_of (es ++ [e]) = num_add (total_of es) (amount_of e).
Proof.
  intros W. unfold total_of. rewrite filter_well_formed_app. cbn [List.filter].
  rewrite W, map_app, fold_left_app. done.
Qed.

(** X1.  Every expense that [add_expense] stores is well formed: its
    date, category and description are not empty and its amount is not
    zero.  It is put at the end of the store and the budget is left as
    it is; its keys are field names, so that [save_expenses] can write
    it, and [view_expenses] lists it. *)
Theorem entered_expense_is_well_formed (t t' : tracker) (input rest : list string)
    (out : list output) :
  add_expense t input = (Ok t', rest, out) ->
  exists e,
    expenses t' = expenses t ++ [e]
    /\ monthly_budget t' = monthly_budget t
    /\ well_formed e = true
    /\ wrong_fields e = false
    /\ line_of e = ExpenseLine e.
Proof.
  intros (date & category & amount & description & -> & [ymd Hd] & Hc & Ha & Hs)%add_expense_ok.
  exists (new_expense date category amount description).
  assert (W : well_formed (new_expense date category amount description) = true).
  { apply new_expense_well_formed; try done. by eapply strptime_not_empty. }
  do 2 (split; [done|]). split; [done|]. split; [apply new_expense_fields|].
  unfold line_of. by rewrite W.
Qed.

Lemma lunch_entered :
  add_expense fresh lunch_typed
  = (Ok {| expenses := [lunch]; monthly_budget := IntZero |}, [],
     [AddExpenseTitle; Prompt AskDate; Prompt AskCategory; Prompt AskAmount;
      Prompt AskDescription; ExpenseAdded 12.5 "Food"]).
Proof. vm_compute. reflexivity. Qed.

Lemma entered_expense_is_well_formed_witness :
  add_expense fresh lunch_typed
  = (Ok {| expenses := [lunch]; monthly_budget := IntZero |}, [],
     [AddExpenseTitle; Prompt AskDate; Prompt AskCategory; Prompt AskAmount;
      Prompt AskDescription; ExpenseAdded 12.5 "Food"])
  /\ well_formed lunch = true /\ wrong_fields lunch = false
  /\ line_of lunch = ExpenseLine lunch.
Proof.
  split; [exact lunch_entered|].
  destruct (entered_expense_is_well_formed _ _ _ _ _ lunch_entered)
    as (e & He & _ & W & F & L).
  cbn [expenses app fresh] in He. injection He as <-. auto.
Defined.

(** X2.  After [add_expense], [view_expenses] lists the expenses of
    before, then the new one, and the total it prints is the total of
    before plus the new amount. *)
Theorem view_after_add (t t' : tracker) (input rest : list string) (out : list output) :
  Forall stored (expenses t) ->
  add_expense t input = (Ok t', rest, out) ->
  exists e amount,
    expenses t' = expenses t ++ [e]
    /\ items e !! "amount" = Some (VFloat amount)
    /\ total_of (expenses t') = num_add (total_of (expenses t)) (Float amount)
    /\ view_expenses t' =
         (Ok tt, [ViewTitle; TableHeader; Rule] ++ map line_of (expenses t)
                   ++ [ExpenseLine e; Rule;
                       TotalLine (num_add (total_of (expenses t)) (Float amount))]).
Proof.
  intros Ht Hadd. pose proof (add_expense_stored _ _ _ _ _ Hadd Ht) as Ht'.
  apply add_expense_ok in Hadd
    as (date & category & amount & description & -> & [ymd Hd] & Hc & Ha & Hs).
  set (e := new_expense date category amount description) in *.
  assert (W : well_formed e = true).
  { apply new_expense_well_formed; try done. by eapply strptime_not_empty. }
  assert (Htotal : total_of (expenses t ++ [e]) = num_add (total_of (expenses t)) (Float amount)).
  { by rewrite total_of_snoc. }
  exists e, amount. split; [done|]. split; [done|]. split; [done|].
  unfold view_expenses. cbn [append expenses] in *.
  destruct (expenses t ++ [e]) as [|e0 es] eqn:E.
  { by destruct (expenses t). }
  rewrite view_loop_spec by done. fold (total_of (e0 :: es)).
  rewrite Htotal, <- E, map_app. cbn [map]. unfold line_of at 2. rewrite W.
  by rewrite <- !app_assoc.
Qed.

Lemma view_after_add_witness :
  Forall stored (expenses fresh)
  /\ add_expense fresh lunch_typed
     = (Ok {| expenses := [lunch]; monthly_budget := IntZero |}, [],
        [AddExpenseTitle; Prompt AskDate; Prompt AskCategory; Prompt AskAmount;
         Prompt AskDescription; ExpenseAdded 12.5 "Food"])
  /\ view_expenses {| expenses := [lunch]; monthly_budget := IntZero |}
     = (Ok tt, [ViewTitle; TableHeader; Rule; ExpenseLine lunch; Rule;
                TotalLine (Float 12.5)]).
Proof.
  split; [constructor|]. split; [exact lunch_entered|].
  destruct (view_after_add fresh _ _ _ _ (List.Forall_nil _) lunch_entered)
    as (e & amount & He & Ha & _ & Hview).
  cbn [expenses app fresh] in He. injection He as <-.
  injection Ha as <-. rewrite Hview. reflexivity.
Defined.

(** ** The date loop *)

Lemma strptime_raises (s : string) (e : exn) :
  Datetime.strptime s = Raise e -> e = ValueError.
Proof.
  unfold Datetime.strptime.
  destruct (Datetime.regex_match s) as [[[[y m] d] [|c r]]|]; try congruence.
  destruct (Datetime.valid_date y m d); congruence.
Qed.

Lemma strptime_calendar_date (s : string) :
  calendar_date s <-> exists ymd, Datetime.strptime s = Ok ymd.
Proof.
  split.
  - intros (y & m & d & H). exists (y, m, d). by apply strptime_spellings.
  - intros [[[y m] d] H]. exists y, m, d. by apply strptime_spellings.
Qed.

Lemma ask_date_rejects (line : string) (input : list string) :
  ~ calendar_date (Str.strip line) ->
  ask_date (line :: input)
  = let '(r, rest, out) := ask_date input in
    (r, rest, Prompt AskDate :: InvalidDateFormat :: out).
Proof.
  intros H. cbn [ask_date].
  destruct (Datetime.strptime (Str.strip line)) as [ymd|e] eqn:E.
  - destruct H. apply strptime_calendar_date. by exists ymd.
  - by rewrite (strptime_raises _ _ E).
Qed.

Lemma ask_date_accepts (line : string) (input : list string) :
  calendar_date (Str.strip line) ->
  ask_date (line :: input) = (Ok (Str.strip line), input, [Prompt AskDate]).
Proof.
  intros [ymd H]%strptime_calendar_date. cbn [ask_date]. by rewrite H.
Qed.

Lemma not_calendar_date (s : string) :
  Datetime.strptime s = Raise ValueError -> ~ calendar_date s.
Proof. intros H [ymd H']%strptime_calendar_date. congruence. Qed.

(** ** The end of the input *)

Lemma bind_raise {A B : Type} (m : io A) (k : A -> io B) input e rest out :
  bind m k input = (Raise e, rest, out) ->
  m input = (Raise e, rest, out)
  \/ exists a input' out1 out2,
       m input = (Ok a, input', out1) /\ k a input' = (Raise e, rest, out2)
       /\ out = out1 ++ out2.
Proof.
  unfold bind. destruct (m input) as [[[a|e'] input'] out1].
  - destruct (k a input') as [[r' i''] out2] eqn:Hk. intros [= -> -> <-].
    right. by exists a, input', out1, out2.
  - intros [= -> -> ->]. by left.
Qed.

Lemma ask_date_raises (input : list string) e rest out :
  ask_date input = (Raise e, rest, out) -> e = EOFError /\ rest = [].
Proof.
  revert out. induction input as [|line input IH]; intros out; cbn [ask_date].
  - by intros [= <- <- _].
  - destruct (Datetime.strptime (Str.strip line)) as [ymd|e'] eqn:E; [done|].
    rewrite (strptime_raises _ _ E).
    destruct (ask_date input) as [[r i] o]. intros [= -> -> _]. by eapply IH.
Qed.

Lemma ask_again_raises (again : prompt) (current : string) (input : list string) e rest out :
  ask_again again current input = (Raise e, rest, out) -> e = EOFError /\ rest = [].
Proof.
  revert current out. induction input as [|line input IH]; intros current out.
  - destruct current; cbn; [|done]. by intros [= <- <- _].
  - destruct current; cbn [ask_again]; [|done].
    destruct (ask_again again (Str.strip line) input) as [[r i] o] eqn:E.
    intros [= -> -> _]. by eapply IH.
Qed.

Lemma ask_text_raises (first again : prompt) (input : list string) e rest out :
  ask_text first again input = (Raise e, rest, out) -> e = EOFError /\ rest = [].
Proof.
  unfold ask_text. intros [H|(line & i & o1 & o2 & _ & H & _)]%bind_raise.
  - destruct input; cbn in H; [|done]. by injection H as <- <- _.
  - by eapply ask_again_raises.
Qed.

Lemma ask_amount_raises (input : list string) e rest out :
  ask_amount input = (Raise e, rest, out) -> e = EOFError /\ rest = [].
Proof.
  revert out. induction input as [|line input IH]; intros out; cbn [ask_amount].
  - by intros [= <- <- _].
  - destruct (PyFloat.of_str line) as [x|e'] eqn:E.
    + destruct (x <=? zero)%float; [|done].
      destruct (ask_amount input) as [[r i] o]. intros [= -> -> _]. by eapply IH.
    + rewrite (of_str_raises _ _ E).
      destruct (ask_amount input) as [[r i] o]. intros [= -> -> _]. by eapply IH.
Qed.

Lemma ask_budget_raises (input : list string) e rest out :
  ask_budget input = (Raise e, rest, out) -> e = EOFError /\ rest = [].
Proof.
  revert out. induction input as [|line input IH]; intros out; cbn [ask_budget].
  - by intros [= <- <- _].
  - destruct (PyFloat.of_str line) as [x|e'] eqn:E.
    + destruct (x <=? zero)%float; [|done].
      destruct (ask_budget input) as [[r i] o]. intros [= -> -> _]. by eapply IH.
    + rewrite (of_str_raises _ _ E).
      destruct (ask_budget input) as [[r i] o]. intros [= -> -> _]. by eapply IH.
Qed.

Lemma add_expense_raises (t : tracker) (input : list string) e rest out :
  add_expense t input = (Raise e, rest, out) -> e = EOFError /\ rest = [].
Proof.
  unfold add_expense.
  intros [H|(_ & i0 & o0 & o0' & _ & H & _)]%bind_raise; [done|].
  apply bind_raise in H as [H|(date & i1 & o1 & o1' & _ & H & _)];
    [by eapply ask_date_raises|].
  apply bind_raise in H as [H|(category & i2 & o2 & o2' & _ & H & _)];
    [by eapply ask_text_raises|].
  apply bind_raise in H as [H|(amount & i3 & o3 & o3' & _ & H & _)];
    [by eapply ask_amount_raises|].
  apply bind_raise in H as [H|(description & i4 & o4 & o4' & _ & H & _)];
    [by eapply ask_text_raises|].
  apply bind_raise in H as [H|(_ & i5 & o5 & o5' & _ & H & _)]; done.
Qed.

Lemma set_budget_raises (t : tracker) (input : list string) e rest out :
  set_budget t input = (Raise e, rest, out) -> e = EOFError /\ rest = [].
Proof.
  unfold set_budget.
  intros [H|(_ & i0 & o0 & o0' & _ & H & _)]%bind_raise; [done|].
  apply bind_raise in H as [H|(budget & i1 & o1 & o1' & _ & H & _)];
    [by eapply ask_budget_raises|done].
Qed.

Lemma track_budget_raises (t : tracker) (input : list string) e rest out :
  Forall stored (expenses t) ->
  track_budget t input = (Raise e, rest, out) -> e = EOFError /\ rest = [].
Proof.
  intros Ht. destruct (num_is_zero (monthly_budget t)) eqn:Hb.
  - unfold track_budget. rewrite Hb.
    intros [H|(_ & i0 & o0 & o0' & _ & H & _)]%bind_raise; [done|].
    apply bind_raise in H as [H|(_ & i1 & o1 & o1' & _ & H & _)]; [done|].
    by eapply set_budget_raises.
  - by rewrite track_budget_spec.
Qed.

(** ** The lines read *)

Lemma ask_date_reads (input : list string) date rest out :
  ask_date input = (Ok date, rest, out) -> (S (length rest) <= length input)%nat.
Proof.
  revert out. induction input as [|line input IH]; intros out; cbn [ask_date]; [done|].
  destruct (Datetime.strptime (Str.strip line)) as [ymd|e] eqn:E.
  - intros [= _ <- _]. cbn. lia.
  - rewrite (strptime_raises _ _ E).
    destruct (ask_date input) as [[r i] o]. intros [= -> -> _].
    specialize (IH _ eq_refl). cbn. lia.
Qed.

Lemma ask_again_reads (again : prompt) (current : string) (input : list string)
    text rest out :
  ask_again again current input = (Ok text, rest, out) ->
  (length rest <= length input)%nat.
Proof.
  revert current out. induction input as [|line input IH]; intros current out.
  - destruct current; cbn; [done|]. by intros [= _ <- _].
  - destruct current; cbn [ask_again]; [|by intros [= _ <- _]].
    destruct (ask_again again (Str.strip line) input) as [[r i] o] eqn:E.
    intros [= -> -> _]. specialize (IH _ _ E). cbn. lia.
Qed.

Lemma ask_text_reads (first again : prompt) (input : list string) text rest out :
  ask_text first again input = (Ok text, rest, out) ->
  (S (length rest) <= length input)%nat.
Proof.
  unfold ask_text. intros (line & i & o1 & o2 & H1 & H2 & _)%bind_ok.
  apply ask_again_reads in H2. destruct input as [|l input]; [done|].
  injection H1 as _ <- _. cbn. lia.
Qed.

Lemma ask_amount_reads (input : list string) amount rest out :
  ask_amount input = (Ok amount, rest, out) -> (S (length rest) <= length input)%nat.
Proof.
  revert out. induction input as [|line input IH]; intros out; cbn [ask_amount]; [done|].
  destruct (PyFloat.of_str line) as [x|e] eqn:E.
  - destruct (x <=? zero)%float.
    + destruct (ask_amount input) as [[r i] o]. intros [= -> -> _].
      specialize (IH _ eq_refl). cbn. lia.
    + intros [= _ <- _]. cbn. lia.
  - rewrite (of_str_raises _ _ E).
    destruct (ask_amount input) as [[r i] o]. intros [= -> -> _].
    specialize (IH _ eq_refl). cbn. lia.
Qed.

Lemma add_expense_reads (t t' : tracker) (input rest : list string) (out : list output) :
  add_expense t input = (Ok t', rest, out) -> (4 + length rest <= length input)%nat.
Proof.
  unfold add_expense.
  intros (u0 & i0 & o0 & o0' & H0 & H & _)%bind_ok.
  unfold print in H0. injection H0 as _ E0 _. subst i0.
  apply bind_ok in H as (date & i1 & o1 & o1' & Hdate%ask_date_reads & H & _).
  apply bind_ok in H as (category & i2 & o2 & o2' & Hcategory%ask_text_reads & H & _).
  apply bind_ok in H as (amount & i3 & o3 & o3' & Hamount%ask_amount_reads & H & _).
  apply bind_ok in H as (description & i4 & o4 & o4' & Hdescription%ask_text_reads & H & _).
  apply bind_ok in H as (u5 & i5 & o5 & o5' & H5 & H & _).
  unfold print in H5. injection H5 as _ E5 _. subst i5.
  unfold ret in H. injection H as _ E _. subst rest. lia.
Qed.

(** X3.  [add_expense] either returns, having read four lines at
    least, or it finds the input at its end: then it raises [EOFError],
    no line is left, and no tracker is returned: nothing is stored. *)
Theorem add_expense_returns_or_input_ends (t : tracker) (input : list string) :
  (exists t' rest out,
     add_expense t input = (Ok t', rest, out)
     /\ (4 + length rest <= length input)%nat)
  \/ (exists out, add_expense t input = (Raise EOFError, [], out)).
Proof.
  destruct (add_expense t input) as [[[t'|e] rest] out] eqn:E.
  - left. exists t', rest, out. split; [done|]. by eapply add_expense_reads.
  - right. exists out. by destruct (add_expense_raises _ _ _ _ _ E) as [-> ->].
Qed.

(** ** The budget *)

Lemma ask_budget_ok (input : list string) (budget : float) rest out :
  ask_budget input = (Ok budget, rest, out) ->
  (budget <=? zero)%float = false
  /\ last out = Some (BudgetSet budget)
  /\ (forall total, ~ In (TotalExpenses total) out)
  /\ (S (length rest) <= length input)%nat.
Proof.
  revert out. induction input as [|line input IH]; intros out; cbn [ask_budget]; [done|].
  destruct (PyFloat.of_str line) as [x|e] eqn:E.
  - destruct (x <=? zero)%float eqn:L.
    + destruct (ask_budget input) as [[r i] o]. intros [= -> -> <-].
      destruct (IH _ eq_refl) as (? & Hlast & Hno & ?). split; [done|]. split; [|split].
      * destruct o as [|o1 o]; [done|]. exact Hlast.
      * intros total [?|[?|?]]; try done. by eapply Hno.
      * cbn. lia.
    + intros [= <- <- <-]. split; [done|]. split; [done|]. split.
      * intros total [?|[?|?]]; done.
      * cbn. lia.
  - rewrite (of_str_raises _ _ E).
    destruct (ask_budget input) as [[r i] o]. intros [= -> -> <-].
    destruct (IH _ eq_refl) as (? & Hlast & Hno & ?). split; [done|]. split; [|split].
    * destruct o as [|o1 o]; [done|]. exact Hlast.
    * intros total [?|[?|?]]; try done. by eapply Hno.
    * cbn. lia.
Qed.

Lemma set_budget_ok (t t' : tracker) (input rest : list string) (out : list output) :
  set_budget t input = (Ok t', rest, out) ->
  exists budget,
    t' = {| expenses := expenses t; monthly_budget := Float budget |}
    /\ (budget <=? zero)%float = false
    /\ last out = Some (BudgetSet budget)
    /\ (forall total, ~ In (TotalExpenses total) out)
    /\ (S (length rest) <= length input)%nat.
Proof.
  unfold set_budget.
  intros (u0 & i0 & o0 & o0' & H0 & H & ->)%bind_ok.
  unfold print in H0. injection H0 as _ E0 E0'. subst i0 o0.
  apply bind_ok in H as (budget & i1 & o1 & o1' & Hb & H & ->).
  unfold ret in H. injection H as E1 E2 E3. subst t' rest o1'.
  destruct (ask_budget_ok _ _ _ _ Hb) as (Hpos & Hlast & Hno & Hlen).
  exists budget. split; [done|]. split; [done|].
  rewrite app_nil_r. split; [|split; [|done]].
  - destruct o1 as [|x o1]; [done|]. exact Hlast.
  - intros total [?|?]; [done|]. by eapply Hno.
Qed.

(** X4.  When no budget is set, [track_budget] prints no total: it
    goes to [set_budget], which leaves the expenses as they are and
    stores a budget that is not [<= 0], printed last.  [track_budget]
    then reports the balance against that budget, and asks nothing. *)
Theorem first_track_sets_budget (t t' : tracker) (input rest : list string)
    (out : list output) :
  Forall stored (expenses t) ->
  num_is_zero (monthly_budget t) = true ->
  track_budget t input = (Ok t', rest, out) ->
  exists budget,
    t' = {| expenses := expenses t; monthly_budget := Float budget |}
    /\ (budget <=? zero)%float = false
    /\ last out = Some (BudgetSet budget)
    /\ (forall total, ~ In (TotalExpenses total) out)
    /\ forall input',
         track_budget t' input' =
           (Ok t', input',
            [TrackTitle; MonthlyBudget (Float budget);
             TotalExpenses (total_of (expenses t));
             if num_gt (total_of (expenses t)) (Float budget)
             then Exceeded (num_sub (total_of (expenses t)) (Float budget))
             else Remaining (num_sub (Float budget) (total_of (expenses t)))]).
Proof.
  intros Ht Hb. unfold track_budget at 1. rewrite Hb.
  intros (u0 & i0 & o0 & o0' & H0 & H & ->)%bind_ok.
  unfold print in H0. injection H0 as _ E0 E0'. subst i0 o0.
  apply bind_ok in H as (u1 & i1 & o1 & o1' & H1 & H & ->).
  unfold print in H1. injection H1 as _ E1 E1'. subst i1 o1.
  apply set_budget_ok in H as (budget & -> & Hpos & Hlast & Hno & _).
  exists budget. split; [done|]. split; [done|]. split; [|split].
  - destruct o1' as [|x o]; [done|]. exact Hlast.
  - intros total [?|[?|?]]; try done. by eapply Hno.
  - intros input'. rewrite track_budget_spec; [done|done|].
    cbn [monthly_budget num_is_zero to_float]. by apply not_le_zero_not_zero.
Qed.

Lemma first_track_sets_budget_witness :
  Forall stored (expenses {| expenses := [taxi]; monthly_budget := IntZero |})
  /\ num_is_zero IntZero = true
  /\ track_budget {| expenses := [taxi]; monthly_budget := IntZero |} ["0"; "abc"; "100.00"]
     = (Ok within_budget, [],
        [TrackTitle; NoBudgetSet; SetBudgetTitle; Prompt AskBudget; BudgetNotPositive;
         Prompt AskBudget; InvalidAmount; Prompt AskBudget; BudgetSet 100])
  /\ track_budget within_budget []
     = (Ok within_budget, [],
        [TrackTitle; MonthlyBudget (Float 100); TotalExpenses (Float 30);
         Remaining (Float 70)]).
Proof.
  assert (H1 : Forall stored (expenses {| expenses := [taxi]; monthly_budget := IntZero |}))
    by (repeat constructor; eexists; reflexivity).
  assert (H3 : track_budget {| expenses := [taxi]; monthly_budget := IntZero |}
                 ["0"; "abc"; "100.00"]
               = (Ok within_budget, [],
                  [TrackTitle; NoBudgetSet; SetBudgetTitle; Prompt AskBudget;
                   BudgetNotPositive; Prompt AskBudget; InvalidAmount; Prompt AskBudget;
                   BudgetSet 100])) by (vm_compute; reflexivity).
  split; [exact H1|]. split; [reflexivity|]. split; [exact H3|].
  destruct (first_track_sets_budget _ _ _ _ _ H1 eq_refl H3)
    as (budget & Ht' & _ & _ & _ & Htrack).
  rewrite Htrack. injection Ht' as <-. vm_compute. reflexivity.
Defined.

(** ** The loops of [add_expense] and [set_budget] *)

Lemma ask_date_first (rejected : list string) (line : string) (rest : list string) :
  Forall (fun l => ~ calendar_date (Str.strip l)) rejected ->
  calendar_date (Str.strip line) ->
  ask_date (rejected ++ line :: rest)
  = (Ok (Str.strip line), rest,
     flat_map (fun _ => [Prompt AskDate; InvalidDateFormat]) rejected ++ [Prompt AskDate]).
Proof.
  intros Hrej Hline. induction Hrej as [|l ls Hl _ IH].
  - by apply ask_date_accepts.
  - cbn [app flat_map]. rewrite ask_date_rejects by done. by rewrite IH.
Qed.

Lemma ask_again_text (again : prompt) (c : ascii) (s : string) (input : list string) :
  ask_again again (String c s) input = (Ok (String c s), input, []).
Proof. by destruct input. Qed.

Lemma ask_again_first (again : prompt) (blanks : list string) (line : string)
    (rest : list string) :
  Forall blank_line blanks -> ~ blank_line line ->
  ask_again again EmptyString (blanks ++ line :: rest)
  = (Ok (Str.strip line), rest, map (fun _ => Prompt again) blanks ++ [Prompt again]).
Proof.
  intros Hblanks Hline. induction Hblanks as [|l ls Hl _ IH]; cbn [app ask_again map].
  - unfold blank_line in Hline. destruct (Str.strip line) eqn:E; [by destruct Hline|].
    by rewrite ask_again_text.
  - rewrite Hl. by rewrite IH.
Qed.

Lemma ask_text_first (first again : prompt) (blanks : list string) (line : string)
    (rest : list string) :
  Forall blank_line blanks -> ~ blank_line line ->
  ask_text first again (blanks ++ line :: rest)
  = (Ok (Str.strip line), rest, Prompt first :: map (fun _ => Prompt again) blanks).
Proof.
  intros Hblanks Hline. unfold ask_text, bind.
  destruct Hblanks as [|l ls Hl Hls]; cbn [app input_line].
  - unfold blank_line in Hline. destruct (Str.strip line) eqn:E; [by destruct Hline|].
    by rewrite ask_again_text.
  - rewrite Hl, ask_again_first by done. cbn [map app].
    f_equal. f_equal. clear. induction ls as [|x ls IH]; [done|]. cbn. by rewrite IH.
Qed.

Lemma ask_amount_first (refused : list string) (line : string) (x : float)
    (rest : list string) :
  Forall refused_number refused ->
  PyFloat.of_str line = Ok x -> (x <=? zero)%float = false ->
  ask_amount (refused ++ line :: rest)
  = (Ok x, rest,
     flat_map (asked_again AskAmount AmountNotPositive) refused ++ [Prompt AskAmount]).
Proof.
  intros Href Hline Hx. induction Href as [|l ls Hl _ IH]; cbn [app ask_amount flat_map].
  - by rewrite Hline, Hx.
  - rewrite IH. unfold refused_number in Hl. unfold asked_again.
    destruct (PyFloat.of_str l) as [y|e] eqn:E.
    + by rewrite Hl.
    + by rewrite (of_str_raises _ _ E).
Qed.

Lemma ask_budget_first (refused : list string) (line : string) (x : float)
    (rest : list string) :
  Forall refused_number refused ->
  PyFloat.of_str line = Ok x -> (x <=? zero)%float = false ->
  ask_budget (refused ++ line :: rest)
  = (Ok x, rest,
     flat_map (asked_again AskBudget BudgetNotPositive) refused
       ++ [Prompt AskBudget; BudgetSet x]).
Proof.
  intros Href Hline Hx. induction Href as [|l ls Hl _ IH]; cbn [app ask_budget flat_map].
  - by rewrite Hline, Hx.
  - rewrite IH. unfold refused_number in Hl. unfold asked_again.
    destruct (PyFloat.of_str l) as [y|e] eqn:E.
    + by rewrite Hl.
    + by rewrite (of_str_raises _ _ E).
Qed.

(** X5.  [add_expense] takes, for each field in turn, the first
    line that is valid: the date is the first line that, stripped, is a
    calendar date in one of the spellings; the category and the
    description are the first lines that are not blank, stripped; the
    amount is the number of the first line that converts to a number
    not [<= 0].  Each line before these is answered by its message and
    a new prompt, the lines after the description are left unread, and
    the expense made of these four is appended to the store. *)
Theorem add_expense_takes_first_valid_lines (t : tracker)
    (dates : list string) (date : string) (categories : list string) (category : string)
    (amounts : list string) (amount : string) (x : float)
    (descriptions : list string) (description : string) (rest : list string) :
  Forall (fun l => ~ calendar_date (Str.strip l)) dates ->
  calendar_date (Str.strip date) ->
  Forall blank_line categories -> ~ blank_line category ->
  Forall refused_number amounts ->
  PyFloat.of_str amount = Ok x -> (x <=? zero)%float = false ->
  Forall blank_line descriptions -> ~ blank_line description ->
  add_expense t
    (dates ++ date :: categories ++ category :: amounts ++ amount
       :: descriptions ++ description :: rest)
  = (Ok (append t (new_expense (Str.strip date) (Str.strip category) x
                     (Str.strip description))),
     rest,
     AddExpenseTitle
       :: (flat_map (fun _ => [Prompt AskDate; InvalidDateFormat]) dates
             ++ [Prompt AskDate])
       ++ (Prompt AskCategory :: map (fun _ => Prompt AskCategoryAgain) categories)
       ++ (flat_map (asked_again AskAmount AmountNotPositive) amounts
             ++ [Prompt AskAmount])
       ++ (Prompt AskDescription
             :: map (fun _ => Prompt AskDescriptionAgain) descriptions)
       ++ [ExpenseAdded x (Str.strip category)]).
Proof.
  intros Hdates Hdate Hcategories Hcategory Hamounts Hamount Hx Hdescriptions Hdescription.
  unfold add_expense, bind, print, ret.
  rewrite ask_date_first by done.
  rewrite ask_text_first by done.
  rewrite (ask_amount_first _ _ x) by done.
  rewrite ask_text_first by done.
  by rewrite app_nil_r.
Qed.

Lemma add_expense_takes_first_valid_lines_witness :
  Forall (fun l => ~ calendar_date (Str.strip l)) ["01/03/2024"; "2024-02-30"]
  /\ calendar_date (Str.strip " 2024-03-01 ")
  /\ ~ blank_line "Food"
  /\ Forall refused_number ["-12.50"]
  /\ PyFloat.of_str "12.50" = Ok 12.5%float
  /\ (12.5 <=? zero)%float = false
  /\ Forall blank_line ["   "]
  /\ ~ blank_line "Lunch"
  /\ add_expense fresh lunch_retyped
     = (Ok {| expenses := [lunch]; monthly_budget := IntZero |}, [],
        [AddExpenseTitle; Prompt AskDate; InvalidDateFormat; Prompt AskDate;
         InvalidDateFormat; Prompt AskDate; Prompt AskCategory;
         Prompt AskAmount; AmountNotPositive; Prompt AskAmount;
         Prompt AskDescription; Prompt AskDescriptionAgain; ExpenseAdded 12.5 "Food"]).
Proof.
  assert (H1 : Forall (fun l => ~ calendar_date (Str.strip l)) ["01/03/2024"; "2024-02-30"]).
  { repeat constructor; apply not_calendar_date; vm_compute; reflexivity. }
  assert (H2 : calendar_date (Str.strip " 2024-03-01 ")).
  { apply strptime_calendar_date. eexists. vm_compute. reflexivity. }
  assert (H3 : ~ blank_line "Food") by (intros H; vm_compute in H; discriminate).
  assert (H4 : Forall refused_number ["-12.50"]) by (repeat constructor).
  assert (H5 : PyFloat.of_str "12.50" = Ok 12.5%float) by (vm_compute; reflexivity).
  assert (H6 : (12.5 <=? zero)%float = false) by reflexivity.
  assert (H7 : Forall blank_line ["   "]) by (repeat constructor).
  assert (H8 : ~ blank_line "Lunch") by (intros H; vm_compute in H; discriminate).
  do 8 (split; [assumption|]).
  exact (add_expense_takes_first_valid_lines fresh _ _ [] _ _ _ _ _ _ []
           H1 H2 (List.Forall_nil _) H3 H4 H5 H6 H7 H8).
Defined.

(** X6.  [set_budget] takes the first line that converts to a number
    not [<= 0]: each line before it is answered by its message
    ("greater than 0" for a number, "valid number" otherwise), the
    number becomes the budget, the expenses stay, and the lines after
    it are left unread. *)
Theorem set_budget_takes_first_valid_line (t : tracker) (refused : list string)
    (line : string) (x : float) (rest : list string) :
  Forall refused_number refused ->
  PyFloat.of_str line = Ok x -> (x <=? zero)%float = false ->
  set_budget t (refused ++ line :: rest)
  = (Ok {| expenses := expenses t; monthly_budget := Float x |}, rest,
     SetBudgetTitle
       :: flat_map (asked_again AskBudget BudgetNotPositive) refused
       ++ [Prompt AskBudget; BudgetSet x]).
Proof.
  intros Href Hline Hx. unfold set_budget, bind, print, ret.
  rewrite (ask_budget_first _ _ x) by done. by rewrite app_nil_r.
Qed.

Lemma set_budget_takes_first_valid_line_witness :
  Forall refused_number ["0"; "a lot"; "-5"]
  /\ PyFloat.of_str " 1e2 " = Ok 100%float
  /\ (100 <=? zero)%float = false
  /\ set_budget {| expenses := [taxi]; monthly_budget := IntZero |}
       (["0"; "a lot"; "-5"] ++ " 1e2 " :: ["5"])
     = (Ok within_budget, ["5"],
        [SetBudgetTitle; Prompt AskBudget; BudgetNotPositive; Prompt AskBudget;
         InvalidAmount; Prompt AskBudget; BudgetNotPositive; Prompt AskBudget;
         BudgetSet 100]).
Proof.
  assert (H1 : Forall refused_number ["0"; "a lot"; "-5"]) by (repeat constructor).
  assert (H2 : PyFloat.of_str " 1e2 " = Ok 100%float) by (vm_compute; reflexivity).
  assert (H3 : (100 <=? zero)%float = false) by reflexivity.
  do 3 (split; [assumption|]).
  exact (set_budget_takes_first_valid_line _ _ _ _ ["5"] H1 H2 H3).
Defined.

(** ** Saving an expense with a key that is no field name *)

Lemma writerows_savable (ds : list dict) :
  forallb savable ds = true ->
  exists rows,
    writerows ds = (rows, None)
    /\ (rows = EmptyString \/ exists a, rows = a +:+ crlf).
Proof.
  induction ds as [|d ds IH]; cbn [forallb writerows].
  - intros _. exists EmptyString. split; [done|by left].
  - intros [Hd Hds]%andb_prop. destruct (IH Hds) as (rows & -> & Hrows).
    unfold dict_to_list. unfold savable in Hd. apply negb_true_iff in Hd. rewrite Hd.
    eexists. split; [done|]. right.
    destruct Hrows as [-> | [a ->]].
    + rewrite append_nil_r.
      rewrite writerow_wide by done. by eexists.
    + eexists. by rewrite <- append_assoc.
Qed.

Lemma writerows_stops (before after : list dict) (e : dict) :
  forallb savable before = true -> wrong_fields e = true ->
  exists rows,
    writerows before = (rows, None)
    /\ writerows (before ++ e :: after) = (rows, Some ValueError).
Proof.
  intros Hbefore He. induction before as [|d ds IH]; cbn [app forallb writerows] in *.
  - exists EmptyString. split; [done|]. unfold dict_to_list. by rewrite He.
  - apply andb_prop in Hbefore as [Hd Hds]. destruct (IH Hds) as (rows & H1 & H2).
    unfold savable in Hd. apply negb_true_iff in Hd.
    unfold dict_to_list. rewrite Hd, H1, H2. by eexists.
Qed.

(** X7.  When an expense of the store has a key that is not a field
    name (as the row of a file with more cells than the header has),
    [save_expenses] reports [ValueError]; the file is left with the
    header and the rows of the expenses before that one: the expenses
    from that one on, and the budget line, are not in it. *)
Theorem save_stops_at_foreign_key (t : tracker) (before after : list dict) (e : dict) :
  expenses t = before ++ e :: after ->
  forallb savable before = true ->
  wrong_fields e = true ->
  exists rows,
    writerows before = (rows, None)
    /\ save_expenses t = (Csv.writerow fieldnames +:+ rows, [ErrorSaving ValueError]).
Proof.
  intros Ht Hbefore He.
  destruct (writerows_stops before after e Hbefore He) as (rows & H1 & H2).
  exists rows. split; [done|]. unfold save_expenses. rewrite Ht, H2.
  by destruct (before ++ e :: after) eqn:E; [destruct before|].
Qed.

Lemma save_stops_at_foreign_key_witness :
  (init (Some file_with_long_row)).1
  = {| expenses := [lunch; long_row; cinema]; monthly_budget := Float 100 |}
  /\ forallb savable [lunch] = true
  /\ wrong_fields long_row = true
  /\ save_expenses {| expenses := [lunch; long_row; cinema]; monthly_budget := Float 100 |}
     = (header +:+ crlf +:+ "2024-03-01,Food,12.5,Lunch" +:+ crlf,
        [ErrorSaving ValueError]).
Proof.
  split; [vm_compute; reflexivity|]. split; [reflexivity|]. split; [reflexivity|].
  destruct (save_stops_at_foreign_key
              {| expenses := [lunch; long_row; cinema]; monthly_budget := Float 100 |}
              [lunch] [cinema] long_row eq_refl eq_refl eq_refl) as (rows & H1 & H2).
  rewrite H2. vm_compute in H1. injection H1 as <-. vm_compute. reflexivity.
Defined.

(** ** The budget line after any table *)

Lemma universal_newlines_crlf (n : nat) (a : string) :
  (String.length a <= n)%nat ->
  exists x, forall b,
    TextFile.universal_newlines (a +:+ String Str.CR (String Str.LF b))
    = x +:+ String Str.LF (TextFile.universal_newlines b).
Proof.
  revert a. induction n as [|n IH]; intros a Hlen.
  - destruct a; [|cbn in Hlen; lia]. by exists EmptyString.
  - destruct a as [|c a]; [by exists EmptyString|].
    cbn [String.length] in Hlen.
    destruct (Str.is_char 13 c) eqn:Hc.
    + destruct a as [|c' a].
      * exists (String Str.LF EmptyString). intros b.
        rewrite append_cons, append_empty.
        cbn [TextFile.universal_newlines]. rewrite Hc.
        change (Str.is_char 10 Str.CR) with false. cbv iota.
        change (Str.is_char 13 Str.CR) with true. cbv iota.
        change (Str.is_char 10 Str.LF) with true. cbv iota. done.
      * destruct (Str.is_char 10 c') eqn:Hc'.
        -- destruct (IH a) as [x Hx]; [cbn in Hlen; lia|].
           exists (String Str.LF x). intros b. rewrite !append_cons.
           cbn [TextFile.universal_newlines]. rewrite Hc, Hc'. by rewrite Hx.
        -- destruct (IH (String c' a)) as [x Hx]; [lia|].
           exists (String Str.LF x). intros b. rewrite (append_cons c).
           specialize (Hx b). rewrite append_cons in Hx.
           rewrite append_cons.
           change (TextFile.universal_newlines
                     (String c (String c' (a +:+ String Str.CR (String Str.LF b)))))
             with (if Str.is_char 13 c then
                     String Str.LF
                       (if Str.is_char 10 c'
                        then TextFile.universal_newlines
                               (a +:+ String Str.CR (String Str.LF b))
                        else TextFile.universal_newlines
                               (String c' (a +:+ String Str.CR (String Str.LF b))))
                   else String c (TextFile.universal_newlines
                               (String c' (a +:+ String Str.CR (String Str.LF b))))).
           rewrite Hc, Hc'. by rewrite Hx.
    + destruct (IH a) as [x Hx]; [lia|].
      exists (String c x). intros b. rewrite !append_cons.
      cbn [TextFile.universal_newlines]. rewrite Hc. by rewrite Hx.
Qed.

Lemma lines_not_nil (c : ascii) (s : string) : TextFile.lines (String c s) <> [].
Proof.
  cbn [TextFile.lines]. destruct (Str.is_char 10 c); [done|].
  by destruct (TextFile.lines s).
Qed.

Lemma lines_after_lf (x y : string) :
  TextFile.lines (x +:+ String Str.LF y)
  = TextFile.lines (x +:+ String Str.LF EmptyString) ++ TextFile.lines y.
Proof.
  induction x as [|c x IH].
  - rewrite !append_empty. cbn [TextFile.lines].
    change (Str.is_char 10 Str.LF) with true. done.
  - rewrite !append_cons. cbn [TextFile.lines]. rewrite IH.
    destruct (Str.is_char 10 c); [done|].
    destruct (TextFile.lines (x +:+ String Str.LF EmptyString)) as [|l ls] eqn:E; [|done].
    destruct x; [done|]. rewrite append_cons in E. by apply lines_not_nil in E.
Qed.

(** The last line of a file, after a table that is empty or ends with
    the line terminator of the writer. *)
Lemma readlines_last_line (table l : string) :
  table = EmptyString \/ (exists a, table = a +:+ crlf) ->
  no_linebreak l = true ->
  exists ls, TextFile.readlines (table +:+ with_lf l) = ls ++ [with_lf l].
Proof.
  intros Htable Hl. unfold TextFile.readlines.
  assert (Hlast : TextFile.lines (TextFile.universal_newlines (with_lf l)) = [with_lf l]).
  { unfold with_lf. rewrite universal_newlines_last by done.
    by rewrite lines_line. }
  destruct Htable as [-> | [a ->]].
  - exists []. by rewrite append_empty.
  - destruct (universal_newlines_crlf (String.length a) a (le_n _)) as [x Hx].
    unfold crlf, Csv.lineterminator. rewrite !append_assoc, !append_cons, append_empty.
    rewrite Hx, lines_after_lf, Hlast. by eexists.
Qed.

Lemma last_filter_snoc {A : Type} (P : A -> bool) (l : list A) (x : A) :
  P x = true -> last (List.filter P (l ++ [x])) = Some x.
Proof.
  intros HP. rewrite List.filter_app. cbn [List.filter]. rewrite HP.
  apply last_snoc.
Qed.

Lemma budget_line_marker (text : string) :
  is_marker (with_lf (budget_marker +:+ text)) = true.
Proof. unfold with_lf. by rewrite append_assoc. Qed.

Lemma save_expenses_savable (t : tracker) :
  forallb savable (expenses t) = true ->
  exists table,
    (table = EmptyString \/ exists a, table = a +:+ crlf)
    /\ save_expenses t
       = (table +:+ with_lf (budget_marker +:+ text_of_number (monthly_budget t)), [Saved]).
Proof.
  intros Ht. unfold save_expenses.
  destruct (expenses t) as [|e es] eqn:E.
  - exists EmptyString. split; [by left|]. unfold with_lf. by rewrite !append_assoc.
  - destruct (writerows_savable _ Ht) as (rows & -> & Hrows).
    exists (Csv.writerow fieldnames +:+ rows). split.
    + right. destruct Hrows as [-> | [a ->]].
      * by exists header.
      * eexists. by rewrite <- append_assoc.
    + unfold with_lf. by rewrite !append_assoc.
Qed.

Lemma storable_budget_float (b : number) :
  storable_budget b -> storable_budget (Float (to_float b)).
Proof. by destruct b. Qed.

(** The budget read from a file whose last line is the budget line. *)
Lemma load_budget_line (table : string) (b : number) (t : tracker) :
  table = EmptyString \/ (exists a, table = a +:+ crlf) ->
  storable_budget b ->
  monthly_budget
    (load_expenses (Some (table +:+ with_lf (budget_marker +:+ text_of_number b))) t).1
  = Float (to_float b).
Proof.
  intros Htable Hb. rewrite load_expenses_partition. cbn [monthly_budget].
  destruct (readlines_last_line table (budget_marker +:+ text_of_number b) Htable)
    as [ls ->].
  { pose proof (plain_no_linebreak _ (text_of_number_plain b)) as H.
    unfold no_linebreak in *. by rewrite all_chars_append, H. }
  rewrite last_filter_snoc by apply budget_line_marker.
  rewrite parse_budget_marker by apply text_of_number_plain. by rewrite Hb.
Qed.

(** X8.  When every expense has only field names as keys, the save
    succeeds, and the budget read back from the file is the budget
    saved, whatever the texts of the expenses are: the budget line is
    the last line of the file, and the last one counts. *)
Theorem budget_round_trip (t t0 : tracker) :
  forallb savable (expenses t) = true ->
  storable_budget (monthly_budget t) ->
  exists content,
    save_expenses t = (content, [Saved])
    /\ monthly_budget (load_expenses (Some content) t0).1
       = Float (to_float (monthly_budget t)).
Proof.
  intros Ht Hb. destruct (save_expenses_savable t Ht) as (table & Htable & ->).
  eexists. split; [done|]. by apply load_budget_line.
Qed.

Lemma budget_round_trip_witness :
  forallb savable [to_dict two_pages; to_dict marked] = true
  /\ storable_budget (Float 99.5)
  /\ monthly_budget
       (init (Some (save_expenses {| expenses := [to_dict two_pages; to_dict marked];
                                     monthly_budget := Float 99.5 |}).1)).1
     = Float 99.5.
Proof.
  assert (H1 : forallb savable [to_dict two_pages; to_dict marked] = true) by reflexivity.
  assert (H2 : storable_budget (Float 99.5)) by (vm_compute; reflexivity).
  split; [exact H1|]. split; [exact H2|].
  destruct (budget_round_trip {| expenses := [to_dict two_pages; to_dict marked];
                                 monthly_budget := Float 99.5 |}
              {| expenses := []; monthly_budget := IntZero |} H1 H2)
    as (content & Hsave & Hload).
  rewrite Hsave. cbn [fst]. unfold init. rewrite Hload. reflexivity.
Defined.

(** ** Saving and loading again *)

Lemma load_budget_only (b : number) :
  storable_budget b ->
  init (Some (with_lf (budget_marker +:+ text_of_number b)))
  = ({| expenses := []; monthly_budget := Float (to_float b) |},
     Loaded 0 :: (if num_gt (Float (to_float b)) IntZero
                  then [LoadedBudget (Float (to_float b))] else [])).
Proof.
  intros Hb. unfold init, load_expenses, TextFile.readlines.
  assert (Hl : no_linebreak (budget_marker +:+ text_of_number b) = true).
  { pose proof (plain_no_linebreak _ (text_of_number_plain b)) as H.
    unfold no_linebreak in *. by rewrite all_chars_append, H. }
  unfold with_lf at 1. rewrite universal_newlines_last, lines_line by done.
  cbn [TextFile.lines partition_lines].
  fold (with_lf (budget_marker +:+ text_of_number b)).
  fold (is_marker (with_lf (budget_marker +:+ text_of_number b))).
  rewrite budget_line_marker, load_budget_marker.
  rewrite parse_budget_marker by apply text_of_number_plain. by rewrite Hb.
Qed.

(** X9.  Round trip on the empty state: with no expenses the file is
    the budget line alone, and loading it gives no expenses and the
    budget saved; the load reports 0 expenses, and the budget when it is
    greater than zero. *)
Theorem empty_round_trip (b : number) :
  storable_budget b ->
  exists content,
    save_expenses {| expenses := []; monthly_budget := b |} = (content, [Saved])
    /\ init (Some content)
       = ({| expenses := []; monthly_budget := Float (to_float b) |},
          Loaded 0 :: (if num_gt (Float (to_float b)) IntZero
                       then [LoadedBudget (Float (to_float b))] else [])).
Proof.
  intros Hb. exists (with_lf (budget_marker +:+ text_of_number b)). split.
  - unfold save_expenses, with_lf. cbn [expenses monthly_budget].
    by rewrite append_empty, append_assoc.
  - by apply load_budget_only.
Qed.

Lemma empty_round_trip_witness :
  storable_budget (Float 250)
  /\ save_expenses {| expenses := []; monthly_budget := Float 250 |}
     = ("#BUDGET,250.0" +:+ nl, [Saved])
  /\ init (Some ("#BUDGET,250.0" +:+ nl))
     = ({| expenses := []; monthly_budget := Float 250 |},
        [Loaded 0; LoadedBudget (Float 250)]).
Proof.
  assert (H : storable_budget (Float 250)) by (vm_compute; reflexivity).
  split; [exact H|].
  destruct (empty_round_trip (Float 250) H) as (content & Hsave & Hload).
  assert (E : content = "#BUDGET,250.0" +:+ nl).
  { vm_compute in Hsave. injection Hsave as <-. reflexivity. }
  subst content. split; [vm_compute; reflexivity|].
  rewrite Hload. reflexivity.
Defined.

(** The tracker after the file of a tracker was loaded. *)
Lemma load_saved (rs : list expense) (b : number) :
  Forall storable rs -> storable_budget b ->
  exists content,
    save_expenses {| expenses := map to_dict rs; monthly_budget := b |}
    = (content, [Saved])
    /\ (init (Some content)).1
       = {| expenses := map to_dict rs; monthly_budget := Float (to_float b) |}.
Proof.
  intros Hrs Hb. destruct rs as [|r rs].
  - exists (with_lf (budget_marker +:+ text_of_number b)). split.
    + unfold save_expenses, with_lf. cbn [expenses monthly_budget map].
      by rewrite append_empty, append_assoc.
    + by rewrite load_budget_only.
  - exists (file_of (r :: rs) b). split; [by apply save_expenses_file|].
    unfold init, load_expenses.
    rewrite partition_file; [|done|apply text_of_number_plain].
    rewrite load_budget_marker, parse_budget_marker by apply text_of_number_plain.
    rewrite Hb, load_csv_table by done. done.
Qed.

(** X10.  Saving, loading, saving and loading again: the tracker
    after the second load is the tracker after the first, and so is the
    file written from it. *)
Theorem save_load_idempotent (rs : list expense) (b : number) :
  Forall storable rs -> storable_budget b ->
  let reload (t : tracker) := (init (Some (save_expenses t).1)).1 in
  let t1 := reload {| expenses := map to_dict rs; monthly_budget := b |} in
  reload t1 = t1 /\ save_expenses (reload t1) = save_expenses t1.
Proof.
  intros Hrs Hb reload t1.
  assert (H1 : t1 = {| expenses := map to_dict rs; monthly_budget := Float (to_float b) |}).
  { unfold t1, reload. destruct (load_saved rs b Hrs Hb) as (content & Hs & Hl).
    rewrite Hs. cbn [fst]. by rewrite Hl. }
  assert (H2 : reload t1 = t1).
  { rewrite H1. unfold reload.
    destruct (load_saved rs (Float (to_float b)) Hrs (storable_budget_float b Hb))
      as (content & Hs & Hl).
    rewrite Hs. cbn [fst]. by rewrite Hl. }
  split; [done|]. by rewrite H2.
Qed.

Lemma save_load_idempotent_witness :
  Forall storable [lunch_at_noon; taxi_ride]
  /\ storable_budget IntZero
  /\ (init (Some (save_expenses
        (init (Some (save_expenses
           {| expenses := map to_dict [lunch_at_noon; taxi_ride];
              monthly_budget := IntZero |}).1)).1).1)).1
     = {| expenses := map to_dict [lunch_at_noon; taxi_ride];
          monthly_budget := Float 0 |}.
Proof.
  assert (H1 : Forall storable [lunch_at_noon; taxi_ride]).
  { repeat constructor; try discriminate; vm_compute; reflexivity. }
  assert (H2 : storable_budget IntZero) by (vm_compute; reflexivity).
  split; [exact H1|]. split; [exact H2|].
  destruct (save_load_idempotent [lunch_at_noon; taxi_ride] IntZero H1 H2) as [H _].
  cbv zeta in H. rewrite H. vm_compute. reflexivity.
Defined.

(** ** What a load leaves in the store *)

Lemma load_rows_appends (rows es : list dict) :
  exists loaded,
    (load_rows rows es).1.1 = es ++ loaded /\ Forall stored loaded.
Proof.
  revert es. induction rows as [|row rows IH]; intros es.
  - exists []. by rewrite app_nil_r.
  - cbn [load_rows]. unfold convert_amount.
    destruct (items row !! "amount") as [v|]; cycle 1.
    { destruct (IH es) as (l & H & Hl). exists l.
      by destruct (load_rows rows es) as [[? ?] ?]. }
    destruct (float_of_value v) as [x|e].
    + destruct (IH (es ++ [{| items := <["amount" := VFloat x]> (items row);
                              surplus := surplus row |}])) as (l & -> & Hl).
      eexists (_ :: l). split; [by rewrite <- app_assoc|].
      constructor; [|done]. exists x. cbn. apply lookup_insert_eq.
    + destruct e;
        try (exists []; by rewrite app_nil_r);
        destruct (IH es) as (l & H & Hl); exists l;
        by destruct (load_rows rows es) as [[? ?] ?].
Qed.

(** X11.  A load never removes or changes an expense that is in the
    store: the expenses after it are those of before, followed by the
    loaded ones, each with a [float] amount.  This holds also when the
    load ends with an error. *)
Theorem load_appends_to_store (file : option string) (t : tracker) :
  exists loaded,
    expenses (load_expenses file t).1 = expenses t ++ loaded
    /\ Forall stored loaded.
Proof.
  destruct file as [content|]; [|exists []; by rewrite app_nil_r].
  unfold load_expenses.
  destruct (partition_lines _ _ _) as [budget_line csv_lines].
  destruct (load_budget _ _) as [budget|e]; [|exists []; by rewrite app_nil_r].
  assert (H : exists loaded,
             (load_csv csv_lines (expenses t)).1.1 = expenses t ++ loaded
             /\ Forall stored loaded).
  { unfold load_csv. destruct csv_lines as [|l ls]; [exists []; by rewrite app_nil_r|].
    destruct (dict_reader _) as [rows e].
    destruct (load_rows_appends rows (expenses t)) as (loaded & H & Hl).
    exists loaded. by destruct (load_rows rows (expenses t)) as [[? ?] ?]. }
  destruct H as (loaded & H & Hl). exists loaded.
  by destruct (load_csv csv_lines (expenses t)) as [[es out] [e|]].
Qed.

(** X12.  A row that stops before the amount column ends the load:
    [float(None)] raises [TypeError], which the loop over the rows does
    not catch.  The rows before it stay loaded, the rows after it are
    not read, and no skipped entry is reported for it. *)
Theorem load_stops_at_short_row (before after : list dict) (row : dict)
    (es es' : list dict) (out : list output) :
  items row !! "amount" = Some VNone ->
  load_rows before es = (es', out, None) ->
  load_rows (before ++ row :: after) es = (es', out, Some TypeError).
Proof.
  intros Hrow Hbefore. rewrite load_rows_app, Hbefore. cbn [load_rows].
  unfold convert_amount. rewrite Hrow. cbn [float_of_value].
  by rewrite app_nil_r.
Qed.

Lemma load_stops_at_short_row_witness :
  items short_row !! "amount" = Some VNone
  /\ load_rows [lunch_row] [] = ([lunch], [], None)
  /\ load_rows ([lunch_row] ++ short_row :: [taxi_row]) [] = ([lunch], [], Some TypeError)
  /\ init (Some file_with_short_row)
     = ({| expenses := []; monthly_budget := Float 0 |}, [ErrorLoading TypeError]).
Proof.
  assert (H1 : items short_row !! "amount" = Some VNone) by reflexivity.
  assert (H2 : load_rows [lunch_row] [] = ([lunch], [], None)) by (vm_compute; reflexivity).
  split; [exact H1|]. split; [exact H2|].
  split; [exact (load_stops_at_short_row [lunch_row] [taxi_row] short_row [] [lunch] [] H1 H2)|].
  vm_compute. reflexivity.
Defined.

Lemma load_rows_no_amount (rows es : list dict) :
  Forall (fun row => items row !! "amount" = None) rows ->
  load_rows rows es = (es, map SkippingInvalid rows, None).
Proof.
  intros Hrows. induction Hrows as [|row rows Hrow _ IH]; [done|].
  cbn [load_rows map]. unfold convert_amount. by rewrite Hrow, IH.
Qed.

(** X13.  When the first record of the tabular lines, the header,
    has no cell [amount], no expense is loaded: every data row is
    reported as a skipped entry, and the store is left as it is.  The
    names are compared as they are: [Amount] is not [amount]. *)
Theorem header_without_amount (csv_lines : list string) (es : list dict)
    (names : list string) (rows : list (list string)) (e : option exn) :
  csv_lines <> [] ->
  Csv.reader (Str.splitlines (Str.join csv_lines)) = (names :: rows, e) ->
  ~ In "amount" names ->
  load_csv csv_lines es
  = (es,
     map SkippingInvalid
       (map (make_row names) (List.filter (fun row => negb (is_blank row)) rows)),
     e).
Proof.
  intros Hne Hreader Hnames. unfold load_csv. destruct csv_lines as [|l ls]; [done|].
  unfold dict_reader. rewrite Hreader.
  rewrite load_rows_no_amount; [done|].
  apply dict_reader_no_amount_column. by rewrite list_elem_of_In.
Qed.

Lemma header_without_amount_witness :
  capital_header <> []
  /\ Csv.reader (Str.splitlines (Str.join capital_header))
     = ([capital_names; ["2024-03-01"; "Food"; "12.5"; "Lunch"]], None)
  /\ ~ In "amount" capital_names
  /\ load_csv capital_header []
     = ([], [SkippingInvalid (make_row capital_names ["2024-03-01"; "Food"; "12.5"; "Lunch"])],
        None).
Proof.
  assert (H1 : capital_header <> []) by discriminate.
  assert (H2 : Csv.reader (Str.splitlines (Str.join capital_header))
               = ([capital_names; ["2024-03-01"; "Food"; "12.5"; "Lunch"]], None))
    by (vm_compute; reflexivity).
  assert (H3 : ~ In "amount" capital_names).
  { cbn. intros [H|[H|[H|[H|[]]]]]; discriminate. }
  split; [exact H1|]. split; [exact H2|]. split; [exact H3|].
  rewrite (header_without_amount capital_header [] _ _ _ H1 H2 H3). reflexivity.
Defined.

(** ** The session *)

(** Scenario A as a session: a first run without a file, one expense
    entered and viewed, a choice that is none, and the exit. *)
Example session_A :
  main None ["1"; "2024-03-01"; "Food"; "12.50"; "Lunch"; "2"; "9"; "5"]
  = Some (Ok tt,
          {| store := {| expenses := [lunch]; monthly_budget := IntZero |};
             file := Some ("date,category,amount,description" +:+ crlf
                           +:+ "2024-03-01,Food,12.5,Lunch" +:+ crlf
                           +:+ "#BUDGET,0" +:+ nl);
             unread := [];
             shown :=
               [Line StartingFresh; Welcome]
               ++ display_menu ++ [AskChoice]
               ++ map Line [AddExpenseTitle; Prompt AskDate; Prompt AskCategory;
                            Prompt AskAmount; Prompt AskDescription;
                            ExpenseAdded 12.5 "Food"]
               ++ display_menu ++ [AskChoice]
               ++ map Line [ViewTitle; TableHeader; Rule; ExpenseLine lunch; Rule;
                            TotalLine (Float 12.5)]
               ++ display_menu ++ [AskChoice; InvalidOption]
               ++ display_menu ++ [AskChoice; SavingAndExiting; Line Saved; ThankYou] |}).
Proof. vm_compute. reflexivity. Qed.

(** *** The lines read *)

Lemma reads_bind {A B : Type} (m : io A) (k : A -> io B) :
  reads_in_order m -> (forall a, reads_in_order (k a)) -> reads_in_order (bind m k).
Proof.
  intros Hm Hk input r rest out. unfold bind.
  destruct (m input) as [[[a|e] input'] out1] eqn:E.
  - destruct (k a input') as [[r' i''] out2] eqn:E'. intros [= _ <- _].
    etrans; [by eapply Hk|by eapply Hm].
  - intros [= _ <- _]. by eapply Hm.
Qed.

Lemma reads_print (o : output) : reads_in_order (print o).
Proof. intros input r rest out [= _ <- _]. done. Qed.

Lemma reads_ret {A : Type} (a : A) : reads_in_order (ret a).
Proof. intros input r rest out [= _ <- _]. done. Qed.

Lemma reads_raise {A : Type} (e : exn) : reads_in_order (@raise A e).
Proof. intros input r rest out [= _ <- _]. done. Qed.

Lemma reads_input_line (p : prompt) : reads_in_order (input_line p).
Proof.
  intros [|line input] r rest out [= _ <- _]; [done|]. by apply suffix_cons_r.
Qed.

Lemma reads_ask_date : reads_in_order ask_date.
Proof.
  intros input. induction input as [|line input IH]; intros r rest out; cbn [ask_date].
  - by intros [= _ <- _].
  - destruct (Datetime.strptime (Str.strip line)) as [ymd|e] eqn:E.
    + intros [= _ <- _]. by apply suffix_cons_r.
    + rewrite (strptime_raises _ _ E).
      destruct (ask_date input) as [[r' i] o] eqn:E'. intros [= _ <- _].
      apply suffix_cons_r. by eapply IH.
Qed.

Lemma reads_ask_again (again : prompt) (current : string) :
  reads_in_order (ask_again again current).
Proof.
  intros input. revert current.
  induction input as [|line input IH]; intros current r rest out.
  - destruct current; cbn; by intros [= _ <- _].
  - destruct current; cbn [ask_again]; [|by intros [= _ <- _]].
    destruct (ask_again again (Str.strip line) input) as [[r' i] o] eqn:E.
    intros [= _ <- _]. apply suffix_cons_r. by eapply IH.
Qed.

Lemma reads_ask_text (first again : prompt) : reads_in_order (ask_text first again).
Proof.
  apply reads_bind; [apply reads_input_line|]. intros line. apply reads_ask_again.
Qed.

Lemma reads_ask_amount : reads_in_order ask_amount.
Proof.
  intros input. induction input as [|line input IH]; intros r rest out; cbn [ask_amount].
  - by intros [= _ <- _].
  - destruct (PyFloat.of_str line) as [x|e] eqn:E.
    + destruct (x <=? zero)%float.
      * destruct (ask_amount input) as [[r' i] o] eqn:E'. intros [= _ <- _].
        apply suffix_cons_r. by eapply IH.
      * intros [= _ <- _]. by apply suffix_cons_r.
    + rewrite (of_str_raises _ _ E).
      destruct (ask_amount input) as [[r' i] o] eqn:E'. intros [= _ <- _].
      apply suffix_cons_r. by eapply IH.
Qed.

Lemma reads_ask_budget : reads_in_order ask_budget.
Proof.
  intros input. induction input as [|line input IH]; intros r rest out; cbn [ask_budget].
  - by intros [= _ <- _].
  - destruct (PyFloat.of_str line) as [x|e] eqn:E.
    + destruct (x <=? zero)%float.
      * destruct (ask_budget input) as [[r' i] o] eqn:E'. intros [= _ <- _].
        apply suffix_cons_r. by eapply IH.
      * intros [= _ <- _]. by apply suffix_cons_r.
    + rewrite (of_str_raises _ _ E).
      destruct (ask_budget input) as [[r' i] o] eqn:E'. intros [= _ <- _].
      apply suffix_cons_r. by eapply IH.
Qed.

Lemma reads_add_expense (t : tracker) : reads_in_order (add_expense t).
Proof.
  unfold add_expense.
  apply reads_bind; [apply reads_print|intros _].
  apply reads_bind; [apply reads_ask_date|intros date].
  apply reads_bind; [apply reads_ask_text|intros category].
  apply reads_bind; [apply reads_ask_amount|intros amount].
  apply reads_bind; [apply reads_ask_text|intros description].
  apply reads_bind; [apply reads_print|intros _]. apply reads_ret.
Qed.

Lemma reads_set_budget (t : tracker) : reads_in_order (set_budget t).
Proof.
  unfold set_budget.
  apply reads_bind; [apply reads_print|intros _].
  apply reads_bind; [apply reads_ask_budget|intros budget]. apply reads_ret.
Qed.

Lemma reads_track_budget (t : tracker) : reads_in_order (track_budget t).
Proof.
  unfold track_budget. apply reads_bind; [apply reads_print|]. intros _.
  destruct (num_is_zero (monthly_budget t)).
  - apply reads_bind; [apply reads_print|]. intros _. apply reads_set_budget.
  - destruct (sum_amounts (expenses t) IntZero) as [total|e]; [|apply reads_raise].
    apply reads_bind; [apply reads_print|intros _].
    apply reads_bind; [apply reads_print|intros _].
    apply reads_bind; [|intros _; apply reads_ret].
    destruct (num_gt total (monthly_budget t)); apply reads_print.
Qed.

(** *** What the methods change *)

Lemma add_expense_entered (t t' : tracker) (input rest : list string) (out : list output) :
  add_expense t input = (Ok t', rest, out) ->
  exists e, t' = append t e /\ entered e.
Proof.
  intros (date & category & amount & description & -> & H)%add_expense_ok.
  eexists. split; [done|]. by exists date, category, amount, description.
Qed.

Lemma track_budget_expenses (t t' : tracker) (input rest : list string) out :
  track_budget t input = (Ok t', rest, out) -> expenses t' = expenses t.
Proof.
  unfold track_budget. destruct (num_is_zero (monthly_budget t)).
  - intros (u0 & i0 & o0 & o0' & H0 & H & _)%bind_ok.
    apply bind_ok in H as (u1 & i1 & o1 & o1' & H1 & H & _).
    by apply set_budget_ok in H as (budget & -> & _).
  - destruct (sum_amounts (expenses t) IntZero) as [total|e].
    + unfold bind, print, ret. destruct (num_gt total (monthly_budget t)).
      all: by intros [= <- _ _].
    + unfold bind, print, raise. done.
Qed.

Lemma track_budget_set (t t' : tracker) (input rest : list string) out :
  num_is_zero (monthly_budget t) = false ->
  track_budget t input = (Ok t', rest, out) -> t' = t.
Proof.
  intros Hb. unfold track_budget. rewrite Hb.
  destruct (sum_amounts (expenses t) IntZero) as [total|e].
  - unfold bind, print, ret. destruct (num_gt total (monthly_budget t)).
    all: by intros [= <- _ _].
  - unfold bind, print, raise. done.
Qed.

Lemma view_expenses_stored (t : tracker) :
  Forall stored (expenses t) -> exists out, view_expenses t = (Ok tt, out).
Proof.
  intros Ht. unfold view_expenses. destruct (expenses t) as [|e es] eqn:E; [by eexists|].
  rewrite view_loop_spec by done. by eexists.
Qed.

(** *** A turn of the loop *)

Ltac dispatch_cases choice :=
  unfold dispatch;
  destruct (String.eqb choice "1") eqn:?; [|
  destruct (String.eqb choice "2") eqn:?; [|
  destruct (String.eqb choice "3") eqn:?; [|
  destruct (String.eqb choice "4") eqn:?; [|
  destruct (String.eqb choice "5") eqn:?]]]].

Lemma dispatch_reads (choice : string) (t : tracker) (f : option string)
    (input : list string) (fl : flow) (s : session) :
  dispatch choice t f input = (fl, s) -> unread s `suffix_of` input.
Proof.
  dispatch_cases choice.
  - destruct (add_expense t input) as [[r input'] out] eqn:E.
    apply reads_add_expense in E. by destruct r; intros [= _ <-].
  - destruct (view_expenses t) as [r out]. by intros [= _ <-].
  - destruct (track_budget t input) as [[r input'] out] eqn:E.
    apply reads_track_budget in E. by destruct r; intros [= _ <-].
  - destruct (save_expenses t) as [content out]. by intros [= _ <-].
  - destruct (save_expenses t) as [content out]. by intros [= _ <-].
  - by intros [= _ <-].
Qed.

Lemma dispatch_expenses (P : dict -> Prop) (choice : string) (t : tracker)
    (f : option string) (input : list string) (fl : flow) (s : session) :
  (forall e, entered e -> P e) ->
  Forall P (expenses t) ->
  dispatch choice t f input = (fl, s) -> Forall P (expenses (store s)).
Proof.
  intros HP Ht. dispatch_cases choice.
  - destruct (add_expense t input) as [[[t'|e] input'] out] eqn:E; intros [= _ <-]; [|done].
    apply add_expense_entered in E as (e & -> & He).
    cbn. apply Forall_app. split; [done|]. constructor; [by apply HP|done].
  - destruct (view_expenses t) as [r out]. by intros [= _ <-].
  - destruct (track_budget t input) as [[[t'|e] input'] out] eqn:E; intros [= _ <-]; [|done].
    cbn. by rewrite (track_budget_expenses _ _ _ _ _ E).
  - destruct (save_expenses t) as [content out]. by intros [= _ <-].
  - destruct (save_expenses t) as [content out]. by intros [= _ <-].
  - by intros [= _ <-].
Qed.

Lemma dispatch_uncaught (choice : string) (t : tracker) (f : option string)
    (input : list string) (e : exn) (s : session) :
  Forall stored (expenses t) ->
  dispatch choice t f input = (Uncaught e, s) -> e = EOFError /\ unread s = [].
Proof.
  intros Ht. dispatch_cases choice.
  - destruct (add_expense t input) as [[[t'|e'] input'] out] eqn:E; intros [= <- <-].
    by apply add_expense_raises in E.
  - destruct (view_expenses_stored t Ht) as [out ->]. done.
  - destruct (track_budget t input) as [[[t'|e'] input'] out] eqn:E; intros [= <- <-].
    by apply track_budget_raises in E.
  - by destruct (save_expenses t).
  - by destruct (save_expenses t).
  - done.
Qed.

Lemma dispatch_break (choice : string) (t : tracker) (f : option string)
    (input : list string) (s : session) :
  dispatch choice t f input = (Break, s) ->
  choice = "5" /\ store s = t /\ file s = Some (save_expenses t).1
  /\ last (shown s) = Some ThankYou.
Proof.
  dispatch_cases choice.
  - by destruct (add_expense t input) as [[[t'|e'] input'] out].
  - by destruct (view_expenses t) as [[|] out].
  - by destruct (track_budget t input) as [[[t'|e'] input'] out].
  - by destruct (save_expenses t).
  - destruct (save_expenses t) as [content out]. intros [= <-].
    split; [by apply String.eqb_eq|]. split; [done|]. split; [done|].
    cbn [shown].
    change (SavingAndExiting :: map Line out ++ [ThankYou])
      with ((SavingAndExiting :: map Line out) ++ [ThankYou]).
    apply last_snoc.
  - done.
Qed.

Lemma dispatch_budget (choice : string) (t : tracker) (f : option string)
    (input : list string) (fl : flow) (s : session) :
  num_is_zero (monthly_budget t) = false ->
  dispatch choice t f input = (fl, s) -> monthly_budget (store s) = monthly_budget t.
Proof.
  intros Hb. dispatch_cases choice.
  - destruct (add_expense t input) as [[[t'|e] input'] out] eqn:E; intros [= _ <-]; [|done].
    by apply add_expense_entered in E as (e & -> & _).
  - destruct (view_expenses t) as [r out]. by intros [= _ <-].
  - destruct (track_budget t input) as [[[t'|e] input'] out] eqn:E; intros [= _ <-]; [|done].
    cbn. by rewrite (track_budget_set _ _ _ _ _ Hb E).
  - destruct (save_expenses t) as [content out]. by intros [= _ <-].
  - destruct (save_expenses t) as [content out]. by intros [= _ <-].
  - by intros [= _ <-].
Qed.

Lemma dispatch_file (choice : string) (t : tracker) (f : option string)
    (input : list string) (fl : flow) (s : session) :
  choice <> "4" -> choice <> "5" ->
  dispatch choice t f input = (fl, s) -> file s = f /\ fl <> Break.
Proof.
  intros H4 H5. dispatch_cases choice.
  - by destruct (add_expense t input) as [[[t'|e] input'] out]; intros [= <- <-].
  - by destruct (view_expenses t) as [[|] out]; intros [= <- <-].
  - by destruct (track_budget t input) as [[[t'|e] input'] out]; intros [= <- <-].
  - by destruct H4; apply String.eqb_eq.
  - by destruct H5; apply String.eqb_eq.
  - by intros [= <- <-].
Qed.

(** *** The loop *)

(** What holds of the tracker, the file and the lines left before
    every turn holds when the loop is left. *)
Lemma run_loop_invariant (I : tracker -> option string -> list string -> Prop)
    (fuel : nat) (t : tracker) (f : option string) (input : list string) r (s : session) :
  (forall line input t f fl s,
     I t f (line :: input) -> dispatch (Str.strip line) t f input = (fl, s) ->
     I (store s) (file s) (unread s)) ->
  I t f input ->
  run_loop fuel t f input = Some (r, s) -> I (store s) (file s) (unread s).
Proof.
  intros Hstep. revert t f input r s.
  induction fuel as [|fuel IH]; intros t f input r s Ht; [done|].
  cbn [run_loop]. destruct input as [|line input]; [by intros [= _ <-]|].
  destruct (dispatch (Str.strip line) t f input) as [fl s0] eqn:E.
  pose proof (Hstep _ _ _ _ _ _ Ht E) as Hs0.
  destruct fl as [| |e]; [|by intros [= _ <-]|by intros [= _ <-]].
  cbn [printed_before store file unread shown].
  destruct (run_loop fuel _ _ _) as [[r' s']|] eqn:E'; [|done].
  intros [= -> <-]. cbn [printed_before store file unread]. by eapply IH.
Qed.

(** With one unit of fuel more than there are lines, the loop comes
    to its end: by [break], or by [EOFError] when no line is left. *)
Lemma run_loop_ends (fuel : nat) (t : tracker) (f : option string) (input : list string) :
  Forall stored (expenses t) -> (length input < fuel)%nat ->
  exists r s,
    run_loop fuel t f input = Some (r, s)
    /\ (r = Ok tt \/ (r = Raise EOFError /\ unread s = [])).
Proof.
  revert t f input. induction fuel as [|fuel IH]; intros t f input Ht Hlen; [lia|].
  destruct input as [|line input]; cbn [run_loop].
  { eexists _, _. split; [done|]. by right. }
  destruct (dispatch (Str.strip line) t f input) as [fl s] eqn:E.
  pose proof (suffix_length _ _ (dispatch_reads _ _ _ _ _ _ E)) as Hreads.
  assert (Hkeeps : Forall stored (expenses (store s))).
  { eapply dispatch_expenses; [|done..].
    intros e (d & c & a & x & -> & _). by exists a. }
  destruct fl as [| |e].
  - cbn [printed_before store file unread shown].
    destruct (IH (store s) (file s) (unread s) Hkeeps) as (r & s' & -> & Hr).
    { cbn [length] in Hlen. lia. }
    eexists _, _. split; [done|]. done.
  - eexists _, _. split; [done|]. by left.
  - destruct (dispatch_uncaught _ _ _ _ _ _ Ht E) as [-> Hu].
    eexists _, _. split; [done|]. by right.
Qed.

Lemma run_loop_more_fuel (fuel : nat) (t : tracker) (f : option string)
    (input : list string) x :
  run_loop fuel t f input = Some x -> run_loop (S fuel) t f input = Some x.
Proof.
  revert t f input x. induction fuel as [|fuel IH]; intros t f input x; [done|].
  intros H. cbn [run_loop] in H. change (run_loop (S (S fuel)) t f input) with
    (match input with
     | [] =>
         Some (Raise EOFError,
               {| store := t; file := f; unread := [];
                  shown := display_menu ++ [AskChoice] |})
     | line :: input' =>
         let '(fl, s) := dispatch (Str.strip line) t f input' in
         let s := printed_before (display_menu ++ [AskChoice]) s in
         match fl with
         | Continue =>
             match run_loop (S fuel) (store s) (file s) (unread s) with
             | Some (r, s') => Some (r, printed_before (shown s) s')
             | None => None
             end
         | Break => Some (Ok tt, s)
         | Uncaught e => Some (Raise e, s)
         end
     end).
  destruct input as [|line input]; [done|].
  destruct (dispatch (Str.strip line) t f input) as [fl s].
  destruct fl; [|done|done]. cbv zeta in *.
  destruct (run_loop fuel _ _ _) as [[r s']|] eqn:E; [|done].
  by rewrite (IH _ _ _ _ E).
Qed.

Lemma run_loop_fuel (fuel fuel' : nat) (t : tracker) (f : option string)
    (input : list string) x :
  (fuel <= fuel')%nat ->
  run_loop fuel t f input = Some x -> run_loop fuel' t f input = Some x.
Proof.
  intros Hle H. induction Hle as [|fuel' _ IH]; [done|]. by apply run_loop_more_fuel.
Qed.

Lemma last_printed_before (before : list screen) (s : session) (x : screen) :
  last (shown s) = Some x -> last (shown (printed_before before s)) = Some x.
Proof. intros H. cbn [printed_before shown]. rewrite last_app. by rewrite H. Qed.

(** When the loop is left by [break], the file was written from the
    tracker as it is then. *)
Lemma run_loop_break (fuel : nat) (t : tracker) (f : option string) (input : list string)
    (s : session) :
  run_loop fuel t f input = Some (Ok tt, s) ->
  file s = Some (save_expenses (store s)).1 /\ last (shown s) = Some ThankYou.
Proof.
  revert t f input s. induction fuel as [|fuel IH]; intros t f input s; [done|].
  cbn [run_loop]. destruct input as [|line input]; [done|].
  destruct (dispatch (Str.strip line) t f input) as [fl s0] eqn:E.
  destruct fl as [| |e]; [| |done].
  - cbn [printed_before store file unread shown].
    destruct (run_loop fuel _ _ _) as [[r s']|] eqn:E'; [|done].
    intros [= -> <-]. destruct (IH _ _ _ _ E') as [Hfile Hlast].
    split; [done|]. by apply last_printed_before.
  - intros [= <-]. destruct (dispatch_break _ _ _ _ _ E) as (_ & Hstore & Hfile & Hlast).
    split; [|by apply last_printed_before].
    cbn [printed_before store file]. by rewrite Hstore.
Qed.

(** Without a line that asks for the exit, the loop is not left by
    [break]. *)
Lemma run_loop_no_exit (fuel : nat) (t : tracker) (f : option string)
    (input : list string) r (s : session) :
  Forall no_save input ->
  run_loop fuel t f input = Some (r, s) -> r <> Ok tt.
Proof.
  revert t f input r s. induction fuel as [|fuel IH]; intros t f input r s Hin; [done|].
  cbn [run_loop]. destruct input as [|line input]; [by intros [= <- _]|].
  destruct (dispatch (Str.strip line) t f input) as [fl s0] eqn:E.
  apply Forall_cons in Hin as [[H4 H5] Hin].
  destruct (dispatch_file _ _ _ _ _ _ H4 H5 E) as [_ Hfl].
  destruct fl as [| |e]; [|done|by intros [= <- _]].
  cbn [printed_before store file unread shown].
  destruct (run_loop fuel _ _ _) as [[r' s']|] eqn:E'; [|done].
  intros [= -> _]. eapply IH; [|done].
  destruct (dispatch_reads _ _ _ _ _ _ E) as [k ->]. by apply Forall_app in Hin as [_ ?].
Qed.

Lemma run_inv (t : tracker) (f : option string) (input : list string) r (s : session) :
  run t f input = Some (r, s) ->
  exists s',
    run_loop (S (length input)) t f input = Some (r, s')
    /\ s = printed_before [Welcome] s'.
Proof.
  unfold run. destruct (run_loop _ _ _ _) as [[r' s']|]; [|done].
  intros [= -> <-]. by exists s'.
Qed.

Lemma forallb_savable (es : list dict) :
  forallb savable es = true <-> Forall (fun e => savable e = true) es.
Proof.
  induction es as [|e es IH]; cbn [forallb]; [by split|].
  rewrite andb_true_iff, IH. split.
  - intros [? ?]. by constructor.
  - by inversion 1.
Qed.

Lemma entered_well_formed (e : dict) :
  entered e -> well_formed e = true /\ wrong_fields e = false.
Proof.
  intros (d & c & a & x & -> & [ymd Hd] & Hc & Ha & Hx). split; [|done].
  apply new_expense_well_formed; try done. by eapply strptime_not_empty.
Qed.

(** X14.  The program comes to an end on every file and every input,
    in one of two ways: by the exit of the menu, or by [EOFError] when
    the input has no line left.  No other exception leaves it: the
    errors of a load are reported, and the expenses of the store have
    the [float] amounts that the totals need.  The fuel of [main] is
    enough: more fuel gives the same result. *)
Theorem program_ends_by_exit_or_end_of_input (f : option string) (input : list string) :
  exists r s,
    main f input = Some (r, s)
    /\ (r = Ok tt \/ (r = Raise EOFError /\ unread s = []))
    /\ forall fuel,
         (length input < fuel)%nat ->
         run_loop fuel (init f).1 f input
         = run_loop (S (length input)) (init f).1 f input.
Proof.
  unfold main, run. destruct (init f) as [t out] eqn:E.
  assert (Ht : Forall stored (expenses t)).
  { replace t with (init f).1 by (by rewrite E). by apply load_expenses_stored. }
  destruct (run_loop_ends (S (length input)) t f input Ht (Nat.lt_succ_diag_r _))
    as (r & s & Hrun & Hr).
  rewrite Hrun. eexists _, _. split; [done|]. split; [done|].
  intros fuel Hfuel. cbn [fst]. rewrite Hrun. eapply run_loop_fuel; [|done]. lia.
Qed.

(** X15.  When [run] returns, the file is the one that [save_expenses]
    writes from the tracker as it is then, and the last line printed is
    the farewell.  When the expenses at the start have only field names
    as keys, that save succeeds and the file ends with the budget
    line. *)
Theorem exit_saves (t : tracker) (f : option string) (input : list string) (s : session) :
  run t f input = Some (Ok tt, s) ->
  file s = Some (save_expenses (store s)).1
  /\ last (shown s) = Some ThankYou
  /\ (forallb savable (expenses t) = true ->
      exists table,
        save_expenses (store s)
        = (table +:+ with_lf (budget_marker +:+ text_of_number (monthly_budget (store s))),
           [Saved])).
Proof.
  intros (s' & E & ->)%run_inv. destruct (run_loop_break _ _ _ _ _ E) as [Hfile Hlast].
  split; [done|]. split; [by apply last_printed_before|].
  intros Ht. cbn [printed_before store].
  destruct (save_expenses_savable (store s')) as (table & _ & H); [|by exists table].
  apply forallb_savable.
  apply (run_loop_invariant (fun t _ _ => Forall (fun e => savable e = true) (expenses t))
           _ _ _ _ _ _) in E; [done| |by apply forallb_savable].
  intros line input' t' f' fl s0 Ht'. apply dispatch_expenses; [|done].
  intros e [_ He]%entered_well_formed. unfold savable. by rewrite He.
Qed.

Lemma exit_saves_witness :
  run fresh None ["5"] = Some (Ok tt, exit_at_once)
  /\ forallb savable (expenses fresh) = true
  /\ file exit_at_once = Some (save_expenses fresh).1
  /\ last (shown exit_at_once) = Some ThankYou
  /\ exists table,
       save_expenses fresh = (table +:+ with_lf (budget_marker +:+ "0"), [Saved]).
Proof.
  assert (H : run fresh None ["5"] = Some (Ok tt, exit_at_once))
    by (vm_compute; reflexivity).
  split; [exact H|]. split; [reflexivity|].
  destruct (exit_saves _ _ _ _ H) as (Hfile & Hlast & Hsave).
  split; [exact Hfile|]. split; [exact Hlast|]. exact (Hsave eq_refl).
Defined.

(** X16.  The file is written on request only: when no line of the
    input, stripped, is [4] or [5], the file after [run] is the file of
    before, and [run] does not return: what was entered is lost. *)
Theorem file_written_only_on_request (t : tracker) (f : option string)
    (input : list string) r (s : session) :
  Forall no_save input ->
  run t f input = Some (r, s) ->
  file s = f /\ r <> Ok tt.
Proof.
  intros Hin (s' & E & ->)%run_inv. split; [|by eapply run_loop_no_exit].
  cbn [printed_before file].
  apply (run_loop_invariant (fun _ f' input' => f' = f /\ Forall no_save input')
           _ _ _ _ _ _) in E; [by destruct E|..|done].
  intros line input' t' f' fl s0 [-> [[H4 H5] Hin']%Forall_cons] Hd.
  split; [by eapply dispatch_file|].
  destruct (dispatch_reads _ _ _ _ _ _ Hd) as [k ->]. by apply Forall_app in Hin' as [_ ?].
Qed.

Lemma file_written_only_on_request_witness :
  Forall no_save unsaved_session
  /\ exists s,
       run fresh None unsaved_session = Some (Raise EOFError, s)
       /\ store s = {| expenses := [lunch]; monthly_budget := Float 100 |}
       /\ file s = None.
Proof.
  assert (Hin : Forall no_save unsaved_session).
  { repeat constructor; intros H; vm_compute in H; discriminate. }
  split; [exact Hin|].
  destruct (run fresh None unsaved_session) as [[r s]|] eqn:E;
    [|vm_compute in E; discriminate].
  destruct (file_written_only_on_request _ _ _ _ _ Hin E) as [Hfile _].
  vm_compute in E. injection E as <- <-.
  eexists. split; [reflexivity|]. split; [reflexivity|exact Hfile].
Defined.

(** X17.  When [run] starts with well-formed expenses whose keys are
    field names (with none, for one), the expenses are so at its end:
    a session adds no expense that [view_expenses] would skip or that
    [save_expenses] could not write. *)
Theorem session_expenses_well_formed (t : tracker) (f : option string)
    (input : list string) r (s : session) :
  Forall (fun e => well_formed e = true /\ wrong_fields e = false) (expenses t) ->
  run t f input = Some (r, s) ->
  Forall (fun e => well_formed e = true /\ wrong_fields e = false) (expenses (store s)).
Proof.
  intros Ht (s' & E & ->)%run_inv. cbn [printed_before store].
  apply (run_loop_invariant
           (fun t _ _ => Forall (fun e => well_formed e = true /\ wrong_fields e = false)
                           (expenses t)) _ _ _ _ _ _) in E; [done| |done].
  intros line input' t' f' fl s0 Ht'. apply dispatch_expenses; [|done].
  apply entered_well_formed.
Qed.

Lemma session_expenses_well_formed_witness :
  Forall (fun e => well_formed e = true /\ wrong_fields e = false) (expenses fresh)
  /\ exists s,
       run fresh None two_entries = Some (Ok tt, s)
       /\ expenses (store s) = [lunch; taxi]
       /\ Forall (fun e => well_formed e = true /\ wrong_fields e = false) [lunch; taxi].
Proof.
  assert (H0 : Forall (fun e => well_formed e = true /\ wrong_fields e = false)
                 (expenses fresh)) by constructor.
  split; [exact H0|].
  destruct (run fresh None two_entries) as [[r s]|] eqn:E;
    [|vm_compute in E; discriminate].
  pose proof (session_expenses_well_formed _ _ _ _ _ H0 E) as H.
  vm_compute in E. injection E as <- <-.
  eexists. split; [reflexivity|]. split; [reflexivity|exact H].
Defined.

(** X18.  Once a budget is set, no choice of the menu changes it:
    [set_budget] is reached only from [track_budget], and only while the
    budget is zero. *)
Theorem budget_is_set_once (t : tracker) (f : option string) (input : list string)
    r (s : session) :
  num_is_zero (monthly_budget t) = false ->
  run t f input = Some (r, s) ->
  monthly_budget (store s) = monthly_budget t.
Proof.
  intros Hb (s' & E & ->)%run_inv. cbn [printed_before store].
  apply (run_loop_invariant (fun t' _ _ => monthly_budget t' = monthly_budget t)
           _ _ _ _ _ _) in E; [done| |done].
  intros line input' t' f' fl s0 Ht' Hd. rewrite <- Ht'.
  apply (dispatch_budget _ _ _ _ _ _ ltac:(by rewrite Ht') Hd).
Qed.

Lemma budget_is_set_once_witness :
  num_is_zero (monthly_budget within_budget) = false
  /\ exists s,
       run within_budget None budget_session = Some (Ok tt, s)
       /\ unread s = []
       /\ monthly_budget (store s) = Float 100.
Proof.
  assert (H0 : num_is_zero (monthly_budget within_budget) = false) by reflexivity.
  split; [exact H0|].
  destruct (run within_budget None budget_session) as [[r s]|] eqn:E;
    [|vm_compute in E; discriminate].
  pose proof (budget_is_set_once _ _ _ _ _ H0 E) as H.
  vm_compute in E. injection E as <- <-.
  eexists. split; [reflexivity|]. split; [reflexivity|exact H].
Defined.

(** ** Rows whose amount is no number, in a file *)

(** C3, on a file with a row whose amount is [abc] followed by a row
    that stops before the amount.  The row [abc] is reported and left
    out, as the claim says.  But the load fails: at the short row
    [float(None)] raises [TypeError], which the loop over the rows does
    not catch; the load ends with an error message, and the valid row
    after it, which the loop loads when it is given it, is never
    loaded. *)
Theorem non_numeric_row_then_short_row :
  dict_reader (Str.splitlines (Str.join
     (List.filter (fun l => negb (is_marker l))
        (TextFile.readlines file_with_abc_and_short_row))))
  = ([lunch_row; abc_row; short_row; taxi_row], None)
  /\ items abc_row !! "amount" = Some (VStr "abc")
  /\ PyFloat.of_str "abc" = Raise ValueError
  /\ load_rows [taxi_row] [] = ([taxi], [], None)
  /\ init (Some file_with_abc_and_short_row)
     = ({| expenses := [lunch]; monthly_budget := Float 0 |},
        [SkippingInvalid abc_row; ErrorLoading TypeError]).
Proof. repeat split; vm_compute; reflexivity. Qed.

Lemma convert_amount_raises (row : dict) (e : exn) :
  items row !! "amount" <> Some VNone ->
  convert_amount row = Raise e -> e = ValueError \/ e = KeyError.
Proof.
  intros Hrow. unfold convert_amount.
  destruct (items row !! "amount") as [[s|x|]|]; cbn [float_of_value]; try done.
  - destruct (PyFloat.of_str s) as [x|e'] eqn:E; [done|].
    intros [= <-]. left. by eapply of_str_raises.
  - intros [= <-]. by right.
Qed.

(** The loop over rows none of which stops before the amount column. *)
Lemma load_rows_converted_rows (rows es : list dict) :
  Forall (fun row => items row !! "amount" <> Some VNone) rows ->
  load_rows rows es
  = (es ++ converted rows,
     map SkippingInvalid (List.filter (fun row => negb (numeric row)) rows), None).
Proof.
  intros Hrows. revert es. induction Hrows as [|row rows Hrow _ IH]; intros es.
  - cbn. by rewrite app_nil_r.
  - cbn [load_rows converted flat_map List.filter]. unfold numeric.
    destruct (convert_amount row) as [row'|e] eqn:E.
    + fold (converted rows). rewrite IH. cbn [negb]. by rewrite <- app_assoc.
    + fold (converted rows).
      destruct (convert_amount_raises _ _ Hrow E) as [-> | ->]; by rewrite IH.
Qed.

Lemma non_numeric_text (row : dict) (s : string) :
  items row !! "amount" = Some (VStr s) ->
  PyFloat.of_str s = Raise ValueError ->
  numeric row = false.
Proof. intros Hrow Hs. unfold numeric. by rewrite (convert_amount_text _ _ Hrow), Hs. Qed.

(** X19.  For every file whose tabular lines the reader reads without
    error and in which no data row stops before the amount column, the
    load does not fail.  The store is extended by the rows whose amount
    converts to a number, in their order and with the amount converted;
    every other row is reported as a skipped entry and left out, and so
    is every row whose amount is a text that is no numeral; the summary
    of the load is printed after these reports. *)
Theorem load_keeps_the_numeric_rows (content : string) (t : tracker) (rows : list dict) :
  let lines := TextFile.readlines content in
  let others := List.filter (fun l => negb (is_marker l)) lines in
  let budget := budget_after lines (monthly_budget t) in
  dict_reader (Str.splitlines (Str.join others)) = (rows, None) ->
  Forall (fun row => items row !! "amount" <> Some VNone) rows ->
  load_expenses (Some content) t
  = ({| expenses := expenses t ++ converted rows; monthly_budget := budget |},
     map SkippingInvalid (List.filter (fun row => negb (numeric row)) rows)
       ++ Loaded (length (expenses t ++ converted rows))
       :: (if num_gt budget IntZero then [LoadedBudget budget] else []))
  /\ (forall row s,
        items row !! "amount" = Some (VStr s) ->
        PyFloat.of_str s = Raise ValueError ->
        numeric row = false).
Proof.
  cbn zeta. intros Hreader Hrows. split; [|apply non_numeric_text].
  assert (Hcsv : load_csv (List.filter (fun l => negb (is_marker l))
                             (TextFile.readlines content)) (expenses t)
                 = (expenses t ++ converted rows,
                    map SkippingInvalid (List.filter (fun row => negb (numeric row)) rows),
                    None)).
  { unfold load_csv.
    destruct (List.filter _ (TextFile.readlines content)) as [|l ls] eqn:E.
    - cbn in Hreader. injection Hreader as <-. cbn. by rewrite app_nil_r.
    - rewrite Hreader, load_rows_converted_rows by done. done. }
  unfold load_expenses, budget_after.
  rewrite partition_lines_spec. cbn [app].
  destruct (last _) as [line|].
  - rewrite load_budget_marker, Hcsv. done.
  - cbn [load_budget]. by rewrite Hcsv.
Qed.

Lemma load_keeps_the_numeric_rows_witness :
  dict_reader (Str.splitlines (Str.join
     (List.filter (fun l => negb (is_marker l)) (TextFile.readlines file_with_abc))))
  = ([lunch_row; abc_row; taxi_row], None)
  /\ Forall (fun row => items row !! "amount" <> Some VNone) [lunch_row; abc_row; taxi_row]
  /\ numeric abc_row = false
  /\ init (Some file_with_abc)
     = ({| expenses := [lunch; taxi]; monthly_budget := Float 0 |},
        [SkippingInvalid abc_row; Loaded 2]).
Proof.
  assert (H1 : dict_reader (Str.splitlines (Str.join
                 (List.filter (fun l => negb (is_marker l))
                    (TextFile.readlines file_with_abc))))
               = ([lunch_row; abc_row; taxi_row], None)) by (vm_compute; reflexivity).
  assert (H2 : Forall (fun row => items row !! "amount" <> Some VNone)
                 [lunch_row; abc_row; taxi_row]) by (repeat constructor; discriminate).
  split; [exact H1|]. split; [exact H2|].
  destruct (load_keeps_the_numeric_rows file_with_abc fresh _ H1 H2) as [Hload Hnon].
  split; [exact (Hnon abc_row "abc" eq_refl eq_refl)|].
  unfold init. fold fresh. rewrite Hload. vm_compute. reflexivity.
Defined.
